(** * DeepResearchAI: pipeline orchestration and resilience layer

    A shallow embedding of the orchestration core of the repository
    ([src/orchestrator.py], [src/llm_client.py],
    [src/modules/web_search.py], [src/modules/error_handling.py]) and the
    properties its specification states about it.

    Conventions of the embedding.
    - A Python [float] is an IEEE binary64 number: Rocq's primitive
      [float] with the same operations.
    - A coroutine is run to completion: an [async def] becomes a function
      from the state it reads to its outcome and the state it leaves.
    - A call either returns or raises ([Outcome]).  What is raised is an
      instance of [Exception], which is what every handler of the code
      catches ([except Exception]); task cancellation and interpreter
      signals, which derive from [BaseException] alone, are outside the
      model, as they are outside the specification.
    - External collaborators (language-model and search backends, the
      stage bodies that call them, progress callbacks) are parameters:
      functions on a state [Ext] of the outside world. *)

From Stdlib Require Import List String Lia ZArith.
From Stdlib Require Import Floats.
From stdpp Require Import base option list sorting strings pretty gmap.

Set Warnings "-inexact-float,-clear-no-such-hyp,-register-all".

Local Open Scope string_scope.
Local Open Scope list_scope.

(** ** Outcomes of a call *)

Module Py.

(** An exception object: [type(e).__name__] and [str(e)]. *)
Record PyExc : Type := Exc {
  exc_type : string;
  str : string
}.

Inductive Outcome (A : Type) : Type :=
| Return (a : A)
| Raise (e : PyExc).

Arguments Return {A} a.
Arguments Raise {A} e.

Definition returns {A} (o : Outcome A) : bool :=
  match o with
  | Return _ => true
  | Raise _ => false
  end.

End Py.
Import Py.

(** ** Data model ([src/models.py], [src/orchestrator.py]) *)

(** [class ResearchStage(Enum)], in declaration order. *)
Inductive ResearchStage : Type :=
| QUERY_ANALYSIS
| WEB_SEARCH
| REASONING
| VERIFICATION
| CITATION
| OUTPUT_GENERATION
| COMPLETE.

#[global] Instance ResearchStage_eq_dec : EqDecision ResearchStage.
Proof. solve_decision. Defined.

(** [stage.value] *)
Definition stage_value (s : ResearchStage) : string :=
  match s with
  | QUERY_ANALYSIS => "query_analysis"
  | WEB_SEARCH => "web_search"
  | REASONING => "reasoning"
  | VERIFICATION => "verification"
  | CITATION => "citation"
  | OUTPUT_GENERATION => "output_generation"
  | COMPLETE => "complete"
  end.

(** [list(ResearchStage)]; [len(ResearchStage)] is its length. *)
Definition all_stages : list ResearchStage :=
  [QUERY_ANALYSIS; WEB_SEARCH; REASONING; VERIFICATION; CITATION;
   OUTPUT_GENERATION; COMPLETE].

(** [@dataclass class SearchResult] *)
Record SearchResult : Type := mkSearchResult {
  sr_title : string;
  sr_url : string;
  sr_snippet : string;
  sr_domain : string;
  sr_relevance_score : float
}.

(** [@dataclass class Source], the fields the orchestrator sets. *)
Record Source : Type := mkSource {
  source_id : string;
  url : string;
  title : string;
  content : string;
  domain : string;
  credibility_score : float
}.

(** [@dataclass class ReasoningStep] *)
Record ReasoningStep : Type := mkReasoningStep {
  step_number : Z;
  thought : string;
  evidence : string;
  conclusion : string
}.

(** [@dataclass class QueryAnalysis]: the field the orchestrator reads,
    the [query] of each entry of [sub_queries]. *)
Record QueryAnalysis : Type := mkQueryAnalysis {
  sub_queries : list string
}.

(** A dict the orchestrator only hands on ([synthesis], [citations]):
    keys to values, the values kept as their text. *)
Abbreviation PyDict := (gmap string string).

(** The dict a verification stage leaves in [session.verification]: the
    one key the orchestrator reads, [overall_confidence], and whether the
    dict has any key at all (an empty dict is falsy). *)
Record VerificationDict : Type := mkVerification {
  vd_nonempty : bool;
  vd_overall_confidence : option float
}.

(** A value parsed from JSON, which is what the language model's reply
    is once [call_json] has decoded it: [None], a [bool], an [int], a
    [float], a [str], a [list] or a [dict] with string keys. *)
Inductive Json : Type :=
| JNull
| JBool (b : bool)
| JInt (n : Z)
| JFloat (x : float)
| JStr (s : string)
| JList (xs : list Json)
| JDict (d : gmap string Json).

(** [type(v).__name__] *)
Definition type_name (v : Json) : string :=
  match v with
  | JNull => "NoneType"
  | JBool _ => "bool"
  | JInt _ => "int"
  | JFloat _ => "float"
  | JStr _ => "str"
  | JList _ => "list"
  | JDict _ => "dict"
  end.

(** What the attribute lookup [v.get] raises on a value that is no
    dict. *)
Definition no_attribute_get (v : Json) : PyExc :=
  Exc "AttributeError"
      ("'" +:+ type_name v +:+ "' object has no attribute 'get'").

(** [v.get(key, default)]: a dict answers with the value under the key,
    or with the default when the key is absent; no other value has a
    method [get]. *)
Definition py_get (v : Json) (key : string) (default : Json)
  : Outcome Json :=
  match v with
  | JDict d =>
      match d !! key with
      | Some x => Return x
      | None => Return default
      end
  | _ => Raise (no_attribute_get v)
  end.

(** A value that is no dict. *)
Definition not_a_dict (v : Json) : Prop :=
  match v with
  | JDict _ => False
  | _ => True
  end.

(** A value of [ResearchResult.metadata]. *)
Inductive MetaValue : Type :=
| MStr (s : string)
| MBool (b : bool)
| MFallback (d : Json)
| MOther (text : string).

(** [@dataclass class ResearchResult], without the legacy fields, which
    keep their defaults.  A dataclass does not check the types of its
    fields: [answer] is whatever value the caller passed. *)
Record ResearchResult : Type := mkResearchResult {
  rr_query : string;
  answer : Json;
  confidence : float;
  rr_sources : list Source;
  rr_reasoning_steps : list ReasoningStep;
  verification_status : string;
  metadata : gmap string MetaValue
}.

(** [@dataclass class ResearchProgress].  [start_time] is a timestamp and
    [stage_times] maps a stage's value to its duration in seconds; the
    clock is outside the model, so of [stage_times] the keys are kept, in
    insertion order. *)
Record ResearchProgress : Type := mkProgress {
  current_stage : ResearchStage;
  stages_completed : list ResearchStage;
  stage_times : list string;
  errors : list string
}.

(** [ResearchProgress.complete_stage] *)
Definition complete_stage (p : ResearchProgress) (stage : ResearchStage)
  : ResearchProgress :=
  {| current_stage := current_stage p;
     stages_completed := stages_completed p ++ [stage];
     stage_times :=
       if decide (stage_value stage ∈ stage_times p) then stage_times p
       else stage_times p ++ [stage_value stage];
     errors := errors p |}.

(** [float(n)] for a length. *)
Definition float_of_nat (n : nat) : float :=
  PrimFloat.of_uint63 (Uint63.of_Z (Z.of_nat n)).

(** [ResearchProgress.progress_percentage] *)
Definition progress_percentage (p : ResearchProgress) : float :=
  let total_stages := (length all_stages - 1)%nat in
  PrimFloat.mul
    (PrimFloat.div (float_of_nat (length (stages_completed p)))
                   (float_of_nat total_stages))
    100%float.

(** The percentage as a function of the number of completed stages. *)
Definition pct_of_count (n : nat) : float :=
  PrimFloat.mul (PrimFloat.div (float_of_nat n) (float_of_nat 6))
                100%float.

(** The fields of [ResearchSession] that hold what the stages produce;
    each starts empty and is assigned by the stage that computes it. *)
Record StageResults : Type := mkStageResults {
  query_analysis : option QueryAnalysis;
  search_results : list SearchResult;
  sources : list Source;
  reasoning_steps : list ReasoningStep;
  synthesis : option PyDict;
  verification : option VerificationDict;
  citations : option PyDict;
  final_result : option ResearchResult
}.

(** [@dataclass class ResearchSession] *)
Record ResearchSession : Type := mkSession {
  session_id : string;
  query : string;
  progress : ResearchProgress;
  results : StageResults
}.

Definition empty_results : StageResults :=
  {| query_analysis := None; search_results := []; sources := [];
     reasoning_steps := []; synthesis := None; verification := None;
     citations := None; final_result := None |}.

Definition with_progress (s : ResearchSession) (p : ResearchProgress)
  : ResearchSession :=
  {| session_id := session_id s; query := query s; progress := p;
     results := results s |}.

Definition with_results (s : ResearchSession) (r : StageResults)
  : ResearchSession :=
  {| session_id := session_id s; query := query s; progress := progress s;
     results := r |}.

(** ** Confidence ([ResearchOrchestrator._calculate_confidence]) *)

(** [sum(xs)] on floats: left to right from the integer 0.  (Recent
    interpreters compensate the rounding of the partial sums; on a list
    of one term, which is all the statements below evaluate, the two
    agree.) *)
Definition py_sum (xs : list float) : float :=
  fold_left PrimFloat.add xs 0%float.

(** [min(a, b)] and [max(a, b)] as Python computes them: the first
    argument unless the second is strictly smaller (larger). *)
Definition py_min (a b : float) : float :=
  if PrimFloat.ltb b a then b else a.

Definition py_max (a b : float) : float :=
  if PrimFloat.ltb a b then b else a.

(** [ResearchOrchestrator._calculate_confidence] *)
Definition _calculate_confidence (session : ResearchSession) : float :=
  let srcs := sources (results session) in
  let factors := [] in
  let factors :=
    match srcs with
    | [] => factors
    | _ :: _ =>
        factors ++
        [PrimFloat.div (py_sum (map credibility_score srcs))
                       (float_of_nat (length srcs))]
    end in
  let factors :=
    match verification (results session) with
    | Some v =>
        if vd_nonempty v
        then factors ++ [default 0.5%float (vd_overall_confidence v)]
        else factors
    | None => factors
    end in
  let source_score :=
    py_min (PrimFloat.div (float_of_nat (length srcs)) 10%float) 1.0%float in
  let factors := factors ++ [source_score] in
  let error_penalty :=
    PrimFloat.mul (float_of_nat (length (errors (progress session))))
                  0.1%float in
  match factors with
  | _ :: _ =>
      let base_confidence :=
        PrimFloat.div (py_sum factors) (float_of_nat (length factors)) in
      py_max 0.0%float
             (py_min 1.0%float (PrimFloat.sub base_confidence error_penalty))
  | [] => 0.5%float
  end.

(** A session with no sources, no verification result and no recorded
    errors. *)
Definition no_signals (sid q : string) : ResearchSession :=
  {| session_id := sid; query := q;
     progress := {| current_stage := OUTPUT_GENERATION;
                    stages_completed := []; stage_times := [];
                    errors := [] |};
     results := empty_results |}.

(** ** Calls that return or raise, over a state

    [Eff S A] is a call that reads and writes a state [S] and either
    returns an [A] or raises. *)

Definition Eff (S A : Type) : Type := S -> Outcome A * S.

#[global] Instance Eff_ret {S} : MRet (Eff S) :=
  fun A (a : A) (s : S) => (Return a, s).

#[global] Instance Eff_bind {S} : MBind (Eff S) :=
  fun A B (k : A -> Eff S B) (m : Eff S A) (s : S) =>
    match m s with
    | (Return a, s') => k a s'
    | (Raise e, s') => (Raise e, s')
    end.

(** [raise e] *)
Definition raise {S A} (e : PyExc) : Eff S A :=
  fun s => (Raise e, s).

(** [try: body / except Exception as e: handler(e)] *)
Definition try_except {S A} (body : Eff S A) (handler : PyExc -> Eff S A)
  : Eff S A :=
  fun s =>
    match body s with
    | (Return a, s') => (Return a, s')
    | (Raise e, s') => handler e s'
    end.

(** An expression that returns or raises without touching the state. *)
Definition eval {S A} (o : Outcome A) : Eff S A :=
  fun s => (o, s).

Definition gets {S A} (f : S -> A) : Eff S A :=
  fun s => (Return (f s), s).

Definition modify {S} (f : S -> S) : Eff S unit :=
  fun s => (Return tt, f s).

(** ** The orchestrator ([class ResearchOrchestrator]) *)

(** [self.active_sessions] and [self._session_counter].  The registry
    holds a reference to each session object; the running session is
    threaded as a value of its own, and the registry keeps the object as
    it was registered (the code modelled here reads the keys of the
    registry only). *)
Record Orchestrator : Type := mkOrchestrator {
  active_sessions : gmap string ResearchSession;
  _session_counter : nat
}.

(** [ResearchOrchestrator.__init__], the session tracking. *)
Definition Orchestrator_init : Orchestrator :=
  {| active_sessions := ∅; _session_counter := 0 |}.

Definition initial_progress : ResearchProgress :=
  {| current_stage := QUERY_ANALYSIS; stages_completed := [];
     stage_times := []; errors := [] |}.

(** [ResearchOrchestrator._create_session]; [now] is
    [datetime.now().strftime('%Y%m%d%H%M%S')]. *)
Definition _create_session (self : Orchestrator) (now query : string)
  : ResearchSession * Orchestrator :=
  let counter := S (_session_counter self) in
  let session_id := "session_" +:+ pretty counter +:+ "_" +:+ now in
  let session :=
    {| session_id := session_id; query := query;
       progress := initial_progress; results := empty_results |} in
  (session,
   {| active_sessions := <[session_id := session]> (active_sessions self);
      _session_counter := counter |}).

(** [ResearchOrchestrator._cleanup_session] *)
Definition _cleanup_session (self : Orchestrator) (session_id : string)
  : Orchestrator :=
  if decide (is_Some (active_sessions self !! session_id))
  then {| active_sessions := delete session_id (active_sessions self);
          _session_counter := _session_counter self |}
  else self.

Definition with_current_stage (p : ResearchProgress) (stage : ResearchStage)
  : ResearchProgress :=
  {| current_stage := stage; stages_completed := stages_completed p;
     stage_times := stage_times p; errors := errors p |}.

(** [progress.errors.append(msg)] *)
Definition append_error (p : ResearchProgress) (msg : string)
  : ResearchProgress :=
  {| current_stage := current_stage p;
     stages_completed := stages_completed p;
     stage_times := stage_times p; errors := errors p ++ [msg] |}.

(** The fixed answer of a degraded result whose fallback dict has no
    response. *)
Definition default_answer : string := "Research could not be completed.".

(** The dict [generate_fallback_content] builds when the language-model
    call raises. *)
Definition fixed_fallback (failed_sources : list string) : Json :=
  JDict
    (<["fallback_content" :=
         JDict (<["response" :=
                    JStr "Unable to complete the research at this time."]>
                  (<["confidence" := JFloat 0.0%float]>
                     (<["completeness" := JFloat 0.0%float]> ∅)))]>
       (<["limitations_disclosure" :=
            JDict (<["what_is_missing" := JList (map JStr failed_sources)]>
                     (<["quality_impact" := JStr "significant"]> ∅))]>
          ∅)).

(** [fallback.get("fallback_content", {}).get("response", default_answer)]:
    it raises when [fallback], or what it holds under
    ["fallback_content"], is no dict. *)
Definition fallback_response (fallback : Json) : Outcome Json :=
  match py_get fallback "fallback_content" (JDict ∅) with
  | Return inner => py_get inner "response" (JStr default_answer)
  | Raise e => Raise e
  end.

(** The dict [generate_fallback_content] returns, given what the
    language-model call did: its reply, as it is, or the fixed dict. *)
Definition fallback_of (o : Outcome Json) (failed_sources : list string)
  : Json :=
  match o with
  | Return reply => reply
  | Raise _ => fixed_fallback failed_sources
  end.

(** The [ResearchResult] that [_handle_research_failure] builds. *)
Definition degraded_result (session : ResearchSession) (error : PyExc)
    (answer0 fallback : Json) : ResearchResult :=
  {| rr_query := query session;
     answer := answer0;
     confidence := 0.2%float;
     rr_sources := sources (results session);
     rr_reasoning_steps := reasoning_steps (results session);
     verification_status := "failed";
     metadata :=
       <["error" := MStr (str error)]>
         (<["partial" := MBool true]>
            (<["fallback" := MFallback fallback]> ∅)) |}.

(** [return ResearchResult(query=..., answer=<the .get chain>, ...)]: the
    keyword arguments are evaluated in order, so the chain raises before
    a result is built. *)
Definition handled (session : ResearchSession) (error : PyExc)
    (fallback : Json) : Outcome (option ResearchResult) :=
  match fallback_response fallback with
  | Return answer0 =>
      Return (Some (degraded_result session error answer0 fallback))
  | Raise e => Raise e
  end.

Section Pipeline.

(** The state of the outside world: the collaborators behind the stages,
    the language model, whatever a progress callback touches. *)
Context {Ext : Type}.

(** [progress_callback(stage, percentage)] *)
Definition Callback : Type :=
  ResearchStage -> float -> Eff Ext unit.

(** The call [await stage_func( *args )] of [_run_stage]: it reads the
    session, assigns result fields of it, and returns or raises.  What
    the stage callable returns is dropped by [_run_stage]. *)
Definition StageFunc : Type :=
  ResearchSession -> Ext -> Outcome unit * StageResults * Ext.

(** What one run of [research] carries: the session object, the outside
    world, and two records kept for the statements below, the progress
    states the run has passed through and the stage calls made with
    their outcomes. *)
Record RunState : Type := mkRun {
  run_session : ResearchSession;
  run_ext : Ext;
  run_trace : list ResearchProgress;
  run_calls : list (ResearchStage * Outcome unit)
}.

Definition init_run (session : ResearchSession) (w : Ext) : RunState :=
  {| run_session := session; run_ext := w;
     run_trace := [progress session]; run_calls := [] |}.

(** An assignment to [session.progress]. *)
Definition set_progress (f : ResearchProgress -> ResearchProgress)
  : Eff RunState unit :=
  modify (fun st =>
    let p := f (progress (run_session st)) in
    {| run_session := with_progress (run_session st) p;
       run_ext := run_ext st;
       run_trace := run_trace st ++ [p];
       run_calls := run_calls st |}).

(** A call of the outside world from within a run. *)
Definition lift_ext {A} (m : Eff Ext A) : Eff RunState A :=
  fun st =>
    let '(o, w) := m (run_ext st) in
    (o, {| run_session := run_session st; run_ext := w;
           run_trace := run_trace st; run_calls := run_calls st |}).

(** [await stage_func( *args )] *)
Definition await_stage (stage : ResearchStage) (stage_func : StageFunc)
  : Eff RunState unit :=
  fun st =>
    let '(o, r, w) := stage_func (run_session st) (run_ext st) in
    (o, {| run_session := with_results (run_session st) r;
           run_ext := w;
           run_trace := run_trace st;
           run_calls := run_calls st ++ [(stage, o)] |}).

(** The session once [_run_stage] has set its current stage. *)
Definition entered (session : ResearchSession) (stage : ResearchStage)
  : ResearchSession :=
  with_progress session (with_current_stage (progress session) stage).

(** [ResearchOrchestrator._run_stage].  [progress_callback] is the keyword
    argument popped from [kwargs]. *)
Definition _run_stage (stage : ResearchStage) (stage_func : StageFunc)
    (progress_callback : option Callback) : Eff RunState unit :=
  set_progress (fun p => with_current_stage p stage) ;;
  match progress_callback with
  | Some cb =>
      pct ← gets (fun st => progress_percentage (progress (run_session st)));
      lift_ext (cb stage pct)
  | None => mret tt
  end ;;
  try_except
    (await_stage stage stage_func ;;
     set_progress (fun p => complete_stage p stage))
    (fun e =>
       set_progress
         (fun p => append_error p (stage_value stage +:+ ": " +:+ str e)) ;;
       raise e).

(** *** Degraded output ([ErrorHandler.generate_fallback_content],
    [ResearchOrchestrator._handle_research_failure]) *)

(** [self.llm_client.call_json(prompt)], the language-model call: the
    reply is a parsed JSON value, of whatever shape. *)
Variable call_json : string -> Eff Ext Json.

(** [FALLBACK_CONTENT_PROMPT.format(query=, available_info=,
    failed_sources=, cached_data=)] and Python's [str] of a dict and of a
    list of strings. *)
Variable FALLBACK_CONTENT_PROMPT : string -> string -> string -> string -> string.
Variable str_dict : PyDict -> string.
Variable str_list : list string -> string.

(** [str(d) if d else "None"] *)
Definition str_or_None (d : option PyDict) : string :=
  match d with
  | Some m => if decide (m = ∅) then "None" else str_dict m
  | None => "None"
  end.

(** [ErrorHandler.generate_fallback_content] *)
Definition generate_fallback_content (query0 : string)
    (available_info : option PyDict) (failed_sources : list string)
    (cached_data : option PyDict) : Eff Ext Json :=
  let prompt :=
    FALLBACK_CONTENT_PROMPT query0 (str_or_None available_info)
      (str_list failed_sources) (str_or_None cached_data) in
  try_except
    (result ← call_json prompt; mret result)
    (fun _ => mret (fixed_fallback failed_sources)).

(** The prompt of the language-model call of a degraded run. *)
Definition fallback_prompt (session : ResearchSession) (error : PyExc)
  : string :=
  FALLBACK_CONTENT_PROMPT (query session)
    (str_or_None (synthesis (results session)))
    (str_list [str error]) (str_or_None None).

(** [ResearchOrchestrator._handle_research_failure] *)
Definition _handle_research_failure (error : PyExc)
  : Eff RunState (option ResearchResult) :=
  session ← gets run_session;
  fallback ← lift_ext
    (generate_fallback_content (query session)
       (synthesis (results session)) [str error] None);
  eval (handled session error fallback).

(** *** The pipeline ([ResearchOrchestrator.research]) *)

(** The six stage methods, each as [_run_stage] calls it with the
    arguments [research] passes: the query or the session, the stage's
    option ([max_sources], [citation_style], [audience]) and
    [progress_callback], which [research] passes positionally, so that it
    is one of the callable's arguments and no keyword of [_run_stage].
    What a method does with these arguments, down to rejecting their
    number with a [TypeError], is part of what the parameter stands
    for. *)
Variables _analyze_query _search_web _reason _verify _generate_citations
  _generate_output : StageFunc.

(** The [try] block of [research]. *)
Definition research_body (verify_claims : bool)
    (progress_callback : option Callback)
  : Eff RunState (option ResearchResult) :=
  _run_stage QUERY_ANALYSIS _analyze_query None ;;
  _run_stage WEB_SEARCH _search_web None ;;
  _run_stage REASONING _reason None ;;
  (if verify_claims then _run_stage VERIFICATION _verify None
   else mret tt) ;;
  _run_stage CITATION _generate_citations None ;;
  _run_stage OUTPUT_GENERATION _generate_output None ;;
  set_progress (fun p => with_current_stage p COMPLETE) ;;
  match progress_callback with
  | Some cb => lift_ext (cb COMPLETE 100.0%float)
  | None => mret tt
  end ;;
  gets (fun st => final_result (results (run_session st))).

(** [ResearchOrchestrator.research]: create the session, run the [try]
    block under [except Exception], and clean up in [finally].  The
    result is what the call returns or raises, the orchestrator it
    leaves, and the run's last state.  The arguments of the method that
    only travel to the stage methods ([audience], [citation_style],
    [output_format], [max_sources]) are left to those parameters. *)
Definition research (query0 : string) (verify_claims : bool)
    (progress_callback : option Callback) (now : string)
    (self : Orchestrator) (w : Ext)
  : Outcome (option ResearchResult) * Orchestrator * RunState :=
  let '(session, self1) := _create_session self now query0 in
  let '(o, st) :=
    try_except (research_body verify_claims progress_callback)
               _handle_research_failure (init_run session w) in
  (o, _cleanup_session self1 (session_id (run_session st)), st).

(** *** Notions used to state the properties of a run *)

(** The method [research] passes to [_run_stage] for a stage. *)
Definition stage_method (stage : ResearchStage) : StageFunc :=
  match stage with
  | QUERY_ANALYSIS => _analyze_query
  | WEB_SEARCH => _search_web
  | REASONING => _reason
  | VERIFICATION => _verify
  | CITATION => _generate_citations
  | OUTPUT_GENERATION => _generate_output
  | COMPLETE => fun session w => (Return tt, results session, w)
  end.

(** The stages [research] runs, in the order it runs them. *)
Definition stage_plan (verify_claims : bool) : list ResearchStage :=
  [QUERY_ANALYSIS; WEB_SEARCH; REASONING]
  ++ (if verify_claims then [VERIFICATION] else [])
  ++ [CITATION; OUTPUT_GENERATION].

(** The order of the stages as declared, without the terminal one. *)
Definition canonical_order : list ResearchStage :=
  [QUERY_ANALYSIS; WEB_SEARCH; REASONING; VERIFICATION; CITATION;
   OUTPUT_GENERATION].

(** A list of stages run through [_run_stage] one after the other, then
    a continuation. *)
Fixpoint run_stages {A} (plan : list ResearchStage)
    (rest : Eff RunState A) : Eff RunState A :=
  match plan with
  | [] => rest
  | stage :: plan' =>
      _run_stage stage (stage_method stage) None ;; run_stages plan' rest
  end.

(** What [research] does after the last stage. *)
Definition finish (progress_callback : option Callback)
  : Eff RunState (option ResearchResult) :=
  set_progress (fun p => with_current_stage p COMPLETE) ;;
  match progress_callback with
  | Some cb => lift_ext (cb COMPLETE 100.0%float)
  | None => mret tt
  end ;;
  gets (fun st => final_result (results (run_session st))).

(** No stage call recorded so far has raised. *)
Definition no_raise (st : RunState) : Prop :=
  forall stage e, (stage, Raise e) ∉ run_calls st.

(** The completed stages only grow. *)
Definition le_completed (p q : ResearchProgress) : Prop :=
  stages_completed p `prefix_of` stages_completed q.

(** A progress state of a run whose stages are [plan]: the completed
    stages are a prefix of the plan, and once they are the whole plan
    the current stage is the last of the plan or the terminal one. *)
Definition on_plan (plan : list ResearchStage) (p : ResearchProgress)
  : Prop :=
  stages_completed p `prefix_of` plan
  /\ (stages_completed p = plan ->
      current_stage p = COMPLETE \/ last plan = Some (current_stage p)).

(** The trace of a run: every state is on the plan, the states are
    ordered by their completed stages, and the last one is the state of
    the session. *)
Definition run_inv (plan : list ResearchStage) (st : RunState)
  : Prop :=
  Forall (on_plan plan) (run_trace st)
  /\ StronglySorted le_completed (run_trace st)
  /\ last (run_trace st) = Some (progress (run_session st)).

End Pipeline.

(** ** Deduplication of search results ([_search_web]) *)

(** One iteration of the loop over [all_results]: the state is
    [seen_urls] and [unique_results]. *)
Definition dedup_step (acc : gset string * list SearchResult)
    (result : SearchResult) : gset string * list SearchResult :=
  if decide (sr_url result ∈ acc.1) then acc
  else ({[ sr_url result ]} ∪ acc.1, acc.2 ++ [result]).

(** [unique_results] after the loop. *)
Definition deduplicate_by_url (all_results : list SearchResult)
  : list SearchResult :=
  (fold_left dedup_step all_results (∅, [])).2.

(** The loop, as a recursive function of the URLs seen so far: a result
    is kept when its URL has not been seen. *)
Fixpoint keep_unseen (seen : gset string) (l : list SearchResult)
  : list SearchResult :=
  match l with
  | [] => []
  | x :: l' =>
      if decide (sr_url x ∈ seen) then keep_unseen seen l'
      else x :: keep_unseen ({[ sr_url x ]} ∪ seen) l'
  end.

(** [xs[:n]] *)
Definition py_slice_to {A} (xs : list A) (n : Z) : list A :=
  if (0 <=? n)%Z then take (Z.to_nat n) xs
  else take (length xs - Z.to_nat (- n)) xs.

(** [session.search_results] as [_search_web] assigns it. *)
Definition search_results_of (all_results : list SearchResult)
    (max_sources : Z) : list SearchResult :=
  py_slice_to (deduplicate_by_url all_results) max_sources.

(** ** The language-model client with fallback ([class LLMClient]) *)

Module LLM.

Inductive Backend : Type := Primary | Fallback.

#[global] Instance Backend_eq_dec : EqDecision Backend.
Proof. solve_decision. Defined.

(** The arguments of [generate] and of [generate_json]. *)
Record GenerateArgs : Type := mkGenerateArgs {
  prompt : string;
  system_prompt : option string;
  temperature : option float;
  max_tokens : option Z;
  json_mode : bool
}.

Record GenerateJsonArgs : Type := mkGenerateJsonArgs {
  j_prompt : string;
  j_system_prompt : option string;
  j_temperature : option float
}.

Inductive Call : Type :=
| CallGenerate (args : GenerateArgs)
| CallGenerateJson (args : GenerateJsonArgs).

Section Client.

Context {Ext : Type}.

(** [class BaseLLMClient(ABC)]: the two abstract methods.  The concrete
    clients call a remote service; they are parameters. *)
Record BaseLLMClient : Type := mkBackend {
  generate_of : GenerateArgs -> Eff Ext string;
  generate_json_of : GenerateJsonArgs -> Eff Ext PyDict
}.

(** [class LLMClient] *)
Record LLMClient : Type := mkLLMClient {
  primary : BaseLLMClient;
  fallback : BaseLLMClient;
  _use_fallback : bool
}.

(** [LLMClient.__init__], given the two clients it constructs. *)
Definition LLMClient_init (p f : BaseLLMClient) : LLMClient :=
  {| primary := p; fallback := f; _use_fallback := false |}.

(** The client object, the outside world, and a record of the backend
    calls made, oldest first. *)
Record ClientState : Type := mkClientState {
  self : LLMClient;
  ext : Ext;
  backend_calls : list (Backend * Call)
}.

Definition set_use_fallback (st : ClientState) : ClientState :=
  {| self := {| primary := primary (self st); fallback := fallback (self st);
                _use_fallback := true |};
     ext := ext st; backend_calls := backend_calls st |}.

(** [client = self.fallback if self._use_fallback else self.primary] *)
Definition current_backend (st : ClientState) : Backend :=
  if _use_fallback (self st) then Fallback else Primary.

Definition backend (st : ClientState) (b : Backend) : BaseLLMClient :=
  match b with
  | Primary => primary (self st)
  | Fallback => fallback (self st)
  end.

(** [await client.method(...)] *)
Definition call_backend {Res} (b : Backend) (call : Call)
    (method : BaseLLMClient -> Eff Ext Res) : Eff ClientState Res :=
  fun st =>
    let '(o, w) := method (backend st b) (ext st) in
    (o, {| self := self st; ext := w;
           backend_calls := backend_calls st ++ [(b, call)] |}).

(** The state after a backend has been called. *)
Definition called (st : ClientState) (b : Backend) (call : Call) (w : Ext)
  : ClientState :=
  {| self := self st; ext := w;
     backend_calls := backend_calls st ++ [(b, call)] |}.

(** The body shared by [LLMClient.generate] and [LLMClient.generate_json]:
    call the current client; on an exception, if the flag is not set, set
    it and call the same method of [self] again with the same arguments.
    [fuel] bounds the depth of that recursion. *)
Fixpoint with_fallback {Res} (fuel : nat) (call : Call)
    (method : BaseLLMClient -> Eff Ext Res) (st : ClientState)
  : option (Outcome Res * ClientState) :=
  match fuel with
  | O => None
  | S fuel' =>
      match call_backend (current_backend st) call method st with
      | (Return r, st') => Some (Return r, st')
      | (Raise e, st') =>
          if negb (_use_fallback (self st'))
          then with_fallback fuel' call method (set_use_fallback st')
          else Some (Raise e, st')
      end
  end.

(** [LLMClient.generate] *)
Definition generate (fuel : nat) (args : GenerateArgs) (st : ClientState)
  : option (Outcome string * ClientState) :=
  with_fallback fuel (CallGenerate args) (fun c => generate_of c args) st.

(** [LLMClient.generate_json] *)
Definition generate_json (fuel : nat) (args : GenerateJsonArgs)
    (st : ClientState) : option (Outcome PyDict * ClientState) :=
  with_fallback fuel (CallGenerateJson args)
                (fun c => generate_json_of c args) st.

(** What a call of either method returns. *)
Definition Reply : Type := (string + PyDict)%type.

Definition reply_of {A} (inj : A -> Reply) (o : Outcome A) : Outcome Reply :=
  match o with
  | Return a => Return (inj a)
  | Raise e => Raise e
  end.

(** The method of a backend that a call names, applied to the call's
    arguments. *)
Definition backend_reply (c : BaseLLMClient) (call : Call) : Eff Ext Reply :=
  fun w =>
    match call with
    | CallGenerate args =>
        let '(o, w') := generate_of c args w in (reply_of inl o, w')
    | CallGenerateJson args =>
        let '(o, w') := generate_json_of c args w in (reply_of inr o, w')
    end.

(** A call of [generate] or of [generate_json] on the client. *)
Definition perform (fuel : nat) (call : Call) (st : ClientState)
  : option (Outcome Reply * ClientState) :=
  match call with
  | CallGenerate args =>
      '(o, st') ← generate fuel args st; Some (reply_of inl o, st')
  | CallGenerateJson args =>
      '(o, st') ← generate_json fuel args st; Some (reply_of inr o, st')
  end.

(** A sequence of calls on one client, each run to its end. *)
Fixpoint perform_all (fuel : nat) (calls : list Call) (st : ClientState)
  : option (list (Outcome Reply) * ClientState) :=
  match calls with
  | [] => Some ([], st)
  | call :: rest =>
      '(o, st') ← perform fuel call st;
      '(os, st'') ← perform_all fuel rest st';
      Some (o :: os, st'')
  end.

End Client.

End LLM.

(** ** The search provider with fallback ([class WebSearch]) *)

Module Search.

Inductive Provider : Type := Primary | Fallback.

#[global] Instance Provider_eq_dec : EqDecision Provider.
Proof. solve_decision. Defined.

Section WebSearch.

(** The outside world, and a search result as a provider returns it
    (a dict). *)
Context {Ext Result : Type}.

(** [BaseSearchProvider.search(query, max_results)] *)
Definition BaseSearchProvider : Type :=
  string -> Z -> Eff Ext (list Result).

(** [class WebSearch], the providers and the flag. *)
Record WebSearch : Type := mkWebSearch {
  primary_provider : BaseSearchProvider;
  fallback_provider : BaseSearchProvider;
  _use_fallback : bool
}.

(** [WebSearch.__init__], given the two providers it constructs. *)
Definition WebSearch_init (p f : BaseSearchProvider) : WebSearch :=
  {| primary_provider := p; fallback_provider := f;
     _use_fallback := false |}.

Record SearchState : Type := mkSearchState {
  self : WebSearch;
  ext : Ext;
  provider_calls : list (Provider * string * Z)
}.

Definition set_use_fallback (st : SearchState) : SearchState :=
  {| self := {| primary_provider := primary_provider (self st);
                fallback_provider := fallback_provider (self st);
                _use_fallback := true |};
     ext := ext st; provider_calls := provider_calls st |}.

Definition provider (st : SearchState) (p : Provider) : BaseSearchProvider :=
  match p with
  | Primary => primary_provider (self st)
  | Fallback => fallback_provider (self st)
  end.

(** [await provider.search(query, max_results)] *)
Definition call_provider (p : Provider) (query0 : string) (max_results : Z)
  : Eff SearchState (list Result) :=
  fun st =>
    let '(o, w) := provider st p query0 max_results (ext st) in
    (o, {| self := self st; ext := w;
           provider_calls :=
             provider_calls st ++ [(p, query0, max_results)] |}).

(** The state after a provider has been called. *)
Definition called (st : SearchState) (p : Provider) (q : string)
    (max_results : Z) (w : Ext)
  : SearchState :=
  {| self := self st; ext := w;
     provider_calls := provider_calls st ++ [(p, q, max_results)] |}.

(** What [_execute_search] answers once the fallback provider has been
    asked: its results, or no results when it raised. *)
Definition fallback_answer (o : Outcome (list Result))
  : Outcome (list Result) :=
  match o with
  | Return results => Return results
  | Raise _ => Return []
  end.

(** The [try] block of [_execute_search]; [provider0] was chosen before
    it. *)
Definition execute_search_try (provider0 : Provider) (query0 : string)
    (max_results : Z) : Eff SearchState (list Result) :=
  results ← call_provider provider0 query0 max_results;
  use_fallback ← gets (fun st => _use_fallback (self st));
  if bool_decide (results = []) && negb use_fallback then
    modify set_use_fallback ;;
    results ← call_provider Fallback query0 max_results;
    mret results
  else mret results.

(** [WebSearch._execute_search]; [fuel] bounds the depth of the recursive
    call in the handler. *)
Fixpoint _execute_search (fuel : nat) (query0 : string) (max_results : Z)
    (st : SearchState) : option (Outcome (list Result) * SearchState) :=
  match fuel with
  | O => None
  | S fuel' =>
      let provider0 :=
        if _use_fallback (self st) then Fallback else Primary in
      match execute_search_try provider0 query0 max_results st with
      | (Return results, st') => Some (Return results, st')
      | (Raise e, st') =>
          if negb (_use_fallback (self st'))
          then _execute_search fuel' query0 max_results
                               (set_use_fallback st')
          else Some (Return [], st')
      end
  end.

(** A sequence of searches on one [WebSearch], each a query with its
    limit, each run to its end. *)
Fixpoint execute_all (fuel : nat) (queries : list (string * Z))
    (st : SearchState) : option (list (Outcome (list Result)) * SearchState) :=
  match queries with
  | [] => Some ([], st)
  | (query0, max_results) :: rest =>
      '(o, st') ← _execute_search fuel query0 max_results st;
      '(os, st'') ← execute_all fuel rest st';
      Some (o :: os, st'')
  end.

(** The provider calls that asking [providers], in this order, for one
    query leaves in the record. *)
Definition asked_for (query0 : string) (max_results : Z)
    (providers : list Provider) : list (Provider * string * Z) :=
  map (fun p => (p, query0, max_results)) providers.

End WebSearch.

End Search.

(** ** Retry with backoff ([ErrorHandler.retry_with_backoff]) *)

Module Retry.

(** The first [k] delays of a backoff that starts at [d]: the delay
    number [j], from 0, is [d] multiplied [j] times by the factor. *)
Definition delays (d factor : float) (k : nat) : list float :=
  map (fun j => Nat.iter j (fun x => PrimFloat.mul x factor) d) (seq 0 k).

(** [x ** n] for a float [x] and a natural number [n]. *)
Fixpoint float_pow (x : float) (n : nat) : float :=
  match n with
  | O => 1%float
  | S n' => PrimFloat.mul x (float_pow x n')
  end.

(** The delay before attempt [k + 1] as a closed formula:
    [initial_delay * backoff_factor ** (k - 1)]. *)
Definition power_delay (initial_delay backoff_factor : float) (k : nat)
  : float :=
  PrimFloat.mul initial_delay (float_pow backoff_factor (k - 1)).

Section Retry.

Context {Ext T : Type}.

(** The locals of [retry_with_backoff] and the outside world, with a
    record of what each invocation of [func] did and of the delays
    slept, oldest first. *)
Record RetryState : Type := mkRetryState {
  ext : Ext;
  last_exception : option PyExc;
  delay : float;
  invocations : list (Outcome T);
  slept : list float
}.

(** [range(lo, hi)] *)
Definition py_range (lo hi : Z) : list Z :=
  map (fun i => (lo + Z.of_nat i)%Z) (seq 0 (Z.to_nat (hi - lo))).

(** [await func( *args, **kwargs )] *)
Definition invoke (func : Eff Ext T) (st : RetryState)
  : Outcome T * RetryState :=
  let '(o, w) := func (ext st) in
  (o, {| ext := w; last_exception := last_exception st; delay := delay st;
         invocations := invocations st ++ [o]; slept := slept st |}).

(** The handler of one attempt: [last_exception = e], and before any
    attempt but the last, [await asyncio.sleep(delay)] and
    [delay *= backoff_factor]. *)
Definition on_failure (e : PyExc) (attempt max_attempts : Z)
    (backoff_factor : float) (st : RetryState) : RetryState :=
  if (attempt <? max_attempts)%Z then
    {| ext := ext st; last_exception := Some e;
       delay := PrimFloat.mul (delay st) backoff_factor;
       invocations := invocations st; slept := slept st ++ [delay st] |}
  else
    {| ext := ext st; last_exception := Some e; delay := delay st;
       invocations := invocations st; slept := slept st |}.

(** The [for attempt in ...] loop: [Some v] when the loop is left by
    [return v], [None] when it runs to its end. *)
Fixpoint retry_loop (func : Eff Ext T) (max_attempts : Z)
    (backoff_factor : float) (attempts : list Z) (st : RetryState)
  : option T * RetryState :=
  match attempts with
  | [] => (None, st)
  | attempt :: rest =>
      match invoke func st with
      | (Return v, st') => (Some v, st')
      | (Raise e, st') =>
          retry_loop func max_attempts backoff_factor rest
                     (on_failure e attempt max_attempts backoff_factor st')
      end
  end.

(** An invocation that raised. *)
Definition raised (o : Outcome T) : Prop := returns o = false.

(** What [k] calls of [func] in a row do, the first on the outside world
    [w] and each later one on the world the call before it left: their
    outcomes, oldest first, and the world the last one leaves. *)
Fixpoint call_times (func : Eff Ext T) (k : nat) (w : Ext)
  : list (Outcome T) * Ext :=
  match k with
  | O => ([], w)
  | S k' =>
      let '(o, w1) := func w in
      let '(outs, w2) := call_times func k' w1 in
      (o :: outs, w2)
  end.

(** [ErrorHandler.retry_with_backoff].  [raise last_exception] with
    [last_exception] still [None] is a [TypeError]. *)
Definition retry_with_backoff (func : Eff Ext T) (max_attempts : Z)
    (initial_delay backoff_factor : float) (w : Ext)
  : Outcome T * RetryState :=
  let st0 := {| ext := w; last_exception := None; delay := initial_delay;
                invocations := []; slept := [] |} in
  match retry_loop func max_attempts backoff_factor
                   (py_range 1 (max_attempts + 1)) st0 with
  | (Some v, st) => (Return v, st)
  | (None, st) =>
      match last_exception st with
      | Some e => (Raise e, st)
      | None =>
          (Raise (Exc "TypeError" "exceptions must derive from BaseException"),
           st)
      end
  end.

End Retry.

End Retry.

(** ** Concrete runs *)

Module Scenario.

(** A stage that succeeds and one that fails, over a trivial outside
    world; a language model that cannot be reached. *)
Definition stage_ok : StageFunc (Ext := unit) :=
  fun session w => (Return tt, results session, w).

Definition stage_raises (e : PyExc) : StageFunc (Ext := unit) :=
  fun session w => (Raise e, results session, w).

Definition llm_down : string -> Eff unit Json :=
  fun _ w => (Raise (Exc "ConnectionError" "no route to host"), w).

Definition prompt_text (query0 info failed cached : string) : string :=
  query0 +:+ info +:+ failed +:+ cached.

Definition search_error : PyExc := Exc "SearchError" "provider unreachable".

(** A run of the pipeline on a fresh orchestrator with these callables
    in the place of the stage calls. *)
Definition run (verify_claims : bool) (search : StageFunc (Ext := unit))
  : Outcome (option ResearchResult) * Orchestrator * RunState :=
  research llm_down prompt_text (fun _ => "{}") (fun _ => "[]")
    stage_ok search stage_ok stage_ok stage_ok stage_ok
    "what is a monad" verify_claims None "20240101120000"
    Orchestrator_init tt.

End Scenario.

(** ** Concrete clients *)

Module ClientScenario.

(** A primary backend that is down and a secondary one that answers,
    over a trivial outside world. *)
Definition backend_down : LLM.BaseLLMClient (Ext := unit) :=
  {| LLM.generate_of := fun _ w => (Raise (Exc "APIError" "503"), w);
     LLM.generate_json_of := fun _ w => (Raise (Exc "APIError" "503"), w) |}.

Definition backend_up : LLM.BaseLLMClient (Ext := unit) :=
  {| LLM.generate_of := fun _ w => (Return "answer", w);
     LLM.generate_json_of := fun _ w => (Return ∅, w) |}.

Definition fresh_client : LLM.ClientState :=
  {| LLM.self := LLM.LLMClient_init backend_down backend_up;
     LLM.ext := tt; LLM.backend_calls := [] |}.

Definition ask : LLM.Call :=
  LLM.CallGenerate
    {| LLM.prompt := "summarise"; LLM.system_prompt := None;
       LLM.temperature := None; LLM.max_tokens := None;
       LLM.json_mode := false |}.

(** Search providers: one that finds nothing, one that finds a page. *)
Definition finds_nothing : Search.BaseSearchProvider (Ext := unit)
                                                     (Result := string) :=
  fun _ _ w => (Return [], w).

Definition finds_page : Search.BaseSearchProvider (Ext := unit)
                                                  (Result := string) :=
  fun _ _ w => (Return ["https://example.org"], w).

Definition fresh_search : Search.SearchState :=
  {| Search.self := Search.WebSearch_init finds_nothing finds_page;
     Search.ext := tt; Search.provider_calls := [] |}.

(** A function that raises on its first two invocations and returns on
    the third; the outside world counts the invocations. *)
Definition flaky : Eff nat string :=
  fun n =>
    if Nat.ltb n 2 then (Raise (Exc "TimeoutError" "timed out"), S n)
    else (Return "done", S n).

(** A function that raises on every invocation. *)
Definition always_fails : Eff unit string :=
  fun w => (Raise (Exc "TimeoutError" "timed out"), w).

End ClientScenario.

(** A progress callback that fails on every notification. *)
Module CallbackScenario.

Definition observer_error : PyExc := Exc "BrokenPipeError" "observer gone".

Definition callback_raises : Callback (Ext := unit) :=
  fun _ _ w => (Raise observer_error, w).

(** A freshly created session in a run state of its own. *)
Definition fresh_run : RunState (Ext := unit) :=
  init_run
    {| session_id := "session_1_20240101120000"; query := "q";
       progress := initial_progress; results := empty_results |} tt.

End CallbackScenario.


(** ** The stage methods ([_search_web], [_reason], [_verify],
    [_generate_citations], [_generate_output]) *)

Module Stages.

(** One entry of the [information] list that [_reason] builds. *)
Record Info : Type := mkInfo {
  info_source : string;
  info_url : string;
  info_content : string
}.

(** The [findings] dict that [_generate_output] builds. *)
Record Findings : Type := mkFindings {
  f_synthesis : option PyDict;
  f_verification : option VerificationDict;
  f_reasoning_steps : list ReasoningStep;
  f_information_gaps : option string
}.

(** [ResearchError(message)] *)
Definition ResearchError (message : string) : PyExc :=
  Exc "ResearchError" message.

(** A [str] is kept as the bytes of its UTF-8 encoding, and Python
    slices it by characters.  A byte of the form [10xxxxxx] continues the
    character that the last byte of another form began. *)
Definition is_continuation (c : Ascii.ascii) : bool :=
  let n := Ascii.nat_of_ascii c in
  Nat.leb 128 n && Nat.ltb n 192.

(** [s[:n]] on a [str]: its first [n] characters, each with all of its
    bytes. *)
Fixpoint str_slice_to (s : string) (n : nat) : string :=
  match s with
  | EmptyString => EmptyString
  | String c s' =>
      if is_continuation c then String c (str_slice_to s' n)
      else match n with
           | O => EmptyString
           | S n' => String c (str_slice_to s' n')
           end
  end.

(** [bool(d)] for an optional dict. *)
Definition truthy (d : option PyDict) : bool :=
  match d with
  | Some m => bool_decide (m <> ∅)
  | None => false
  end.

(** [bool(v)] for an optional verification dict. *)
Definition verification_truthy (v : option VerificationDict) : bool :=
  match v with
  | Some d => vd_nonempty d
  | None => false
  end.

Definition set_search_results (r : StageResults) (x : list SearchResult)
  : StageResults :=
  {| query_analysis := query_analysis r; search_results := x;
     sources := sources r; reasoning_steps := reasoning_steps r;
     synthesis := synthesis r; verification := verification r;
     citations := citations r; final_result := final_result r |}.

Definition set_sources (r : StageResults) (x : list Source) : StageResults :=
  {| query_analysis := query_analysis r; search_results := search_results r;
     sources := x; reasoning_steps := reasoning_steps r;
     synthesis := synthesis r; verification := verification r;
     citations := citations r; final_result := final_result r |}.

Definition set_reasoning_steps (r : StageResults) (x : list ReasoningStep)
  : StageResults :=
  {| query_analysis := query_analysis r; search_results := search_results r;
     sources := sources r; reasoning_steps := x;
     synthesis := synthesis r; verification := verification r;
     citations := citations r; final_result := final_result r |}.

Definition set_synthesis (r : StageResults) (x : option PyDict)
  : StageResults :=
  {| query_analysis := query_analysis r; search_results := search_results r;
     sources := sources r; reasoning_steps := reasoning_steps r;
     synthesis := x; verification := verification r;
     citations := citations r; final_result := final_result r |}.

Definition set_verification (r : StageResults) (x : option VerificationDict)
  : StageResults :=
  {| query_analysis := query_analysis r; search_results := search_results r;
     sources := sources r; reasoning_steps := reasoning_steps r;
     synthesis := synthesis r; verification := x;
     citations := citations r; final_result := final_result r |}.

Definition set_citations (r : StageResults) (x : option PyDict)
  : StageResults :=
  {| query_analysis := query_analysis r; search_results := search_results r;
     sources := sources r; reasoning_steps := reasoning_steps r;
     synthesis := synthesis r; verification := verification r;
     citations := x; final_result := final_result r |}.

Definition set_final_result (r : StageResults) (x : option ResearchResult)
  : StageResults :=
  {| query_analysis := query_analysis r; search_results := search_results r;
     sources := sources r; reasoning_steps := reasoning_steps r;
     synthesis := synthesis r; verification := verification r;
     citations := citations r; final_result := x |}.

(** [source.credibility_score = score] *)
Definition set_credibility (s : Source) (score : float) : Source :=
  {| source_id := source_id s; url := url s; title := title s;
     content := content s; domain := domain s; credibility_score := score |}.

Section Stages.

Context {Ext : Type}.

(** A stage method works on the session it is given and on the outside
    world. *)
Definition St : Type := (ResearchSession * Ext)%type.

(** A call of a collaborator. *)
Definition call {A} (m : Eff Ext A) : Eff St A :=
  fun st =>
    let '(o, w) := m st.2 in (o, (st.1, w)).

(** An assignment to a result field of the session. *)
Definition assign (f : StageResults -> StageResults) : Eff St unit :=
  modify (fun st => (with_results st.1 (f (results st.1)), st.2)).

(** The collaborators, as the orchestrator calls them:
    [self.web_search.search(query, max_results=n)],
    [self.web_search.extract_content(url)] (the dict's ["main_content"]
    entry, when it has one),
    [self.reasoning_engine.chain_of_thought(query, str(information))]
    (the dict's ["reasoning_chain"] entry, when it has one),
    [self.reasoning_engine.synthesize_information(query, information)],
    [self.verification.verify(claims, sources)] (the claims as the text
    of the ["key_findings"] entry),
    [self.verification.assess_credibility(source)] (the dict's
    ["overall_score"] entry, when it has one),
    [self.citation_manager.generate_citations(sources, text)],
    [self.output_generator.generate_report(query, findings, sources,
    confidence)] and [generate_summary(findings, SummaryLength.STANDARD)]
    (the ["text"] entry of the ["summary"] entry, each when present). *)
Variable search : string -> Z -> Eff Ext (list SearchResult).
Variable extract_content : string -> Eff Ext (option string).
Variable chain_of_thought :
  string -> list Info -> Eff Ext (option (list ReasoningStep)).
Variable synthesize_information : string -> list Info -> Eff Ext PyDict.
Variable verify : string -> list Source -> Eff Ext VerificationDict.
Variable assess_credibility : Source -> Eff Ext (option float).
Variable generate_citations : list Source -> string -> Eff Ext PyDict.
Variable generate_report :
  string -> Findings -> list Source -> float -> Eff Ext PyDict.
Variable generate_summary : Findings -> Eff Ext (option (option string)).

(** Python's [str] of a dict and of the keys of [stage_times], for the
    metadata of the final result. *)
Variable str_dict : PyDict -> string.
Variable str_keys : list string -> string.

(** The loop of [_search_web] over the sub-queries:
    [all_results.extend(await search(sub_query.query, max_results=n))]. *)
Fixpoint search_each (n : Z) (sub_queries0 : list string)
    (all_results : list SearchResult) : Eff St (list SearchResult) :=
  match sub_queries0 with
  | [] => mret all_results
  | q :: rest =>
      found ← call (search q n);
      search_each n rest (all_results ++ found)
  end.

(** [Source(source_id=result.url[:32], ..., credibility_score=0.7)] *)
Definition source_of (result : SearchResult) (main_content : option string)
  : Source :=
  {| source_id := str_slice_to (sr_url result) 32;
     url := sr_url result;
     title := sr_title result;
     content := default (sr_snippet result) main_content;
     domain := sr_domain result;
     credibility_score := 0.7%float |}.

(** The loop of [_search_web] that turns results into sources. *)
Fixpoint convert_each (todo : list SearchResult) (acc : list Source)
  : Eff St (list Source) :=
  match todo with
  | [] => mret acc
  | result :: rest =>
      main_content ← call (extract_content (sr_url result));
      convert_each rest (acc ++ [source_of result main_content])
  end.

(** The calls [extract_content(url)] for a list of URLs, one after the
    other: what each returned. *)
Fixpoint extract_all (urls : list string) : Eff Ext (list (option string)) :=
  match urls with
  | [] => mret []
  | u :: rest =>
      main_content ← extract_content u;
      others ← extract_all rest;
      mret (main_content :: others)
  end.

(** [ResearchOrchestrator._search_web].  The limit [n] of a sub-query
    search is computed in the loop over the sub-queries, so the division
    is never evaluated when there is none. *)
Definition _search_web (max_sources : Z) : Eff St (list Source) :=
  session ← gets fst;
  match query_analysis (results session) with
  | None => raise (ResearchError "Query analysis not available")
  | Some analysis =>
      let n :=
        (max_sources `div` Z.of_nat (length (sub_queries analysis)) + 1)%Z in
      all_results ← search_each n (sub_queries analysis) [];
      main_results ← call (search (query session) max_sources);
      let all_results := all_results ++ main_results in
      let unique_results := deduplicate_by_url all_results in
      assign (fun r =>
                set_search_results r (py_slice_to unique_results max_sources)) ;;
      session ← gets fst;
      srcs ← convert_each (search_results (results session)) [];
      assign (fun r => set_sources r srcs) ;;
      mret srcs
  end.

(** The [information] list of [_reason]. *)
Definition information_of (srcs : list Source) : list Info :=
  map (fun source =>
         {| info_source := title source;
            info_url := url source;
            info_content :=
              if decide (content source = "") then ""
              else str_slice_to (content source) 2000 |})
      srcs.

(** [ResearchOrchestrator._reason] *)
Definition _reason : Eff St PyDict :=
  session ← gets fst;
  match sources (results session) with
  | [] => raise (ResearchError "No sources available for reasoning")
  | _ :: _ =>
      let information := information_of (sources (results session)) in
      reasoning_result ← call (chain_of_thought (query session) information);
      assign (fun r => set_reasoning_steps r (default [] reasoning_result)) ;;
      synthesis_result ←
        call (synthesize_information (query session) information);
      assign (fun r => set_synthesis r (Some synthesis_result)) ;;
      mret synthesis_result
  end.

(** The loop of [_verify] over [session.sources]: each source is
    assessed as it stands and its score is replaced in place. *)
Fixpoint assess_each (i : nat) (todo : list Source) : Eff St unit :=
  match todo with
  | [] => mret tt
  | source :: rest =>
      credibility ← call (assess_credibility source);
      assign (fun r =>
                set_sources r
                  (<[i := set_credibility source (default 0.7%float credibility)]>
                     (sources r))) ;;
      assess_each (S i) rest
  end.

(** [ResearchOrchestrator._verify] *)
Definition _verify : Eff St VerificationDict :=
  session ← gets fst;
  if truthy (synthesis (results session)) then
    let claims :=
      default "[]" (default ∅ (synthesis (results session)) !! "key_findings") in
    verification_result ← call (verify claims (sources (results session)));
    assess_each 0 (sources (results session)) ;;
    assign (fun r => set_verification r (Some verification_result)) ;;
    mret verification_result
  else raise (ResearchError "Synthesis not available for verification").

(** [ResearchOrchestrator._generate_citations] *)
Definition _generate_citations : Eff St PyDict :=
  session ← gets fst;
  match sources (results session) with
  | [] => raise (ResearchError "No sources available for citation")
  | _ :: _ =>
      let synthesis_text :=
        if truthy (synthesis (results session))
        then default "" (default ∅ (synthesis (results session)) !! "synthesis")
        else "" in
      cites ← call (generate_citations (sources (results session))
                                       synthesis_text);
      assign (fun r => set_citations r (Some cites)) ;;
      mret cites
  end.

(** The text of an optional dict in the metadata. *)
Definition meta_dict (d : option PyDict) : MetaValue :=
  match d with
  | Some m => MOther (str_dict m)
  | None => MOther "None"
  end.

(** [ResearchOrchestrator._generate_output]; [audience] is
    [audience.value]. *)
Definition _generate_output (audience : string) : Eff St ResearchResult :=
  session ← gets fst;
  let confidence0 := _calculate_confidence session in
  let findings :=
    {| f_synthesis := synthesis (results session);
       f_verification := verification (results session);
       f_reasoning_steps := reasoning_steps (results session);
       f_information_gaps :=
         if truthy (synthesis (results session))
         then default ∅ (synthesis (results session)) !! "gaps"
         else None |} in
  report ← call (generate_report (query session) findings
                                 (sources (results session)) confidence0);
  summary ← call (generate_summary findings);
  let result :=
    {| rr_query := query session;
       answer := JStr (default "" (default None summary));
       confidence := confidence0;
       rr_sources := sources (results session);
       rr_reasoning_steps := reasoning_steps (results session);
       verification_status :=
         if verification_truthy (verification (results session))
         then "verified" else "unverified";
       metadata :=
         <["report" := MOther (str_dict report)]>
           (<["citations" := meta_dict (citations (results session))]>
              (<["audience" := MStr audience]>
                 (<["session_id" := MStr (session_id session)]>
                    (<["duration" :=
                        MOther (str_keys (stage_times (progress session)))]>
                       ∅)))) |} in
  assign (fun r => set_final_result r (Some result)) ;;
  mret result.

(** A stage method as the callable [_run_stage] awaits: what it returns
    is dropped. *)
Definition as_stage {A} (method : Eff St A) : StageFunc :=
  fun session w =>
    match method (session, w) with
    | (Return _, st) => (Return tt, results st.1, st.2)
    | (Raise e, st) => (Raise e, results st.1, st.2)
    end.

End Stages.

End Stages.


(** ** Concrete stages *)

Module StageScenario.

Definition page_a : SearchResult :=
  {| sr_title := "A"; sr_url := "https://a.example/1"; sr_snippet := "about a";
     sr_domain := "a.example"; sr_relevance_score := 0.5%float |}.

Definition page_b : SearchResult :=
  {| sr_title := "B"; sr_url := "https://b.example/2"; sr_snippet := "about b";
     sr_domain := "b.example"; sr_relevance_score := 0.5%float |}.

(** A search that finds two pages for every query, a content extractor
    that finds no main content, and a search that finds nothing. *)
Definition search_two : string -> Z -> Eff unit (list SearchResult) :=
  fun _ _ w => (Return [page_a; page_b], w).

Definition search_none : string -> Z -> Eff unit (list SearchResult) :=
  fun _ _ w => (Return [], w).

Definition search_down : string -> Z -> Eff unit (list SearchResult) :=
  fun _ _ w => (Raise (Exc "SearchError" "provider unreachable"), w).

Definition no_main_content : string -> Eff unit (option string) :=
  fun _ w => (Return None, w).

(** A session whose query has been analysed into one sub-query. *)
Definition analysed : ResearchSession :=
  {| session_id := "session_1_20240101120000"; query := "q";
     progress := initial_progress;
     results :=
       {| query_analysis := Some {| sub_queries := ["sub"] |};
          search_results := []; sources := []; reasoning_steps := [];
          synthesis := None; verification := None; citations := None;
          final_result := None |} |}.

Definition source_a : Source := Stages.source_of page_a None.
Definition source_b : Source := Stages.source_of page_b None.

(** The session after a search stage that found the two pages. *)
Definition searched : ResearchSession :=
  with_results analysed
    (Stages.set_sources
       (Stages.set_search_results (results analysed) [page_a; page_b])
       [source_a; source_b]).

(** The reasoning engine, the verifier and the output generator. *)
Definition think : string -> list Stages.Info
                   -> Eff unit (option (list ReasoningStep)) :=
  fun _ _ w => (Return None, w).

Definition synthesis_dict : PyDict := {[ "synthesis" := "a and b" ]}.

Definition synthesize : string -> list Stages.Info -> Eff unit PyDict :=
  fun _ _ w => (Return synthesis_dict, w).

Definition verdict : VerificationDict :=
  {| vd_nonempty := true; vd_overall_confidence := Some 0.9%float |}.

Definition check : string -> list Source -> Eff unit VerificationDict :=
  fun _ _ w => (Return verdict, w).

Definition assess : Source -> Eff unit (option float) :=
  fun _ w => (Return (Some 0.9%float), w).

Definition cite : list Source -> string -> Eff unit PyDict :=
  fun _ _ w => (Return ∅, w).

Definition report : string -> Stages.Findings -> list Source -> float
                    -> Eff unit PyDict :=
  fun _ _ _ _ w => (Return ∅, w).

Definition summarise : Stages.Findings -> Eff unit (option (option string)) :=
  fun _ w => (Return (Some (Some "a and b")), w).

(** The session after the reasoning stage. *)
Definition reasoned : ResearchSession :=
  with_results searched
    (Stages.set_synthesis
       (Stages.set_reasoning_steps (results searched) [])
       (Some synthesis_dict)).

(** The session after the verification stage. *)
Definition verified : ResearchSession :=
  with_results reasoned
    (Stages.set_verification
       (Stages.set_sources (results reasoned)
          [Stages.set_credibility source_a 0.9%float;
           Stages.set_credibility source_b 0.9%float])
       (Some verdict)).

End StageScenario.


(** ** The error log ([class ErrorHandler]) *)

Module ErrorLog.

(** [class ErrorSeverity(Enum)] *)
Inductive ErrorSeverity : Type := INFO | WARNING | ERROR | CRITICAL.

Definition severity_value (s : ErrorSeverity) : string :=
  match s with
  | INFO => "info"
  | WARNING => "warning"
  | ERROR => "error"
  | CRITICAL => "critical"
  end.

Definition all_severities : list ErrorSeverity :=
  [INFO; WARNING; ERROR; CRITICAL].

(** [class ComponentType(Enum)] *)
Inductive ComponentType : Type :=
| QUERY_UNDERSTANDING
| WEB_SEARCH
| REASONING_ENGINE
| VERIFICATION
| CITATION
| OUTPUT_GENERATION
| LLM_CLIENT
| ORCHESTRATOR.

Definition component_value (c : ComponentType) : string :=
  match c with
  | QUERY_UNDERSTANDING => "query_understanding"
  | WEB_SEARCH => "web_search"
  | REASONING_ENGINE => "reasoning_engine"
  | VERIFICATION => "verification"
  | CITATION => "citation"
  | OUTPUT_GENERATION => "output_generation"
  | LLM_CLIENT => "llm_client"
  | ORCHESTRATOR => "orchestrator"
  end.

Definition all_components : list ComponentType :=
  [QUERY_UNDERSTANDING; WEB_SEARCH; REASONING_ENGINE; VERIFICATION;
   CITATION; OUTPUT_GENERATION; LLM_CLIENT; ORCHESTRATOR].

(** [xs[n:]] *)
Definition py_slice_from {A} (xs : list A) (n : Z) : list A :=
  if (0 <=? n)%Z then drop (Z.to_nat n) xs
  else drop (length xs - Z.to_nat (- n)) xs.

Section Handler.

(** A point in time ([datetime]) with its ISO text, and the outside
    world of the language-model call. *)
Context {datetime Ext : Type}.
Variable isoformat : datetime -> string.

(** [class ErrorContext] *)
Record ErrorContext : Type := mkErrorContext {
  component : ComponentType;
  operation : string;
  ec_query : option string;
  partial_results : option PyDict;
  ec_timestamp : datetime;
  attempt_number : Z;
  max_attempts : Z
}.

(** [class ErrorRecord] *)
Record ErrorRecord : Type := mkErrorRecord {
  error_type : string;
  error_message : string;
  context : ErrorContext;
  severity : ErrorSeverity;
  traceback_str : option string;
  recovery_attempted : bool;
  recovery_successful : bool;
  timestamp : datetime
}.

(** [class ErrorHandler]: the history and its bound.  The configuration
    and the language-model client are not part of the state; the call of
    the client is a parameter below. *)
Record ErrorHandler : Type := mkErrorHandler {
  error_history : list ErrorRecord;
  max_history : Z
}.

(** [ErrorHandler.__init__] *)
Definition ErrorHandler_init : ErrorHandler :=
  {| error_history := []; max_history := 100 |}.

(** One call of [record_error]: its three arguments, and what
    [traceback.format_exc()] and [datetime.now()] give during it. *)
Record Report : Type := mkReport {
  r_error : PyExc;
  r_context : ErrorContext;
  r_severity : ErrorSeverity;
  r_traceback : string;
  r_now : datetime
}.

(** The record [record_error] builds. *)
Definition record_of (r : Report) : ErrorRecord :=
  {| error_type := exc_type (r_error r);
     error_message := str (r_error r);
     context := r_context r;
     severity := r_severity r;
     traceback_str := Some (r_traceback r);
     recovery_attempted := false;
     recovery_successful := false;
     timestamp := r_now r |}.

(** [ErrorHandler.record_error]; logging leaves no trace in the state. *)
Definition record_error (r : Report) (self : ErrorHandler)
  : ErrorRecord * ErrorHandler :=
  let record := record_of r in
  let history := error_history self ++ [record] in
  let history :=
    if (max_history self <? Z.of_nat (length history))%Z
    then py_slice_from history (- max_history self)
    else history in
  (record, {| error_history := history; max_history := max_history self |}).

(** A sequence of calls of [record_error] on one handler. *)
Definition record_all (reports : list Report) (self : ErrorHandler)
  : ErrorHandler :=
  fold_left (fun h r => (record_error r h).2) reports self.

(** [ErrorHandler.clear_error_history] *)
Definition clear_error_history (self : ErrorHandler) : ErrorHandler :=
  {| error_history := []; max_history := max_history self |}.

(** An entry of ["recent_errors"] in the summary. *)
Record RecentError : Type := mkRecentError {
  re_type : string;
  re_message : string;
  re_component : string;
  re_timestamp : string
}.

(** The dict [get_error_summary] returns. *)
Record ErrorSummary : Type := mkErrorSummary {
  total_errors : Z;
  by_severity : gmap string Z;
  by_component : gmap string Z;
  recent_errors : list RecentError
}.

(** [d[k] = d.get(k, 0) + 1] *)
Definition count_up (k : string) (d : gmap string Z) : gmap string Z :=
  <[k := (default 0 (d !! k) + 1)%Z]> d.

(** One iteration of the loop of [get_error_summary]; the state is
    [by_severity] and [by_component]. *)
Definition summary_step (acc : gmap string Z * gmap string Z)
    (record : ErrorRecord) : gmap string Z * gmap string Z :=
  let sev := severity_value (severity record) in
  let by_severity := count_up sev acc.1 in
  let comp := component_value (component (context record)) in
  let by_component := count_up comp acc.2 in
  (by_severity, by_component).

Definition recent_of (e : ErrorRecord) : RecentError :=
  {| re_type := error_type e;
     re_message := error_message e;
     re_component := component_value (component (context e));
     re_timestamp := isoformat (timestamp e) |}.

(** [ErrorHandler.get_error_summary] *)
Definition get_error_summary (self : ErrorHandler) : ErrorSummary :=
  match error_history self with
  | [] =>
      {| total_errors := 0; by_severity := ∅; by_component := ∅;
         recent_errors := [] |}
  | _ :: _ =>
      let '(by_severity, by_component) :=
        fold_left summary_step (error_history self) (∅, ∅) in
      {| total_errors := Z.of_nat (length (error_history self));
         by_severity := by_severity;
         by_component := by_component;
         recent_errors :=
           map recent_of (py_slice_from (error_history self) (-5)) |}
  end.

(** The number of records of a history with a given severity, and with a
    given component. *)
Definition with_severity (s : ErrorSeverity) (history : list ErrorRecord)
  : nat :=
  length (filter (fun e => severity_value (severity e) = severity_value s)
                 history).

Definition with_component (c : ComponentType) (history : list ErrorRecord)
  : nat :=
  length (filter (fun e => component_value (component (context e))
                           = component_value c) history).

(** [dict.get(k, 0)] *)
Definition get0 (d : gmap string Z) (k : string) : Z := default 0%Z (d !! k).

(** The sum of a list of integers. *)
Definition sum_Z (xs : list Z) : Z := fold_right Z.add 0%Z xs.

(** The dict [check_system_health] returns, by the keys its own answer
    has. *)
Record HealthStatus : Type := mkHealthStatus {
  overall : string;
  score : float
}.

Record HealthDict : Type := mkHealthDict {
  health_status : option HealthStatus;
  active_issues : list string;
  recommendations : list string
}.

(** [self.llm_client.call_json(prompt)]; [SYSTEM_HEALTH_PROMPT.format(
    health_metrics=, recent_errors=, performance_data=)]; Python's [str]
    of a dict and of the list of recent errors. *)
Variable call_json : string -> Eff Ext HealthDict.
Variable SYSTEM_HEALTH_PROMPT : string -> string -> string -> string.
Variable str_dict : PyDict -> string.
Variable str_recent : list (string * string) -> string.

(** [max(0.0, 1.0 - (error_count / 100))] *)
Definition health_score_of (error_count : nat) : float :=
  py_max 0.0%float
    (PrimFloat.sub 1.0%float
       (PrimFloat.div (float_of_nat error_count) 100.0%float)).

(** The prompt [check_system_health] builds before its [try]. *)
Definition health_prompt (health_metrics performance_data : PyDict)
    (self : ErrorHandler) : string :=
  let recent_errors :=
    map (fun e => (error_type e, error_message e))
        (py_slice_from (error_history self) (-10)) in
  SYSTEM_HEALTH_PROMPT (str_dict health_metrics)
    (str_recent recent_errors) (str_dict performance_data).

(** [ErrorHandler.check_system_health] *)
Definition check_system_health (health_metrics performance_data : PyDict)
    (self : ErrorHandler) : Eff Ext HealthDict :=
  let prompt := health_prompt health_metrics performance_data self in
  try_except
    (result ← call_json prompt; mret result)
    (fun _ =>
       let error_count := length (error_history self) in
       let health_score := health_score_of error_count in
       mret {| health_status :=
                 Some {| overall :=
                           if PrimFloat.ltb 0.7%float health_score
                           then "healthy" else "degraded";
                         score := health_score |};
               active_issues := [];
               recommendations := [] |}).

End Handler.

End ErrorLog.

(** ** Credibility of a source ([WebSearch._estimate_credibility],
    [WebSearch._score_to_level]) *)

Module Credibility.

(** [sub in s] on strings *)
Fixpoint py_in (sub s : string) : bool :=
  String.prefix sub s
  || match s with
     | EmptyString => false
     | String _ s' => py_in sub s'
     end.

(** [quality_scores.get(quality, 0.5)] *)
Definition quality_scores_get (quality : string) : float :=
  if decide (quality = "high") then 0.8%float
  else if decide (quality = "medium") then 0.5%float
  else if decide (quality = "low") then 0.3%float
  else if decide (quality = "unknown") then 0.4%float
  else 0.5%float.

(** [WebSearch._estimate_credibility]; the evaluation is a dict of
    strings. *)
Definition _estimate_credibility (domain : string) (eval_data : PyDict)
  : float :=
  let quality := default "medium" (eval_data !! "source_quality") in
  let base_score := quality_scores_get quality in
  if existsb (fun ext => py_in ext domain) [".gov"; ".edu"] then
    py_min 1.0%float (PrimFloat.add base_score 0.2%float)
  else if existsb (fun ext => py_in ext domain) [".org"] then
    py_min 1.0%float (PrimFloat.add base_score 0.1%float)
  else if existsb (fun term => py_in term domain)
                  ["wikipedia"; "reuters"; "bbc"; "nytimes"] then
    py_min 1.0%float (PrimFloat.add base_score 0.15%float)
  else base_score.

(** [WebSearch._score_to_level] *)
Definition _score_to_level (score : float) : string :=
  if PrimFloat.leb 0.8%float score then "high"
  else if PrimFloat.leb 0.5%float score then "medium"
  else "low".

End Credibility.


(** ** Concrete error logs and clients *)

Module LogScenario.

(** Reports stamped with a counter for the time. *)
Definition report (name : string) (c : ErrorLog.ComponentType)
    (s : ErrorLog.ErrorSeverity) (t : nat) : ErrorLog.Report (datetime := nat) :=
  {| ErrorLog.r_error := Exc name "boom";
     ErrorLog.r_context :=
       {| ErrorLog.component := c; ErrorLog.operation := "search";
          ErrorLog.ec_query := None; ErrorLog.partial_results := None;
          ErrorLog.ec_timestamp := t; ErrorLog.attempt_number := 1;
          ErrorLog.max_attempts := 3 |};
     ErrorLog.r_severity := s;
     ErrorLog.r_traceback := "Traceback (most recent call last)";
     ErrorLog.r_now := t |}.

Definition three_reports : list (ErrorLog.Report (datetime := nat)) :=
  [report "TimeoutError" ErrorLog.WEB_SEARCH ErrorLog.WARNING 1;
   report "ValueError" ErrorLog.REASONING_ENGINE ErrorLog.ERROR 2;
   report "KeyError" ErrorLog.CITATION ErrorLog.ERROR 3].

Definition thirty_reports : list (ErrorLog.Report (datetime := nat)) :=
  replicate 30 (report "TimeoutError" ErrorLog.WEB_SEARCH ErrorLog.WARNING 1).

(** A handler that keeps two records, and one whose bound is zero. *)
Definition small_handler : ErrorLog.ErrorHandler (datetime := nat) :=
  {| ErrorLog.error_history := []; ErrorLog.max_history := 2 |}.

Definition zero_handler : ErrorLog.ErrorHandler (datetime := nat) :=
  {| ErrorLog.error_history := []; ErrorLog.max_history := 0 |}.

(** A language model that cannot be reached, for the health check. *)
Definition health_llm_down : string -> Eff unit ErrorLog.HealthDict :=
  fun _ w => (Raise (Exc "ConnectionError" "no route to host"), w).

Definition health_prompt_text (metrics recent performance : string)
  : string :=
  metrics +:+ recent +:+ performance.

End LogScenario.

Module PathScenario.

(** A client whose primary backend answers, and a search whose primary
    provider finds a page. *)
Definition healthy_client : LLM.ClientState :=
  {| LLM.self := LLM.LLMClient_init ClientScenario.backend_up
                                    ClientScenario.backend_down;
     LLM.ext := tt; LLM.backend_calls := [] |}.

Definition ready_search : Search.SearchState :=
  {| Search.self := Search.WebSearch_init ClientScenario.finds_page
                                          ClientScenario.finds_nothing;
     Search.ext := tt; Search.provider_calls := [] |}.

(** The state of a run that has just started, and an error. *)
Definition started : RunState (Ext := unit) :=
  init_run {| session_id := "session_1_20240101120000";
              query := "what is a monad";
              progress := initial_progress;
              results := empty_results |} tt.

Definition timeout_error : PyExc := Exc "TimeoutError" "timed out".

End PathScenario.


(** ** Calls with positional arguments ([await stage_func( *args )]) *)

Module Calls.

(** ["s"] unless [n] is one. *)
Definition plural (n : nat) : string :=
  if decide (n = 1) then "" else "s".

(** The names of the missing parameters as Python lists them: ['a'],
    ['a' and 'b'], ['a', 'b', and 'c']. *)
Fixpoint name_list (names : list string) : string :=
  match names with
  | [] => ""
  | [a] => "'" +:+ a +:+ "'"
  | [a; b] => "'" +:+ a +:+ "' and '" +:+ b +:+ "'"
  | a :: rest =>
      "'" +:+ a +:+ "', "
      +:+ match rest with
          | [b; c] => "'" +:+ b +:+ "', and '" +:+ c +:+ "'"
          | _ => name_list rest
          end
  end.

(** What Python (3.10 and later) raises when a bound method that declares
    the parameters [params] besides [self], none with a default, is
    called with [given] positional arguments, more than it declares.
    Both counts in the message include [self]. *)
Definition too_many_arguments (qualname : string) (params : list string)
    (given : nat) : PyExc :=
  Exc "TypeError"
      (qualname +:+ "() takes " +:+ pretty (S (length params))
       +:+ " positional argument" +:+ plural (S (length params))
       +:+ " but " +:+ pretty (S given)
       +:+ (if decide (S given = 1) then " was" else " were")
       +:+ " given").

(** What it raises when called with fewer: the parameters left without
    an argument are named. *)
Definition missing_arguments (qualname : string) (params : list string)
    (given : nat) : PyExc :=
  let missing := drop given params in
  Exc "TypeError"
      (qualname +:+ "() missing " +:+ pretty (length missing)
       +:+ " required positional argument" +:+ plural (length missing)
       +:+ ": " +:+ name_list missing).

Section Calls.

Context {Ext : Type}.

(** The call of a method with the positional arguments [args]: its body
    runs when their number is the number of its parameters. *)
Definition call_method (qualname : string) (params args : list string)
    (body : StageFunc (Ext := Ext)) : StageFunc :=
  fun session w =>
    if decide (length args = length params) then body session w
    else if decide (length params < length args)
         then (Raise (too_many_arguments qualname params (length args)),
               results session, w)
         else (Raise (missing_arguments qualname params (length args)),
               results session, w).

(** The method [research] hands to [_run_stage] for a stage. *)
Definition qualname (stage : ResearchStage) : string :=
  match stage with
  | QUERY_ANALYSIS => "ResearchOrchestrator._analyze_query"
  | WEB_SEARCH => "ResearchOrchestrator._search_web"
  | REASONING => "ResearchOrchestrator._reason"
  | VERIFICATION => "ResearchOrchestrator._verify"
  | CITATION => "ResearchOrchestrator._generate_citations"
  | OUTPUT_GENERATION => "ResearchOrchestrator._generate_output"
  | COMPLETE => ""
  end.

(** The parameters the method declares besides [self]. *)
Definition declared (stage : ResearchStage) : list string :=
  match stage with
  | QUERY_ANALYSIS => ["query"]
  | WEB_SEARCH => ["session"; "max_sources"]
  | REASONING => ["session"]
  | VERIFICATION => ["session"]
  | CITATION => ["session"; "style"]
  | OUTPUT_GENERATION => ["session"; "audience"]
  | COMPLETE => []
  end.

(** The arguments [research] passes to [_run_stage] after the method,
    all of them positional, so that all of them are in [args] and
    [kwargs] is empty. *)
Definition passed (stage : ResearchStage) : list string :=
  match stage with
  | QUERY_ANALYSIS => ["query"; "progress_callback"]
  | WEB_SEARCH => ["session"; "max_sources"; "progress_callback"]
  | REASONING => ["session"; "progress_callback"]
  | VERIFICATION => ["session"; "progress_callback"]
  | CITATION => ["session"; "citation_style"; "progress_callback"]
  | OUTPUT_GENERATION => ["session"; "audience"; "progress_callback"]
  | COMPLETE => []
  end.

(** [stage_func( *args )] for the method of a stage whose body is
    [body], as [research] has [_run_stage] call it. *)
Definition as_called (stage : ResearchStage)
    (body : StageFunc (Ext := Ext)) : StageFunc :=
  call_method (qualname stage) (declared stage) (passed stage) body.

End Calls.

(** What [_analyze_query] raises when it is called with the query and
    the progress callback. *)
Definition analyze_query_rejected : PyExc :=
  Exc "TypeError"
      "ResearchOrchestrator._analyze_query() takes 2 positional arguments but 3 were given".

(** The progress of a session whose first stage call raised that, and
    the session. *)
Definition rejected_progress : ResearchProgress :=
  {| current_stage := QUERY_ANALYSIS; stages_completed := [];
     stage_times := [];
     errors := ["query_analysis: " +:+ str analyze_query_rejected] |}.

Definition rejected_session (session_id0 query0 : string) : ResearchSession :=
  {| session_id := session_id0; query := query0;
     progress := rejected_progress; results := empty_results |}.

End Calls.

(** ** Concrete runs of the pipeline with its own stage methods *)

Module FailureScenario.

(** A reply of the language model that is a dict with a string under
    ["fallback_content"], and a language model that gives it. *)
Definition malformed_reply : Json :=
  JDict {["fallback_content" := JStr "No information could be retrieved."]}.

Definition llm_malformed : string -> Eff unit Json :=
  fun _ w => (Return malformed_reply, w).

(** [research] with the six stage methods as it calls them; their bodies
    would succeed. *)
Definition research_with (call_json : string -> Eff unit Json)
    (progress_callback : option (Callback (Ext := unit)))
  : Outcome (option ResearchResult) * Orchestrator * RunState :=
  research call_json Scenario.prompt_text (fun _ => "{}") (fun _ => "[]")
    (Calls.as_called QUERY_ANALYSIS Scenario.stage_ok)
    (Calls.as_called WEB_SEARCH Scenario.stage_ok)
    (Calls.as_called REASONING Scenario.stage_ok)
    (Calls.as_called VERIFICATION Scenario.stage_ok)
    (Calls.as_called CITATION Scenario.stage_ok)
    (Calls.as_called OUTPUT_GENERATION Scenario.stage_ok)
    "what is a monad" true progress_callback "20240101120000"
    Orchestrator_init tt.

End FailureScenario.


(** * Properties *)

(** ** Confidence *)

(** C2 (the code at the claim's input): with no sources, no verification
    result and no recorded errors the source-count term [min(0/10, 1.0)]
    is still appended, so the list of factors is not empty and the
    calculation returns 0.0, which differs from the default 0.5. *)
Theorem calculate_confidence_no_signals (sid q : string) :
  _calculate_confidence (no_signals sid q) = 0%float
  /\ PrimFloat.eqb (_calculate_confidence (no_signals sid q)) 0.5%float
     = false.
Proof. split; reflexivity. Qed.

(** The default is out of reach for every session: the source-count
    term is always among the factors, so the result is always the
    clamped average. *)
Lemma calculate_confidence_clamped (session : ResearchSession) :
  exists factors : list float,
    factors <> []
    /\ _calculate_confidence session =
       py_max 0.0%float
         (py_min 1.0%float
            (PrimFloat.sub
               (PrimFloat.div (py_sum factors)
                              (float_of_nat (length factors)))
               (PrimFloat.mul
                  (float_of_nat (length (errors (progress session))))
                  0.1%float))).
Proof.
  unfold _calculate_confidence.
  destruct (sources (results session)) as [|src srcs];
    destruct (verification (results session)) as [[[] conf]|];
    cbn [app vd_nonempty]; eexists; (split; [|reflexivity]); done.
Qed.

(** ** Deduplication *)

Lemma fold_dedup_step (l : list SearchResult) :
  forall (seen : gset string) (acc : list SearchResult),
    (fold_left dedup_step l (seen, acc)).2 = acc ++ keep_unseen seen l.
Proof.
  induction l as [|x l IH]; intros seen acc; simpl.
  - by rewrite app_nil_r.
  - unfold dedup_step at 2; simpl.
    destruct (decide (sr_url x ∈ seen)); rewrite IH; [done|].
    by rewrite <- app_assoc.
Qed.

Lemma deduplicate_keep_unseen (l : list SearchResult) :
  deduplicate_by_url l = keep_unseen ∅ l.
Proof. unfold deduplicate_by_url. by rewrite fold_dedup_step. Qed.

Lemma keep_unseen_sublist (l : list SearchResult) :
  forall seen : gset string, keep_unseen seen l `sublist_of` l.
Proof.
  induction l as [|x l IH]; intros seen; simpl; [done|].
  destruct (decide (sr_url x ∈ seen)).
  - by apply sublist_cons.
  - by apply sublist_skip.
Qed.

Lemma keep_unseen_fresh (l : list SearchResult) :
  forall (seen : gset string) (r : SearchResult),
    r ∈ keep_unseen seen l -> sr_url r ∉ seen.
Proof.
  induction l as [|x l IH]; intros seen r; simpl.
  - by intros ?%elem_of_nil.
  - destruct (decide (sr_url x ∈ seen)) as [|Hx]; [by apply IH|].
    intros Hr. apply elem_of_cons in Hr as [Heq|Hr]; [by subst r|].
    apply IH in Hr. set_solver.
Qed.

Lemma keep_unseen_NoDup (l : list SearchResult) :
  forall seen : gset string, NoDup (map sr_url (keep_unseen seen l)).
Proof.
  induction l as [|x l IH]; intros seen; simpl; [constructor|].
  destruct (decide (sr_url x ∈ seen)); [done|].
  simpl. constructor; [|done].
  intros (r & Hu & Hr)%list_elem_of_fmap.
  apply keep_unseen_fresh in Hr. set_solver.
Qed.

Lemma keep_unseen_first (l : list SearchResult) :
  forall (seen : gset string) (i : nat) (r : SearchResult),
    l !! i = Some r ->
    sr_url r ∉ seen ->
    sr_url r ∉ map sr_url (take i l) ->
    r ∈ keep_unseen seen l.
Proof.
  induction l as [|x l IH]; intros seen i r Hi Hseen Hbefore; [done|].
  destruct i as [|i]; simpl in *.
  - injection Hi as ->. rewrite decide_False by done. left.
  - apply not_elem_of_cons in Hbefore as [Hne Hbefore].
    destruct (decide (sr_url x ∈ seen)).
    + by eapply IH.
    + right. eapply IH; [done| |done]. set_solver.
Qed.

Lemma keep_unseen_only_first (l : list SearchResult) :
  forall (seen : gset string) (r : SearchResult),
    r ∈ keep_unseen seen l ->
    exists i, l !! i = Some r /\ sr_url r ∉ map sr_url (take i l).
Proof.
  induction l as [|x l IH]; intros seen r; simpl.
  - by intros ?%elem_of_nil.
  - destruct (decide (sr_url x ∈ seen)) as [Hx|Hx].
    + intros Hr. pose proof (keep_unseen_fresh _ _ _ Hr) as Hfresh.
      destruct (IH _ _ Hr) as (i & Hi & Hb).
      exists (S i). split; [done|]. simpl.
      apply not_elem_of_cons. split; [|done]. congruence.
    + intros Hr. apply elem_of_cons in Hr as [Heq|Hr]; [subst r|].
      * exists 0. split; [done|]. simpl. apply not_elem_of_nil.
      * pose proof (keep_unseen_fresh _ _ _ Hr) as Hfresh.
        destruct (IH _ _ Hr) as (i & Hi & Hb).
        exists (S i). split; [done|]. simpl.
        apply not_elem_of_cons. split; [|done]. set_solver.
Qed.

(** C7: deduplication by URL keeps, for each URL, the first result that
    has it and nothing else, in the order of the input: the output is a
    subsequence of the input with pairwise distinct URLs; a result whose
    URL occurs at no earlier position is kept, and every result kept is
    at such a position.  In particular [[A; B; C]] with the URL of [C]
    that of [A] and another one for [B] gives [[A; B]]. *)
Theorem deduplicate_by_url_first_wins (all_results : list SearchResult) :
  deduplicate_by_url all_results `sublist_of` all_results
  /\ NoDup (map sr_url (deduplicate_by_url all_results))
  /\ (forall i r,
        all_results !! i = Some r ->
        sr_url r ∉ map sr_url (take i all_results) ->
        r ∈ deduplicate_by_url all_results)
  /\ (forall r,
        r ∈ deduplicate_by_url all_results ->
        exists i, all_results !! i = Some r
                  /\ sr_url r ∉ map sr_url (take i all_results))
  /\ (forall A B C,
        sr_url C = sr_url A -> sr_url B <> sr_url A ->
        deduplicate_by_url [A; B; C] = [A; B]).
Proof.
  rewrite deduplicate_keep_unseen. split_and!.
  - apply keep_unseen_sublist.
  - apply keep_unseen_NoDup.
  - intros i r Hi Hb. eapply keep_unseen_first; [done| |done]. set_solver.
  - apply keep_unseen_only_first.
  - intros A B C HC HB. rewrite deduplicate_keep_unseen. simpl.
    rewrite decide_False by set_solver.
    rewrite decide_False by set_solver.
    rewrite decide_True by set_solver. done.
Qed.

(** ** The stage wrapper and the pipeline *)

Section PipelineFacts.

Context {Ext : Type}.

Implicit Types (st : @RunState Ext) (stage : ResearchStage) (w : Ext).

(** [_run_stage] without a callback, in one step: the progress state the
    call leaves is the entered one with the stage completed or with the
    error recorded. *)
Lemma run_stage_unfold stage (stage_func : StageFunc) st o r w :
  stage_func (entered (run_session st) stage) (run_ext st) = (o, r, w) ->
  _run_stage stage stage_func None st =
  let p1 := with_current_stage (progress (run_session st)) stage in
  let p2 :=
    match o with
    | Return _ => complete_stage p1 stage
    | Raise e => append_error p1 (stage_value stage +:+ ": " +:+ str e)
    end in
  (o, {| run_session :=
           with_progress (with_results (run_session st) r) p2;
         run_ext := w;
         run_trace := run_trace st ++ [p1; p2];
         run_calls := run_calls st ++ [(stage, o)] |}).
Proof.
  intros Hcall.
  unfold _run_stage, mbind, Eff_bind, mret, Eff_ret, try_except,
    set_progress, modify, await_stage, raise; simpl.
  unfold entered in Hcall. rewrite Hcall.
  destruct o as [[]|e]; simpl; rewrite <- app_assoc; reflexivity.
Qed.

(** C9: when the stage callable raises [e], [_run_stage] appends
    ["{stage.value}: {str(e)}"] to [progress.errors], leaves
    [stages_completed] as it was, and raises [e] itself.  The callback,
    when there is one, is called before the stage and is taken to
    return. *)
Theorem run_stage_failure_recorded stage (stage_func : StageFunc)
    (progress_callback : option Callback) st w1 e r w2 :
  match progress_callback with
  | Some cb =>
      cb stage (progress_percentage
                  (progress (entered (run_session st) stage))) (run_ext st)
  | None => (Return tt, run_ext st)
  end = (Return tt, w1) ->
  stage_func (entered (run_session st) stage) w1 = (Raise e, r, w2) ->
  exists st',
    _run_stage stage stage_func progress_callback st = (Raise e, st')
    /\ errors (progress (run_session st')) =
       errors (progress (run_session st))
       ++ [stage_value stage +:+ ": " +:+ str e]
    /\ stages_completed (progress (run_session st')) =
       stages_completed (progress (run_session st))
    /\ run_calls st' = run_calls st ++ [(stage, Raise e)].
Proof.
  intros Hcb Hcall.
  unfold _run_stage, mbind, Eff_bind, mret, Eff_ret, try_except,
    set_progress, modify, await_stage, raise, gets, lift_ext; simpl.
  unfold entered in *; simpl in *.
  destruct progress_callback as [cb|]; simpl.
  - rewrite Hcb; simpl. rewrite Hcall; simpl. eauto.
  - injection Hcb as <-. rewrite Hcall; simpl. eauto.
Qed.

(** *** What a run leaves untouched *)

Variable call_json : string -> Eff Ext Json.
Variable FALLBACK_CONTENT_PROMPT : string -> string -> string -> string -> string.
Variable str_dict : PyDict -> string.
Variable str_list : list string -> string.
Variables _analyze_query _search_web _reason _verify _generate_citations
  _generate_output : StageFunc (Ext := Ext).

Local Abbreviation handle_failure :=
  (_handle_research_failure call_json FALLBACK_CONTENT_PROMPT
     str_dict str_list).
Local Abbreviation body :=
  (research_body _analyze_query _search_web _reason _verify
     _generate_citations _generate_output).
Local Abbreviation research_ :=
  (research call_json FALLBACK_CONTENT_PROMPT str_dict str_list
     _analyze_query _search_web _reason _verify _generate_citations
     _generate_output).
Local Abbreviation stage_method_ :=
  (stage_method _analyze_query _search_web _reason _verify
     _generate_citations _generate_output).
Local Abbreviation run_stages_ :=
  (run_stages _analyze_query _search_web _reason _verify
     _generate_citations _generate_output).

Lemma research_body_plan verify_claims progress_callback st :
  body verify_claims progress_callback st =
  run_stages_ (stage_plan verify_claims) (finish progress_callback) st.
Proof. destruct verify_claims; reflexivity. Qed.

(** A property of run states that every step of a run preserves is
    preserved by the run. *)
Section Preserved.

Variable P : @RunState Ext -> Prop.

Hypothesis P_progress : forall st f,
  P st -> P (set_progress f st).2.
Hypothesis P_results : forall st r w o stage,
  P st ->
  P {| run_session := with_results (run_session st) r; run_ext := w;
       run_trace := run_trace st;
       run_calls := run_calls st ++ [(stage, o)] |}.
Hypothesis P_ext : forall st w,
  P st ->
  P {| run_session := run_session st; run_ext := w;
       run_trace := run_trace st; run_calls := run_calls st |}.

Lemma run_stage_preserves stage (stage_func : StageFunc) st :
  P st -> P (_run_stage stage stage_func None st).2.
Proof.
  intros HP.
  destruct (stage_func (entered (run_session st) stage) (run_ext st))
    as [[o r] w] eqn:Hcall.
  rewrite (run_stage_unfold _ _ _ _ _ _ Hcall). cbn zeta. simpl.
  set (p1 := with_current_stage (progress (run_session st)) stage).
  set (p2 := match o with
             | Return _ => complete_stage p1 stage
             | Raise e => append_error p1 (stage_value stage +:+ ": " +:+ str e)
             end).
  pose proof (P_progress _ (fun _ => p1) HP) as H1. simpl in H1.
  pose proof (P_results _ r w o stage H1) as H2. simpl in H2.
  pose proof (P_progress _ (fun _ => p2) H2) as H3. simpl in H3.
  unfold with_progress, with_results in *; simpl in *.
  rewrite <- app_assoc in H3. exact H3.
Qed.

Lemma lift_ext_preserves {A} (m : Eff Ext A) st :
  P st -> P (lift_ext m st).2.
Proof.
  intros HP. unfold lift_ext. destruct (m (run_ext st)) as [o w] eqn:E.
  simpl. by apply P_ext.
Qed.

Lemma finish_preserves progress_callback st :
  P st -> P (finish progress_callback st).2.
Proof.
  intros HP. unfold finish, mbind, Eff_bind, mret, Eff_ret, gets.
  pose proof (P_progress _ (fun p => with_current_stage p COMPLETE) HP) as H1.
  destruct (set_progress _ st) as [[[]|e] st1] eqn:E1; simpl in *;
    [|done].
  destruct progress_callback as [cb|]; [|done].
  pose proof (lift_ext_preserves (cb COMPLETE 100.0%float) st1 H1) as H2.
  destruct (lift_ext _ st1) as [[[]|e] st2]; done.
Qed.

Lemma run_stages_preserves plan progress_callback : forall st,
  P st -> P (run_stages_ plan (finish progress_callback) st).2.
Proof.
  induction plan as [|stage plan IH]; intros st HP; simpl.
  - by apply finish_preserves.
  - unfold mbind, Eff_bind.
    pose proof (run_stage_preserves stage (stage_method_ stage) st HP) as H1.
    destruct (_run_stage _ _ _ st) as [[[]|e] st1]; simpl in *; [|done].
    by apply IH.
Qed.

Lemma handle_failure_preserves e st :
  P st -> P (handle_failure e st).2.
Proof.
  intros HP.
  unfold _handle_research_failure, mbind, Eff_bind, mret, Eff_ret, gets.
  set (m := generate_fallback_content _ _ _ _ _ _ _ _).
  pose proof (lift_ext_preserves m st HP) as H1.
  destruct (lift_ext m st) as [[d|e'] st1]; done.
Qed.

Lemma research_try_preserves verify_claims progress_callback st :
  P st ->
  P (try_except (body verify_claims progress_callback) handle_failure st).2.
Proof.
  intros HP. unfold try_except. rewrite research_body_plan.
  pose proof (run_stages_preserves (stage_plan verify_claims)
                progress_callback st HP) as H1.
  destruct (run_stages_ _ _ st) as [[a|e] st1]; simpl in *; [done|].
  by apply handle_failure_preserves.
Qed.

End Preserved.

(** *** The session registry *)

Lemma research_keeps_session_id verify_claims progress_callback st :
  session_id
    (run_session
       (try_except (body verify_claims progress_callback)
                   handle_failure st).2)
  = session_id (run_session st).
Proof.
  apply (research_try_preserves
           (fun st' => session_id (run_session st')
                       = session_id (run_session st)));
    try done.
Qed.

Lemma cleanup_session_absent (self : Orchestrator) (sid : string) :
  active_sessions (_cleanup_session self sid) !! sid = None.
Proof.
  unfold _cleanup_session.
  destruct (decide (is_Some (active_sessions self !! sid))) as [|Hno];
    simpl.
  - apply lookup_delete_eq.
  - by apply eq_None_not_Some.
Qed.

(** C5: on every exit of [research], whether the [try] block returns,
    the handler of a failure returns the degraded result, or the handler
    itself raises and the exception leaves [research], the id of the
    session it created is not a key of the registry afterwards; the id
    is the one [_create_session] built, the session the [finally] clause
    reads it from still carries it, and the rest of the registry is as
    it was before the call. *)
Theorem research_session_cleaned_up (query0 : string)
    (verify_claims : bool) (progress_callback : option Callback)
    (now : string) (self : Orchestrator) (w : Ext) :
  let sid := "session_" +:+ pretty (S (_session_counter self)) +:+ "_" +:+ now in
  let '(o, self', st) :=
    research_ query0 verify_claims progress_callback now self w in
  session_id (run_session st) = sid
  /\ active_sessions self' !! sid = None
  /\ active_sessions self' = delete sid (active_sessions self).
Proof.
  unfold research, _create_session. cbn zeta.
  set (sid := "session_" +:+ pretty (S (_session_counter self)) +:+ "_" +:+ now).
  set (session := {| session_id := sid; query := query0;
                     progress := initial_progress;
                     results := empty_results |}).
  pose proof (research_keeps_session_id verify_claims progress_callback
                (init_run session w)) as Hid.
  destruct (try_except _ _ (init_run session w)) as [o st]; simpl in *.
  rewrite Hid. split_and!; [done|apply cleanup_session_absent|].
  unfold _cleanup_session; simpl.
  rewrite decide_True by (rewrite lookup_insert_eq; eauto).
  simpl. apply delete_insert_eq.
Qed.

(** *** Stage failures *)

Lemma run_stage_calls stage (stage_func : StageFunc) st :
  no_raise st ->
  let '(o, st') := _run_stage stage stage_func None st in
  match o with
  | Return _ => no_raise st'
  | Raise e =>
      forall stage' e', (stage', Raise e') ∈ run_calls st' ->
                        stage' = stage /\ e' = e
  end.
Proof.
  intros Hno.
  destruct (stage_func (entered (run_session st) stage) (run_ext st))
    as [[o r] w] eqn:Hcall.
  rewrite (run_stage_unfold _ _ _ _ _ _ Hcall). cbn zeta.
  destruct o as [[]|e]; simpl.
  - intros stage' e' [Hin|Hin]%elem_of_app; [by eapply Hno|].
    by apply list_elem_of_singleton in Hin.
  - intros stage' e' [Hin|Hin]%elem_of_app; [by apply Hno in Hin|].
    apply list_elem_of_singleton in Hin. by injection Hin as -> ->.
Qed.

Lemma finish_calls progress_callback st :
  run_calls (finish progress_callback st).2 = run_calls st.
Proof.
  apply (finish_preserves (fun st' => run_calls st' = run_calls st));
    try done.
Qed.

Lemma run_stages_calls plan progress_callback : forall st,
  no_raise st ->
  let '(o, st') := run_stages_ plan (finish progress_callback) st in
  forall stage e, (stage, Raise e) ∈ run_calls st' -> o = Raise e.
Proof.
  induction plan as [|stage0 plan IH]; intros st Hno; simpl.
  - pose proof (finish_calls progress_callback st) as Hc.
    destruct (finish progress_callback st) as [o st']; simpl in Hc.
    intros stage e Hin. rewrite Hc in Hin. by apply Hno in Hin.
  - unfold mbind, Eff_bind.
    pose proof (run_stage_calls stage0 (stage_method_ stage0) st Hno) as H1.
    destruct (_run_stage _ _ _ st) as [[[]|e0] st1]; simpl in *.
    + by apply IH.
    + intros stage e Hin. apply H1 in Hin as [_ ->]. done.
Qed.

Lemma handle_failure_calls e st :
  run_calls (handle_failure e st).2 = run_calls st.
Proof.
  apply (handle_failure_preserves (fun st' => run_calls st' = run_calls st));
    try done.
Qed.

(** [generate_fallback_content] returns, whatever the language-model
    call does. *)
Lemma generate_fallback_content_returns query0 info failed cached w :
  exists d w',
    generate_fallback_content call_json FALLBACK_CONTENT_PROMPT str_dict
      str_list query0 info failed cached w = (Return d, w').
Proof.
  unfold generate_fallback_content, try_except, mbind, Eff_bind, mret,
    Eff_ret.
  destruct (call_json _ w) as [[d|e] w']; eauto.
Qed.

(** [_handle_research_failure] in one step: the language model is
    asked once, and what it did decides the fallback dict; the session
    and the records of the run are left as they were. *)
Lemma handle_failure_unfold e st (o : Outcome Json) w' :
  call_json (fallback_prompt FALLBACK_CONTENT_PROMPT str_dict str_list
               (run_session st) e) (run_ext st) = (o, w') ->
  handle_failure e st
  = (handled (run_session st) e (fallback_of o [str e]),
     {| run_session := run_session st; run_ext := w';
        run_trace := run_trace st; run_calls := run_calls st |}).
Proof.
  intros Hcall.
  unfold _handle_research_failure, generate_fallback_content, try_except,
    mbind, Eff_bind, mret, Eff_ret, gets, lift_ext, eval.
  unfold fallback_prompt in Hcall. rewrite Hcall.
  by destruct o.
Qed.

(** The fixed dict has a response. *)
Lemma fixed_fallback_response (failed_sources : list string) :
  fallback_response (fixed_fallback failed_sources)
  = Return (JStr "Unable to complete the research at this time.").
Proof. reflexivity. Qed.

(** The [.get] chain raises exactly on a value that is no dict, or that
    holds a value that is no dict under ["fallback_content"]; what it
    raises names the type of that value. *)
Lemma fallback_response_raises (fallback : Json) (e : PyExc) :
  fallback_response fallback = Raise e
  <-> exists bad,
        (bad = fallback
         \/ exists d, fallback = JDict d
                      /\ d !! "fallback_content" = Some bad)
        /\ not_a_dict bad
        /\ e = no_attribute_get bad.
Proof.
  unfold fallback_response. split.
  - destruct fallback as [| | | | | |d]; simpl;
      try (intros [= <-]; eexists; split; [by left|done]).
    destruct (d !! "fallback_content") as [inner|] eqn:Hd; simpl.
    + destruct inner as [| | | | | |d']; simpl;
        try (intros [= <-]; eexists; split; [right; eauto|done]).
      by destruct (d' !! "response").
    + rewrite lookup_empty. done.
  - intros (bad & [->|(d & -> & Hd)] & Hbad & ->).
    + by destruct fallback.
    + simpl. rewrite Hd. by destruct bad.
Qed.

(** *** The progress states of a run *)

Lemma sorted_below_last (tr : list ResearchProgress) p :
  StronglySorted le_completed tr -> last tr = Some p ->
  Forall (fun q => le_completed q p) tr.
Proof.
  intros Hs Hl. apply Forall_forall. intros q Hq.
  apply last_Some in Hl as [tr' ->].
  apply elem_of_app in Hq as [Hq|Hq].
  - eapply StronglySorted_app_1_elem_of; [done..|left].
  - apply list_elem_of_singleton in Hq as ->. by unfold le_completed.
Qed.

Lemma trace_snoc plan (tr : list ResearchProgress) p q :
  Forall (on_plan plan) tr -> StronglySorted le_completed tr ->
  last tr = Some p -> on_plan plan q -> le_completed p q ->
  Forall (on_plan plan) (tr ++ [q])
  /\ StronglySorted le_completed (tr ++ [q])
  /\ last (tr ++ [q]) = Some q.
Proof.
  intros Hall Hs Hl Hq Hpq. split_and!.
  - apply Forall_app. split; [done|]. by constructor.
  - apply StronglySorted_app. split_and!; [|done|repeat constructor].
    intros x1 x2 Hx1 ->%list_elem_of_singleton.
    pose proof (sorted_below_last tr p Hs Hl) as Hbelow.
    rewrite Forall_forall in Hbelow. unfold le_completed in *.
    by etrans; [apply Hbelow|].
  - apply last_snoc.
Qed.

Lemma run_stage_inv plan stage (stage_func : StageFunc) rest st :
  run_inv plan st ->
  stages_completed (progress (run_session st)) ++ stage :: rest = plan ->
  let '(o, st') := _run_stage stage stage_func None st in
  run_inv plan st'
  /\ match o with
     | Return _ =>
         stages_completed (progress (run_session st')) ++ rest = plan
     | Raise _ => True
     end.
Proof.
  intros (Hall & Hs & Hl) Hplan.
  destruct (stage_func (entered (run_session st) stage) (run_ext st))
    as [[o r] w] eqn:Hcall.
  rewrite (run_stage_unfold _ _ _ _ _ _ Hcall). cbn zeta.
  set (p0 := progress (run_session st)) in *.
  set (p1 := with_current_stage p0 stage).
  assert (Hnot : stages_completed p0 <> plan).
  { intros Heq. rewrite Heq in Hplan.
    apply (f_equal length) in Hplan. rewrite length_app in Hplan.
    simpl in Hplan. lia. }
  assert (H1 : on_plan plan p1).
  { split; [|done]. simpl. rewrite <- Hplan. by apply prefix_app_r. }
  destruct (trace_snoc plan _ p0 p1 Hall Hs Hl H1)
    as (Hall1 & Hs1 & Hl1); [by unfold le_completed|].
  unfold run_inv. simpl.
  replace (run_trace st ++ [p1; _]) with ((run_trace st ++ [p1]) ++
    [match o with
     | Return _ => complete_stage p1 stage
     | Raise e => append_error p1 (stage_value stage +:+ ": " +:+ str e)
     end]) by (by rewrite <- app_assoc).
  destruct o as [[]|e].
  - split; [|simpl; by rewrite <- app_assoc].
    apply (trace_snoc plan _ p1); try done.
    + split; simpl.
      * rewrite <- Hplan.
        replace (stage :: rest) with ([stage] ++ rest) by done.
        rewrite app_assoc. by apply prefix_app_r.
      * intros <-. right. by rewrite last_snoc.
    + unfold le_completed; simpl. by apply prefix_app_r.
  - split; [|done].
    apply (trace_snoc plan _ p1); try done.
    by unfold le_completed.
Qed.

Lemma finish_inv plan progress_callback st :
  run_inv plan st ->
  stages_completed (progress (run_session st)) = plan ->
  run_inv plan (finish progress_callback st).2.
Proof.
  intros (Hall & Hs & Hl) Hplan.
  set (p0 := progress (run_session st)) in *.
  assert (H1 : on_plan plan (with_current_stage p0 COMPLETE)).
  { split; simpl; [by rewrite Hplan|]. by left. }
  destruct (trace_snoc plan _ p0 _ Hall Hs Hl H1)
    as (Hall1 & Hs1 & Hl1); [by unfold le_completed|].
  unfold finish, mbind, Eff_bind, mret, Eff_ret, gets, set_progress,
    modify, lift_ext; simpl.
  destruct progress_callback as [cb|]; simpl; [|done].
  destruct (cb COMPLETE 100%float (run_ext st)) as [[[]|e] w']; done.
Qed.

Lemma run_stages_inv plan progress_callback : forall todo st,
  run_inv plan st ->
  stages_completed (progress (run_session st)) ++ todo = plan ->
  run_inv plan (run_stages_ todo (finish progress_callback) st).2.
Proof.
  induction todo as [|stage todo IH]; intros st Hinv Hplan; simpl.
  - apply finish_inv; [done|]. by rewrite app_nil_r in Hplan.
  - unfold mbind, Eff_bind.
    pose proof (run_stage_inv plan stage (stage_method_ stage) todo st
                  Hinv Hplan) as H1.
    destruct (_run_stage _ _ _ st) as [[[]|e] st1]; simpl in *.
    + apply IH; tauto.
    + tauto.
Qed.

Lemma handle_failure_inv plan e st :
  run_inv plan st -> run_inv plan (handle_failure e st).2.
Proof. apply handle_failure_preserves. done. Qed.

(** Every run of [research] keeps its trace on the plan. *)
Lemma research_inv (query0 : string) (verify_claims : bool)
    (progress_callback : option Callback) (now : string)
    (self : Orchestrator) (w : Ext) :
  run_inv (stage_plan verify_claims)
    (research_ query0 verify_claims progress_callback now self w).2.
Proof.
  unfold research, _create_session. cbn zeta.
  set (session := {| session_id := _; query := query0;
                     progress := initial_progress;
                     results := empty_results |}).
  assert (Hinit : run_inv (stage_plan verify_claims) (init_run session w)).
  { split_and!; simpl.
    - repeat constructor. + by apply prefix_nil. + by destruct verify_claims.
    - repeat constructor.
    - done. }
  unfold try_except. rewrite research_body_plan.
  pose proof (run_stages_inv (stage_plan verify_claims) progress_callback
                (stage_plan verify_claims) (init_run session w) Hinit
                eq_refl) as H1.
  destruct (run_stages_ _ _ (init_run session w)) as [[a|e] st1];
    simpl in *; [done|].
  pose proof (handle_failure_inv _ e st1 H1) as H2.
  destruct (handle_failure e st1) as [o st2]. done.
Qed.

Lemma stage_plan_canonical verify_claims :
  stage_plan verify_claims =
  if verify_claims then canonical_order
  else filter (fun stage => stage <> VERIFICATION) canonical_order.
Proof. by destruct verify_claims. Qed.

Lemma stage_plan_length verify_claims :
  length (stage_plan verify_claims) <= 6.
Proof. destruct verify_claims; simpl; lia. Qed.

(** Whatever callables are handed to [_run_stage], at every point of a
    run the completed stages are a prefix of the stages the run executes,
    in the order it executes them: the canonical order when claims are
    verified, and the canonical order without the verification stage
    when they are not. *)
Lemma stages_completed_prefix_of_plan (query0 : string)
    (verify_claims : bool) (progress_callback : option Callback)
    (now : string) (self : Orchestrator) (w : Ext) :
  Forall (fun p => stages_completed p `prefix_of` stage_plan verify_claims)
         (run_trace
            (research_ query0 verify_claims progress_callback now self w).2)
  /\ stage_plan verify_claims =
     (if verify_claims then canonical_order
      else filter (fun stage => stage <> VERIFICATION) canonical_order).
Proof.
  split; [|apply stage_plan_canonical].
  destruct (research_inv query0 verify_claims progress_callback now self w)
    as (Hall & _ & _).
  eapply Forall_impl; [exact Hall|]. by intros p [Hp _].
Qed.

(** *** The completion percentage *)

Lemma progress_percentage_count p :
  progress_percentage p = pct_of_count (length (stages_completed p)).
Proof. reflexivity. Qed.

Lemma pct_of_count_mono a b :
  a <= b -> b <= 6 ->
  PrimFloat.leb (pct_of_count a) (pct_of_count b) = true.
Proof.
  intros Hab Hb.
  do 7 (destruct a as [|a];
        [do 7 (destruct b as [|b]; [first [reflexivity|lia]|]); lia|]).
  lia.
Qed.

Lemma pct_of_count_full n :
  n <= 6 -> PrimFloat.eqb (pct_of_count n) 100%float = true -> n = 6.
Proof.
  intros Hn. do 7 (destruct n as [|n]; [first [done|discriminate]|]). lia.
Qed.

(** Whatever callables are handed to [_run_stage], along the progress
    states of a run the percentage never decreases, each state's
    percentage being at most that of every later state; and a state
    whose percentage is 100 has all six stages completed, its current
    stage being the last stage or the terminal one. *)
Lemma progress_percentage_monotone (query0 : string)
    (verify_claims : bool) (progress_callback : option Callback)
    (now : string) (self : Orchestrator) (w : Ext) :
  let trace :=
    run_trace
      (research_ query0 verify_claims progress_callback now self w).2 in
  StronglySorted
    (fun p q =>
       PrimFloat.leb (progress_percentage p) (progress_percentage q) = true)
    trace
  /\ Forall
       (fun p =>
          PrimFloat.eqb (progress_percentage p) 100%float = true ->
          stages_completed p = canonical_order
          /\ (current_stage p = OUTPUT_GENERATION
              \/ current_stage p = COMPLETE))
       trace.
Proof.
  destruct (research_inv query0 verify_claims progress_callback now self w)
    as (Hall & Hs & _).
  cbn zeta. revert Hall Hs.
  generalize (run_trace
    (research_ query0 verify_claims progress_callback now self w).2).
  intros trace Hall Hs. split.
  - induction Hs as [|p tr Hs IH Hp]; [constructor|].
    apply Forall_cons in Hall as [Hp0 Hall].
    constructor; [by apply IH|].
    rewrite Forall_forall in Hp, Hall |- *. intros q Hq.
    rewrite !progress_percentage_count. apply pct_of_count_mono.
    + by apply prefix_length, Hp.
    + destruct (Hall q Hq) as [Hpre _]. apply prefix_length in Hpre.
      pose proof (stage_plan_length verify_claims). lia.
  - eapply Forall_impl; [exact Hall|]. intros p [Hpre Hlast] H100.
    rewrite progress_percentage_count in H100.
    pose proof (stage_plan_length verify_claims) as Hlen.
    pose proof (prefix_length _ _ Hpre) as Hle.
    apply pct_of_count_full in H100; [|lia].
    assert (Heq : stages_completed p = stage_plan verify_claims).
    { apply prefix_length_eq; [done|lia]. }
    destruct verify_claims.
    + split; [done|]. destruct (Hlast Heq) as [->|Hl]; [by right|].
      left. simpl in Hl. congruence.
    + rewrite Heq in H100. discriminate.
Qed.

End PipelineFacts.

(** C9, on a search stage that fails at the start of a session. *)
Lemma run_stage_failure_recorded_witness :
  let session :=
    {| session_id := "session_1_20240101120000"; query := "q";
       progress := initial_progress; results := empty_results |} in
  exists st',
    _run_stage WEB_SEARCH (Scenario.stage_raises Scenario.search_error)
      None (init_run session tt)
    = (Raise Scenario.search_error, st')
    /\ errors (progress (run_session st'))
       = [] ++ ["web_search" +:+ ": " +:+ "provider unreachable"]
    /\ stages_completed (progress (run_session st')) = []
    /\ run_calls st' = [] ++ [(WEB_SEARCH, Raise Scenario.search_error)].
Proof.
  intros session.
  apply (run_stage_failure_recorded WEB_SEARCH
           (Scenario.stage_raises Scenario.search_error) None
           (init_run session tt) tt Scenario.search_error
           empty_results tt); reflexivity.
Defined.

(** ** The language-model client *)

Module LLMFacts.

Import LLM.

Section Client.

Context {Ext : Type}.

Implicit Types (st : @ClientState Ext) (call : Call).

Lemma call_backend_eq {Res} b call
    (method : BaseLLMClient -> Eff Ext Res) st o w :
  method (backend st b) (ext st) = (o, w) ->
  call_backend b call method st = (o, called st b call w).
Proof. unfold call_backend. by intros ->. Qed.

(** With the flag set, one level of the recursion is the call of the
    fallback backend, whatever that call does. *)
Lemma with_fallback_flag_set {Res} n call
    (method : BaseLLMClient -> Eff Ext Res) st o w :
  _use_fallback (self st) = true ->
  method (fallback (self st)) (ext st) = (o, w) ->
  with_fallback (S n) call method st = Some (o, called st Fallback call w).
Proof.
  intros Hflag Hcall. simpl. unfold current_backend. rewrite Hflag.
  rewrite (call_backend_eq Fallback call method st o w) by done.
  destruct o as [r|e]; [done|]. simpl. by rewrite Hflag.
Qed.

(** With the flag clear and the primary backend raising, two levels
    are enough: the flag is set and the fallback backend is called with
    the same arguments. *)
Lemma with_fallback_failover {Res} n call
    (method : BaseLLMClient -> Eff Ext Res) st e w1 o w2 :
  _use_fallback (self st) = false ->
  method (primary (self st)) (ext st) = (Raise e, w1) ->
  method (fallback (self st)) w1 = (o, w2) ->
  with_fallback (S (S n)) call method st =
  Some (o, called (set_use_fallback (called st Primary call w1))
                  Fallback call w2).
Proof.
  intros Hflag Hp Hf.
  change (with_fallback (S (S n)) call method st) with
    (match call_backend (current_backend st) call method st with
     | (Return r, st') => Some (Return r, st')
     | (Raise e, st') =>
         if negb (_use_fallback (self st'))
         then with_fallback (S n) call method (set_use_fallback st')
         else Some (Raise e, st')
     end).
  unfold current_backend. rewrite Hflag.
  rewrite (call_backend_eq Primary call method st (Raise e) w1) by done.
  simpl negb. rewrite Hflag. simpl negb. cbv iota.
  by apply with_fallback_flag_set.
Qed.

Lemma perform_flag_set n call st o w :
  _use_fallback (self st) = true ->
  backend_reply (fallback (self st)) call (ext st) = (o, w) ->
  perform (S n) call st = Some (o, called st Fallback call w).
Proof.
  intros Hflag Hcall. destruct call as [args|args];
    unfold perform, generate, generate_json, backend_reply in *.
  - destruct (generate_of _ args (ext st)) as [o' w'] eqn:E.
    injection Hcall as <- <-.
    by rewrite (with_fallback_flag_set n _ _ st o' w').
  - destruct (generate_json_of _ args (ext st)) as [o' w'] eqn:E.
    injection Hcall as <- <-.
    by rewrite (with_fallback_flag_set n _ _ st o' w').
Qed.

Lemma perform_failover n call st e w1 o w2 :
  _use_fallback (self st) = false ->
  backend_reply (primary (self st)) call (ext st) = (Raise e, w1) ->
  backend_reply (fallback (self st)) call w1 = (o, w2) ->
  perform (S (S n)) call st =
  Some (o, called (set_use_fallback (called st Primary call w1))
                  Fallback call w2).
Proof.
  intros Hflag Hp Hf. destruct call as [args|args];
    unfold perform, generate, generate_json, backend_reply in *.
  - destruct (generate_of (primary _) args (ext st)) as [[r|e'] w'] eqn:E1;
      [done|]. injection Hp as -> ->.
    destruct (generate_of (fallback _) args w1) as [o' w''] eqn:E2.
    injection Hf as <- <-.
    by rewrite (with_fallback_failover n _ _ st e w1 o' w'').
  - destruct (generate_json_of (primary _) args (ext st))
      as [[r|e'] w'] eqn:E1; [done|]. injection Hp as -> ->.
    destruct (generate_json_of (fallback _) args w1) as [o' w''] eqn:E2.
    injection Hf as <- <-.
    by rewrite (with_fallback_failover n _ _ st e w1 o' w'').
Qed.

Lemma perform_all_flag_set n (calls : list Call) : forall st,
  _use_fallback (self st) = true ->
  exists os st',
    perform_all (S n) calls st = Some (os, st')
    /\ length os = length calls
    /\ _use_fallback (self st') = true
    /\ backend_calls st' =
       backend_calls st ++ map (fun call => (Fallback, call)) calls.
Proof.
  induction calls as [|call calls IH]; intros st Hflag.
  - exists [], st. by rewrite app_nil_r.
  - destruct (backend_reply (fallback (self st)) call (ext st))
      as [o w] eqn:Hcall.
    destruct (IH (called st Fallback call w) Hflag)
      as (os & st' & Hall & Hlen & Hflag' & Hcalls).
    exists (o :: os), st'.
    cbn [perform_all]. rewrite (perform_flag_set n call st o w) by done.
    simpl. rewrite Hall. simpl. split_and!; [done|by rewrite Hlen|done|].
    rewrite Hcalls. simpl. by rewrite <- app_assoc.
Qed.

(** C3: a client starts with the flag clear.  On a call with the flag
    clear in which the primary backend raises, the flag is set and the
    same call goes to the secondary backend, and what that backend does
    is the result: its value is returned, its exception is raised, and
    in both cases the flag stays set.  With the flag set, every call of
    any sequence of calls goes to the secondary backend and to no other,
    and the flag is still set at the end.  Two levels of recursion are
    always enough. *)
Theorem llm_fallback_is_sticky (p f : BaseLLMClient (Ext := Ext)) :
  _use_fallback (LLMClient_init p f) = false
  /\ (forall fuel call st e w1 o w2,
        2 <= fuel ->
        _use_fallback (self st) = false ->
        backend_reply (primary (self st)) call (ext st) = (Raise e, w1) ->
        backend_reply (fallback (self st)) call w1 = (o, w2) ->
        exists st',
          perform fuel call st = Some (o, st')
          /\ _use_fallback (self st') = true
          /\ ext st' = w2
          /\ backend_calls st' =
             backend_calls st ++ [(Primary, call); (Fallback, call)])
  /\ (forall fuel calls st,
        1 <= fuel ->
        _use_fallback (self st) = true ->
        exists os st',
          perform_all fuel calls st = Some (os, st')
          /\ length os = length calls
          /\ _use_fallback (self st') = true
          /\ backend_calls st' =
             backend_calls st ++ map (fun call => (Fallback, call)) calls).
Proof.
  split_and!.
  - done.
  - intros fuel call st e w1 o w2 Hfuel Hflag Hp Hf.
    destruct fuel as [|[|n]]; [lia..|].
    eexists. split; [by eapply perform_failover|].
    simpl. split_and!; [done..|]. by rewrite <- app_assoc.
  - intros fuel calls st Hfuel Hflag.
    destruct fuel as [|n]; [lia|]. by apply perform_all_flag_set.
Qed.

End Client.

End LLMFacts.

(** ** The search provider wrapper *)

Module SearchFacts.

Import Search.

Section WebSearch.

Context {Ext Result : Type}.

Implicit Types (st : @SearchState Ext Result) (q : string)
  (max_results : Z).

Lemma call_provider_eq p q max_results st o w :
  provider st p q max_results (ext st) = (o, w) ->
  call_provider p q max_results st
  = (o, called st p q max_results w).
Proof. unfold call_provider. by intros ->. Qed.

(** With the flag set, the fallback provider is asked and nothing else
    happens. *)
Lemma execute_search_flag_set n q max_results st o w :
  _use_fallback (self st) = true ->
  fallback_provider (self st) q max_results (ext st) = (o, w) ->
  _execute_search (S n) q max_results st
  = Some (fallback_answer o, called st Fallback q max_results w).
Proof.
  intros Hflag Hcall. simpl. rewrite Hflag.
  unfold execute_search_try, mbind, Eff_bind, mret, Eff_ret, gets.
  rewrite (call_provider_eq Fallback q max_results st o w) by done.
  destruct o as [results|e]; simpl; rewrite Hflag; simpl.
  - by rewrite andb_false_r.
  - done.
Qed.

(** C8: with the flag clear, a primary provider that returns an empty
    list and one that raises are treated alike: the flag is set, the
    fallback provider is asked with the same query and the same limit,
    and the call answers with the fallback's results (with no results
    if the fallback raises). *)
Theorem empty_primary_triggers_failover fuel q max_results st
    (o1 : Outcome (list Result)) (w1 : Ext)
    (o2 : Outcome (list Result)) (w2 : Ext) :
  2 <= fuel ->
  _use_fallback (self st) = false ->
  primary_provider (self st) q max_results (ext st) = (o1, w1) ->
  o1 = Return [] \/ (exists e, o1 = Raise e) ->
  fallback_provider (self st) q max_results w1 = (o2, w2) ->
  exists st',
    _execute_search fuel q max_results st
    = Some (fallback_answer o2, st')
    /\ _use_fallback (self st') = true
    /\ ext st' = w2
    /\ provider_calls st' =
       provider_calls st
       ++ [(Primary, q, max_results); (Fallback, q, max_results)].
Proof.
  intros Hfuel Hflag Hp Ho1 Hf.
  destruct fuel as [|[|n]]; [lia..|].
  pose (rec := @_execute_search Ext Result (S n)).
  assert (Hrec : forall st0 o w,
             _use_fallback (self st0) = true ->
             fallback_provider (self st0) q max_results (ext st0) = (o, w) ->
             rec q max_results st0
             = Some (fallback_answer o,
                     called st0 Fallback q max_results w))
    by (intros; by apply execute_search_flag_set).
  change (_execute_search (S (S n)) q max_results st) with
    (match execute_search_try
             (if _use_fallback (self st) then Fallback else Primary)
             q max_results st with
     | (Return results, st') => Some (Return results, st')
     | (Raise e, st') =>
         if negb (_use_fallback (self st'))
         then rec q max_results (set_use_fallback st')
         else Some (Return [], st')
     end).
  clearbody rec. rewrite Hflag.
  unfold execute_search_try, mbind, Eff_bind, mret, Eff_ret, gets, modify.
  rewrite (call_provider_eq Primary q max_results st o1 w1) by done.
  destruct Ho1 as [->|[e ->]].
  - (* the primary provider returned no results *)
    simpl. rewrite Hflag. simpl.
    rewrite (call_provider_eq Fallback q max_results
               (set_use_fallback (called st Primary q max_results w1))
               o2 w2) by done.
    eexists. destruct o2 as [results|e2]; simpl;
      (split; [reflexivity|]); simpl;
      (split_and!; [done..|by rewrite <- app_assoc]).
  - (* the primary provider raised *)
    simpl. rewrite Hflag. simpl.
    rewrite (Hrec (set_use_fallback (called st Primary q max_results w1))
               o2 w2) by done.
    eexists. split; [reflexivity|]. simpl.
    split_and!; [done..|by rewrite <- app_assoc].
Qed.

End WebSearch.

End SearchFacts.

(** ** Retry with backoff *)

Module RetryFacts.

Import Retry.

Lemma delays_succ d factor k :
  delays d factor (S k) = d :: delays (PrimFloat.mul d factor) factor k.
Proof.
  unfold delays. simpl. f_equal.
  rewrite <- seq_shift, map_map. apply map_ext. intros j.
  exact (Nat.iter_succ_r j (fun x => PrimFloat.mul x factor) d).
Qed.

Lemma py_range_nil lo hi : (hi <= lo)%Z -> py_range lo hi = [].
Proof.
  intros H. unfold py_range. by replace (Z.to_nat (hi - lo)) with 0 by lia.
Qed.

Lemma py_range_cons lo hi :
  (lo < hi)%Z -> py_range lo hi = lo :: py_range (lo + 1) hi.
Proof.
  intros H. unfold py_range.
  replace (Z.to_nat (hi - lo)) with (S (Z.to_nat (hi - (lo + 1)))) by lia.
  simpl. f_equal; [lia|].
  rewrite <- seq_shift, map_map. apply map_ext. intros i. lia.
Qed.

Section Retry.

Context {Ext T : Type}.

Implicit Types (st : @RetryState Ext T) (func : Eff Ext T).

(** The loop, from attempt [a] with [m] attempts left: either it leaves
    with the value of an invocation that all the new failures precede,
    or every one of the [m] invocations raised and the last exception
    is the one of the last of them.  A delay is slept after each
    failure but the one of the last attempt. *)
Lemma retry_loop_spec func max_attempts factor : forall (m : nat) a st,
  (a + Z.of_nat m = max_attempts + 1)%Z ->
  exists outs,
    let '(res, st') :=
      retry_loop func max_attempts factor (py_range a (max_attempts + 1)) st
    in
    invocations st' = invocations st ++ outs
    /\ match res with
       | Some v =>
           exists fails,
             outs = fails ++ [Return v]
             /\ Forall raised fails
             /\ length fails < m
             /\ slept st' = slept st ++ delays (delay st) factor (length fails)
       | None =>
           Forall raised outs
           /\ length outs = m
           /\ slept st' = slept st ++ delays (delay st) factor (m - 1)
           /\ last_exception st' =
              match last outs with
              | Some (Raise e) => Some e
              | _ => last_exception st
              end
       end.
Proof.
  induction m as [|m IH]; intros a st Ha.
  - rewrite py_range_nil by lia. exists []. simpl.
    rewrite !app_nil_r. by split_and!.
  - rewrite py_range_cons by lia. simpl.
    unfold invoke. destruct (func (ext st)) as [[v|e] w1] eqn:Hcall.
    + exists [Return v]. simpl. split; [done|].
      exists []. simpl. rewrite app_nil_r. split_and!; [done|done|lia|done].
    + set (st1 := on_failure e a max_attempts factor _).
      destruct (IH (a + 1)%Z st1 ltac:(lia)) as [outs Hspec].
      exists (Raise e :: outs).
      destruct (retry_loop _ _ _ _ st1) as [res st'].
      destruct Hspec as [Hinv Hres].
      assert (Hinv1 : invocations st1 = invocations st ++ [Raise e]).
      { unfold st1, on_failure. by destruct (a <? max_attempts)%Z. }
      split; [by rewrite Hinv, Hinv1, <- app_assoc|].
      destruct res as [v|].
      * destruct Hres as (fails & -> & Hfails & Hlen & Hslept).
        exists (Raise e :: fails). simpl.
        split_and!; [done|by constructor|lia|].
        rewrite Hslept, delays_succ. unfold st1, on_failure.
        destruct (a <? max_attempts)%Z eqn:Hlt; simpl.
        -- by rewrite <- app_assoc.
        -- apply Z.ltb_ge in Hlt. lia.
      * destruct Hres as (Hall & Hlen & Hslept & Hlast).
        split_and!; [by constructor|simpl; lia| |].
        -- rewrite Hslept. unfold st1, on_failure.
           destruct (a <? max_attempts)%Z eqn:Hlt; simpl.
           ++ apply Z.ltb_lt in Hlt.
              replace (m - 0) with (S (m - 1)) by lia.
              by rewrite delays_succ, <- app_assoc.
           ++ apply Z.ltb_ge in Hlt.
              replace m with 0 by lia. simpl. by rewrite !app_nil_r.
        -- rewrite Hlast. destruct (last outs) as [[v|e']|] eqn:El.
           ++ apply last_Some_elem_of in El.
              rewrite Forall_forall in Hall. by apply Hall in El.
           ++ destruct outs as [|o' outs']; [done|].
              change (last (Raise e :: o' :: outs'))
                with (last (o' :: outs')). by rewrite El.
           ++ apply last_None in El as ->. simpl.
              unfold st1, on_failure. by destruct (a <? max_attempts)%Z.
Qed.

(** The invocations the loop records are calls of [func], each on the
    outside world the one before it left. *)
Lemma retry_loop_calls func max_attempts factor attempts : forall st,
  exists outs,
    let '(res, st') := retry_loop func max_attempts factor attempts st in
    invocations st' = invocations st ++ outs
    /\ call_times func (length outs) (ext st) = (outs, ext st').
Proof.
  induction attempts as [|a rest IH]; intros st; simpl.
  - exists []. by rewrite app_nil_r.
  - unfold invoke. destruct (func (ext st)) as [[v|e] w1] eqn:Hcall.
    + exists [Return v]. simpl. by rewrite Hcall.
    + set (st1 := on_failure e a max_attempts factor _).
      destruct (IH st1) as [outs Hspec].
      exists (Raise e :: outs).
      destruct (retry_loop _ _ _ _ st1) as [res st'].
      destruct Hspec as [Hinv Hcalls].
      assert (H1 : invocations st1 = invocations st ++ [Raise e]
                   /\ ext st1 = w1).
      { unfold st1, on_failure. by destruct (a <? max_attempts)%Z. }
      destruct H1 as [Hinv1 Hext1].
      split; [by rewrite Hinv, Hinv1, <- app_assoc|].
      simpl. rewrite Hcall. rewrite Hext1 in Hcalls. by rewrite Hcalls.
Qed.

(** C10: with [max_attempts >= 1], [func] is called over and over, each
    time on the outside world the call before left, until a call returns
    or [max_attempts] calls have raised, and nothing else touches the
    outside world; so [func] is invoked at most [max_attempts] times.
    The outcome of [retry_with_backoff] is that of the last call, every
    earlier one having raised: a value returned is that of the first
    call that does not raise, and an exception raised is that of call
    number [max_attempts].  The delay slept after failure number [k],
    before attempt [k + 1], is [initial_delay] multiplied [k - 1] times
    by [backoff_factor], each product being rounded to a float; nothing
    is slept after the last call. *)
Theorem retry_with_backoff_attempts func (max_attempts : Z)
    (initial_delay backoff_factor : float) (w : Ext) :
  (1 <= max_attempts)%Z ->
  let '(o, st) :=
    retry_with_backoff func max_attempts initial_delay backoff_factor w in
  exists fails,
    invocations st = fails ++ [o]
    /\ call_times func (S (length fails)) w = (fails ++ [o], ext st)
    /\ Forall raised fails
    /\ (Z.of_nat (length (invocations st)) <= max_attempts)%Z
    /\ (raised o -> Z.of_nat (length (invocations st)) = max_attempts)
    /\ slept st =
       map (fun k =>
              Nat.iter k (fun d => PrimFloat.mul d backoff_factor)
                       initial_delay)
           (seq 0 (length fails)).
Proof.
  intros Hmax. unfold retry_with_backoff.
  set (st0 := {| ext := w; last_exception := None; delay := initial_delay;
                 invocations := []; slept := [] |}).
  destruct (retry_loop_spec func max_attempts backoff_factor
              (Z.to_nat max_attempts) 1%Z st0 ltac:(lia)) as [outs Hspec].
  destruct (retry_loop_calls func max_attempts backoff_factor
              (py_range 1 (max_attempts + 1)) st0) as [outs' Hcalls].
  destruct (retry_loop _ _ _ _ st0) as [[v|] st].
  - destruct Hspec as (Hinv & fails & -> & Hfails & Hlen & Hslept).
    destruct Hcalls as [Hinv' Hcalls]. simpl in Hinv, Hinv', Hcalls.
    rewrite Hinv in Hinv'. subst outs'.
    rewrite length_app, Nat.add_1_r in Hcalls.
    exists fails. simpl in *. rewrite Hinv.
    split_and!; [done|done|done| |done|done].
    rewrite length_app. simpl. lia.
  - destruct Hspec as (Hinv & Hall & Hlen & Hslept & Hlast).
    destruct Hcalls as [Hinv' Hcalls].
    simpl in Hinv, Hinv', Hcalls, Hslept, Hlast.
    rewrite Hinv in Hinv'. subst outs'.
    destruct (last outs) as [o'|] eqn:El.
    + apply last_Some in El as [fails ->].
      apply Forall_app in Hall as [Hfails Ho'].
      apply Forall_inv in Ho'.
      destruct o' as [v|e]; [by unfold raised in Ho'|]. rewrite Hlast.
      rewrite length_app, Nat.add_1_r in Hcalls.
      exists fails. rewrite Hinv.
      rewrite length_app in Hlen |- *. simpl in Hlen |- *.
      split_and!; [done|done|done|lia|intros _; lia|].
      rewrite Hslept. unfold delays. do 2 f_equal. lia.
    + apply last_None in El as ->. simpl in Hlen. lia.
Qed.

End Retry.

End RetryFacts.

(** C3, on a client whose primary backend is down: the first call fails
    over, and the calls after it go to the secondary backend. *)
Lemma llm_fallback_is_sticky_witness :
  (exists st',
     LLM.perform 2 ClientScenario.ask ClientScenario.fresh_client
     = Some (Return (inl "answer"), st')
     /\ LLM._use_fallback (LLM.self st') = true
     /\ LLM.ext st' = tt
     /\ LLM.backend_calls st' =
        [] ++ [(LLM.Primary, ClientScenario.ask);
               (LLM.Fallback, ClientScenario.ask)])
  /\ (exists os st',
        LLM.perform_all 1 [ClientScenario.ask; ClientScenario.ask]
          (LLM.set_use_fallback ClientScenario.fresh_client)
        = Some (os, st')
        /\ length os = 2
        /\ LLM._use_fallback (LLM.self st') = true
        /\ LLM.backend_calls st' =
           [] ++ [(LLM.Fallback, ClientScenario.ask);
                  (LLM.Fallback, ClientScenario.ask)]).
Proof.
  destruct (LLMFacts.llm_fallback_is_sticky ClientScenario.backend_down
              ClientScenario.backend_up) as (_ & Hfailover & Hsticky).
  split.
  - apply (Hfailover 2 ClientScenario.ask ClientScenario.fresh_client
             (Exc "APIError" "503") tt (Return (inl "answer")) tt);
      [lia|reflexivity..].
  - apply (Hsticky 1 [ClientScenario.ask; ClientScenario.ask]
             (LLM.set_use_fallback ClientScenario.fresh_client));
      [lia|reflexivity].
Defined.

(** C8, on a primary provider that finds nothing. *)
Lemma empty_primary_triggers_failover_witness :
  exists st',
    Search._execute_search 2 "monads" 5 ClientScenario.fresh_search
    = Some (Return ["https://example.org"], st')
    /\ Search._use_fallback (Search.self st') = true
    /\ Search.ext st' = tt
    /\ Search.provider_calls st' =
       [] ++ [(Search.Primary, "monads", 5%Z);
              (Search.Fallback, "monads", 5%Z)].
Proof.
  apply (SearchFacts.empty_primary_triggers_failover 2 "monads" 5
           ClientScenario.fresh_search (Return []) tt
           (Return ["https://example.org"]) tt);
    [lia|reflexivity|reflexivity|by left|reflexivity].
Defined.

(** C10, on a function that fails twice: three invocations, two delays,
    1.0 and 2.0. *)
Lemma retry_with_backoff_attempts_witness :
  let '(o, st) :=
    Retry.retry_with_backoff ClientScenario.flaky 3 1%float 2%float 0 in
  exists fails,
    Retry.invocations st = fails ++ [o]
    /\ Retry.call_times ClientScenario.flaky (S (length fails)) 0
       = (fails ++ [o], Retry.ext st)
    /\ Forall Retry.raised fails
    /\ (Z.of_nat (length (Retry.invocations st)) <= 3)%Z
    /\ (Retry.raised o ->
        Z.of_nat (length (Retry.invocations st)) = 3%Z)
    /\ Retry.slept st =
       map (fun k => Nat.iter k (fun d => PrimFloat.mul d 2%float) 1%float)
           (seq 0 (length fails)).
Proof.
  apply (RetryFacts.retry_with_backoff_attempts ClientScenario.flaky 3
           1%float 2%float 0). lia.
Defined.

(** C10, against the closed formula: on a function that always fails,
    with four attempts, an initial delay of 0.1 and a factor of 3.0, the
    delay slept before the fourth attempt is [(0.1 * 3.0) * 3.0], which
    is 0.9000000000000001, and not [0.1 * 3.0 ** 2], which is 0.9. *)
Lemma retry_delay_is_not_the_power :
  let '(o, st) :=
    Retry.retry_with_backoff ClientScenario.always_fails 4 0.1%float
      3%float tt in
  length (Retry.invocations st) = 4
  /\ Retry.slept st
     = [0.1%float; 0.30000000000000004%float; 0.9000000000000001%float]
  /\ Retry.power_delay 0.1%float 3%float 3 = 0.9%float
  /\ PrimFloat.eqb 0.9000000000000001%float
                   (Retry.power_delay 0.1%float 3%float 3) = false.
Proof. vm_compute. by split_and!. Qed.

(** * Further properties of the orchestrator *)

(** ** Comparisons of floats *)

Lemma float_ltb_leb (a b : float) :
  PrimFloat.ltb a b = true -> PrimFloat.leb a b = true.
Proof.
  rewrite FloatAxioms.ltb_spec, FloatAxioms.leb_spec.
  unfold SpecFloat.SFltb, SpecFloat.SFleb.
  by destruct (SpecFloat.SFcompare _ _) as [[]|].
Qed.

(** Clamping to the unit interval, as [max(0.0, min(1.0, x))] does it,
    lands in the interval for every float, infinities and NaN included. *)
Lemma clamp_unit_interval (x : float) :
  PrimFloat.leb 0%float (py_max 0%float (py_min 1%float x)) = true
  /\ PrimFloat.leb (py_max 0%float (py_min 1%float x)) 1%float = true.
Proof.
  unfold py_min. destruct (PrimFloat.ltb x 1%float) eqn:Hx1.
  - unfold py_max. destruct (PrimFloat.ltb 0%float x) eqn:H0x.
    + split; by apply float_ltb_leb.
    + by split.
  - by split.
Qed.

(** X1: the confidence of every session lies between 0.0 and 1.0,
    whatever the credibility scores, the verification figure and the
    number of recorded errors are. *)
Theorem calculate_confidence_in_unit_interval (session : ResearchSession) :
  PrimFloat.leb 0%float (_calculate_confidence session) = true
  /\ PrimFloat.leb (_calculate_confidence session) 1%float = true.
Proof.
  destruct (calculate_confidence_clamped session) as (factors & _ & ->).
  apply clamp_unit_interval.
Qed.

(** ** The stage wrapper, its other paths *)

Section StageWrapper.

Context {Ext : Type}.

Implicit Types (st : @RunState Ext) (stage : ResearchStage).

(** X2: when the stage callable returns, [_run_stage] returns, the stage
    is the new last element of [stages_completed], its value is a key of
    [stage_times], [errors] is as it was, and the session holds the
    result fields the callable left.  The callback, when there is one,
    is taken to return. *)
Theorem run_stage_success_recorded stage (stage_func : StageFunc)
    (progress_callback : option Callback) st (w1 : Ext) r (w2 : Ext) :
  match progress_callback with
  | Some cb =>
      cb stage (progress_percentage
                  (progress (entered (run_session st) stage))) (run_ext st)
  | None => (Return tt, run_ext st)
  end = (Return tt, w1) ->
  stage_func (entered (run_session st) stage) w1 = (Return tt, r, w2) ->
  exists st',
    _run_stage stage stage_func progress_callback st = (Return tt, st')
    /\ stages_completed (progress (run_session st')) =
       stages_completed (progress (run_session st)) ++ [stage]
    /\ stage_value stage ∈ stage_times (progress (run_session st'))
    /\ errors (progress (run_session st')) =
       errors (progress (run_session st))
    /\ current_stage (progress (run_session st')) = stage
    /\ results (run_session st') = r
    /\ run_ext st' = w2.
Proof.
  intros Hcb Hcall.
  unfold _run_stage, mbind, Eff_bind, mret, Eff_ret, try_except,
    set_progress, modify, await_stage, raise, gets, lift_ext; simpl.
  unfold entered in *; simpl in *.
  assert (Htimes : forall l : list string,
             stage_value stage
             ∈ (if decide (stage_value stage ∈ l) then l
                else l ++ [stage_value stage])).
  { intros l. destruct (decide (stage_value stage ∈ l)); [done|].
    apply elem_of_app. right. by apply list_elem_of_singleton. }
  destruct progress_callback as [cb|]; simpl.
  - rewrite Hcb; simpl. rewrite Hcall; simpl.
    eexists. split; [reflexivity|]. simpl. split_and!; done.
  - injection Hcb as <-. rewrite Hcall; simpl.
    eexists. split; [reflexivity|]. simpl. split_and!; done.
Qed.

(** X3: when the progress callback raises, [_run_stage] raises the same
    exception without calling the stage: no stage call is recorded, the
    result fields, [stages_completed] and [errors] are as they were, and
    only [current_stage] has been set. *)
Theorem run_stage_callback_failure stage (stage_func : StageFunc)
    (cb : Callback) st (e : PyExc) (w1 : Ext) :
  cb stage (progress_percentage
              (progress (entered (run_session st) stage))) (run_ext st)
  = (Raise e, w1) ->
  exists st',
    _run_stage stage stage_func (Some cb) st = (Raise e, st')
    /\ run_calls st' = run_calls st
    /\ results (run_session st') = results (run_session st)
    /\ stages_completed (progress (run_session st')) =
       stages_completed (progress (run_session st))
    /\ errors (progress (run_session st')) =
       errors (progress (run_session st))
    /\ current_stage (progress (run_session st')) = stage
    /\ run_ext st' = w1.
Proof.
  intros Hcb.
  unfold _run_stage, mbind, Eff_bind, mret, Eff_ret, try_except,
    set_progress, modify, await_stage, raise, gets, lift_ext; simpl.
  unfold entered in *; simpl in *. rewrite Hcb; simpl.
  eexists. split; [reflexivity|]. by simpl.
Qed.

End StageWrapper.

(** ** The runs of the pipeline, case by case *)

Section PipelineRuns.

Context {Ext : Type}.

Implicit Types (st : @RunState Ext) (stage : ResearchStage).

Variable call_json : string -> Eff Ext Json.
Variable FALLBACK_CONTENT_PROMPT : string -> string -> string -> string -> string.
Variable str_dict : PyDict -> string.
Variable str_list : list string -> string.
Variables _analyze_query _search_web _reason _verify _generate_citations
  _generate_output : StageFunc (Ext := Ext).

Local Abbreviation handle_failure :=
  (_handle_research_failure call_json FALLBACK_CONTENT_PROMPT
     str_dict str_list).
Local Abbreviation body :=
  (research_body _analyze_query _search_web _reason _verify
     _generate_citations _generate_output).
Local Abbreviation research_ :=
  (research call_json FALLBACK_CONTENT_PROMPT str_dict str_list
     _analyze_query _search_web _reason _verify _generate_citations
     _generate_output).
Local Abbreviation stage_method_ :=
  (stage_method _analyze_query _search_web _reason _verify
     _generate_citations _generate_output).
Local Abbreviation run_stages_ :=
  (run_stages _analyze_query _search_web _reason _verify
     _generate_citations _generate_output).
Local Abbreviation completed st := (stages_completed (progress (run_session st))).
Local Abbreviation errs st := (errors (progress (run_session st))).
Local Abbreviation cur st := (current_stage (progress (run_session st))).
Local Abbreviation returned plan :=
  (map (fun stage : ResearchStage => (stage, Return tt)) plan).

Lemma run_stage_cases stage (stage_func : StageFunc) st o st' :
  _run_stage stage stage_func None st = (o, st') ->
  run_calls st' = run_calls st ++ [(stage, o)]
  /\ cur st' = stage
  /\ match o with
     | Return _ =>
         completed st' = completed st ++ [stage] /\ errs st' = errs st
     | Raise e =>
         completed st' = completed st
         /\ errs st' = errs st ++ [stage_value stage +:+ ": " +:+ str e]
     end.
Proof.
  destruct (stage_func (entered (run_session st) stage) (run_ext st))
    as [[o0 r] w] eqn:Hcall.
  rewrite (run_stage_unfold _ _ _ _ _ _ Hcall). cbn zeta.
  intros [= <- <-]. simpl. by destruct o0 as [[]|e].
Qed.

Lemma finish_cases (progress_callback : option Callback) st o st' :
  finish progress_callback st = (o, st') ->
  run_calls st' = run_calls st
  /\ completed st' = completed st
  /\ errs st' = errs st
  /\ cur st' = COMPLETE
  /\ results (run_session st') = results (run_session st)
  /\ match o with
     | Return r =>
         r = final_result (results (run_session st))
         /\ forall cb, progress_callback = Some cb ->
                       exists w, cb COMPLETE 100%float (run_ext st)
                                 = (Return tt, w)
     | Raise e =>
         exists cb w, progress_callback = Some cb
                      /\ cb COMPLETE 100%float (run_ext st) = (Raise e, w)
     end.
Proof.
  unfold finish, mbind, Eff_bind, mret, Eff_ret, gets, set_progress,
    modify, lift_ext; simpl.
  destruct progress_callback as [cb|]; simpl.
  - destruct (cb COMPLETE 100%float (run_ext st)) as [[[]|e] w] eqn:Hcb;
      intros [= <- <-]; simpl; split_and!; try done.
    + intros cb' [= <-]. eauto.
    + eauto.
  - intros [= <- <-]. by simpl.
Qed.

(** The [try] block either runs the whole plan, and then returns the
    final result unless the last callback raises, or stops at the first
    stage that raises. *)
Lemma run_stages_cases plan (progress_callback : option Callback) :
  forall st o st',
    run_stages_ plan (finish progress_callback) st = (o, st') ->
    (completed st' = completed st ++ plan
     /\ errs st' = errs st
     /\ cur st' = COMPLETE
     /\ run_calls st' = run_calls st ++ returned plan
     /\ match o with
        | Return r =>
            r = final_result (results (run_session st'))
            /\ forall cb, progress_callback = Some cb ->
                          exists w w', cb COMPLETE 100%float w
                                       = (Return tt, w')
        | Raise e =>
            exists cb w w', progress_callback = Some cb
                            /\ cb COMPLETE 100%float w = (Raise e, w')
        end)
    \/ (exists done stage rest e,
          plan = done ++ stage :: rest
          /\ o = Raise e
          /\ completed st' = completed st ++ done
          /\ errs st' = errs st ++ [stage_value stage +:+ ": " +:+ str e]
          /\ cur st' = stage
          /\ run_calls st' =
             run_calls st ++ returned done ++ [(stage, Raise e)]).
Proof.
  induction plan as [|stage plan IH]; intros st o st' Hrun; simpl in Hrun.
  - left. apply finish_cases in Hrun
      as (Hcalls & Hdone & Herrs & Hcur & Hres & Ho).
    rewrite !app_nil_r. split_and!; try done.
    destruct o as [r|e].
    + destruct Ho as [-> Hcb]. split; [by rewrite Hres|].
      intros cb Hsome. destruct (Hcb cb Hsome) as [w' ?]. eauto.
    + destruct Ho as (cb & w & ? & ?). eauto.
  - unfold mbind, Eff_bind in Hrun.
    destruct (_run_stage stage (stage_method_ stage) None st)
      as [[[]|e] st1] eqn:Hstage;
      apply run_stage_cases in Hstage as (Hcalls & Hcur & Hdone & Herrs).
    + apply IH in Hrun as
        [(Hd & He & Hc & Hk & Ho)
        |(done & stage' & rest & e & -> & -> & Hd & He & Hc & Hk)].
      * left. rewrite Hd, He, Hk, Hdone, Herrs, Hcalls.
        simpl. rewrite <- !app_assoc. by split_and!.
      * right. exists (stage :: done), stage', rest, e.
        rewrite Hd, He, Hk, Hdone, Herrs, Hcalls.
        simpl. rewrite <- !app_assoc. by split_and!.
    + injection Hrun as <- <-. right. exists [], stage, plan, e.
      rewrite Hdone, Herrs, Hcalls. simpl. rewrite !app_nil_r.
      by split_and!.
Qed.

(** The failure handler touches the outside world only. *)
Lemma handle_failure_frame e st :
  run_session (handle_failure e st).2 = run_session st
  /\ run_calls (handle_failure e st).2 = run_calls st.
Proof.
  apply (handle_failure_preserves call_json FALLBACK_CONTENT_PROMPT
           str_dict str_list
           (fun st' => run_session st' = run_session st
                       /\ run_calls st' = run_calls st)); done.
Qed.

(** What [handled] returns is the degraded result. *)
Lemma handled_returns (session : ResearchSession) (e : PyExc)
    (fallback : Json) (r : option ResearchResult) :
  handled session e fallback = Return r ->
  exists answer0,
    fallback_response fallback = Return answer0
    /\ r = Some (degraded_result session e answer0 fallback).
Proof.
  unfold handled. destruct (fallback_response fallback) as [a|e']; [|done].
  intros [= <-]. eauto.
Qed.

(** The three kinds of run: every stage returns and so does the last
    callback; every stage returns and the last callback raises; a stage
    raises.  In the last two the language model is asked once, and the
    run ends as [handled] says: with the degraded result, or with the
    exception of the [.get] chain. *)
Lemma research_cases (query0 : string) (verify_claims : bool)
    (progress_callback : option Callback) (now : string)
    (self : Orchestrator) (w : Ext) :
  let run := research_ query0 verify_claims progress_callback now self w in
  let plan := stage_plan verify_claims in
  let handled_for e :=
    exists (o : Outcome Json) w1,
      call_json (fallback_prompt FALLBACK_CONTENT_PROMPT str_dict str_list
                   (run_session run.2) e) w1 = (o, run_ext run.2)
      /\ run.1.1 = handled (run_session run.2) e (fallback_of o [str e]) in
  (completed run.2 = plan /\ errs run.2 = [] /\ cur run.2 = COMPLETE
   /\ run_calls run.2 = returned plan
   /\ (run.1.1 = Return (final_result (results (run_session run.2)))
       /\ (forall cb, progress_callback = Some cb ->
                      exists w1 w2, cb COMPLETE 100%float w1
                                    = (Return tt, w2))
       \/ exists e cb w1 w2,
            progress_callback = Some cb
            /\ cb COMPLETE 100%float w1 = (Raise e, w2)
            /\ handled_for e))
  \/ (exists done stage rest e,
        plan = done ++ stage :: rest
        /\ completed run.2 = done
        /\ errs run.2 = [stage_value stage +:+ ": " +:+ str e]
        /\ cur run.2 = stage
        /\ run_calls run.2 = returned done ++ [(stage, Raise e)]
        /\ handled_for e).
Proof.
  unfold research, _create_session. cbn zeta.
  set (session := {| session_id := _; query := query0;
                     progress := initial_progress;
                     results := empty_results |}).
  unfold try_except. rewrite research_body_plan.
  destruct (run_stages_ (stage_plan verify_claims) (finish progress_callback)
              (init_run session w)) as [o st1] eqn:Hrun.
  apply run_stages_cases in Hrun as
    [(Hd & He & Hc & Hk & Ho)
    |(done & stage & rest & e & Hplan & -> & Hd & He & Hc & Hk)];
    simpl in Hd, He, Hk.
  - left. destruct o as [r|e].
    + simpl. destruct Ho as [-> Hcb]. split_and!; try done. by left.
    + destruct Ho as (cb & w1 & w2 & Hcb & Hraise).
      destruct (call_json
                  (fallback_prompt FALLBACK_CONTENT_PROMPT str_dict str_list
                     (run_session st1) e) (run_ext st1))
        as [o' w'] eqn:Hcall.
      rewrite (handle_failure_unfold call_json FALLBACK_CONTENT_PROMPT
                 str_dict str_list e st1 o' w' Hcall).
      simpl. split_and!; try done. right.
      exists e, cb, w1, w2. split_and!; try done.
      by exists o', (run_ext st1).
  - right.
    destruct (call_json
                (fallback_prompt FALLBACK_CONTENT_PROMPT str_dict str_list
                   (run_session st1) e) (run_ext st1))
      as [o' w'] eqn:Hcall.
    rewrite (handle_failure_unfold call_json FALLBACK_CONTENT_PROMPT
               str_dict str_list e st1 o' w' Hcall).
    simpl. exists done, stage, rest, e. split_and!; try done.
    by exists o', (run_ext st1).
Qed.

Lemma returned_no_raise (plan : list ResearchStage) stage (e : PyExc) :
  (stage, Raise e) ∉ returned plan.
Proof.
  intros (stage' & Heq & _)%list_elem_of_fmap. discriminate.
Qed.

(** X4: what [research] can raise.  No exception of a stage, of the
    progress callback or of the language-model call reaches the caller
    as such.  When [research] raises, the [try] block had failed and the
    language model had answered the request for fallback content with a
    value that is no dict, or with a dict that holds a value that is no
    dict under ["fallback_content"]; what is raised is the
    [AttributeError] of the [.get] on that value.  At most one stage
    error is recorded in any run. *)
Theorem research_raises_only_attribute_error (query0 : string)
    (verify_claims : bool) (progress_callback : option Callback)
    (now : string) (self : Orchestrator) (w : Ext) :
  let run := research_ query0 verify_claims progress_callback now self w in
  match run.1.1 with
  | Return _ => True
  | Raise e' =>
      exists (e : PyExc) (reply bad : Json) w1,
        call_json (fallback_prompt FALLBACK_CONTENT_PROMPT str_dict str_list
                     (run_session run.2) e) w1
        = (Return reply, run_ext run.2)
        /\ (bad = reply
            \/ exists d, reply = JDict d
                         /\ d !! "fallback_content" = Some bad)
        /\ not_a_dict bad
        /\ e' = no_attribute_get bad
  end
  /\ length (errs run.2) <= 1.
Proof.
  cbn zeta.
  assert (Hraise : forall e (o : Outcome Json) e' w1 w2,
             call_json (fallback_prompt FALLBACK_CONTENT_PROMPT str_dict
                          str_list
                          (run_session
                             (research_ query0 verify_claims
                                progress_callback now self w).2) e) w1
             = (o, w2) ->
             handled
               (run_session
                  (research_ query0 verify_claims progress_callback now
                     self w).2) e (fallback_of o [str e]) = Raise e' ->
             exists reply bad,
               o = Return reply
               /\ (bad = reply
                   \/ exists d, reply = JDict d
                                /\ d !! "fallback_content" = Some bad)
               /\ not_a_dict bad
               /\ e' = no_attribute_get bad).
  { intros e o e' w1 w2 _ Hh. unfold handled in Hh.
    destruct (fallback_response (fallback_of o [str e])) as [a|e0] eqn:Hf;
      [done|].
    injection Hh as ->.
    destruct o as [reply|e1]; simpl in Hf;
      [|by rewrite fixed_fallback_response in Hf].
    apply fallback_response_raises in Hf as (bad & Hbad & Hnot & ->).
    by exists reply, bad. }
  destruct (research_cases query0 verify_claims progress_callback now self w)
    as [(_ & He & _ & _
         & [[Ho _]|(e & cb & w1 & w2 & _ & _ & o & w3 & Hcall & Ho)])
       |(done & stage & rest & e & _ & _ & He & _ & _ & o & w3 & Hcall
         & Ho)];
    rewrite Ho, He; simpl; (split; [|lia]).
  - exact I.
  - destruct (handled _ e _) as [r|e'] eqn:Hh; [done|].
    destruct (Hraise e o e' w3 _ Hcall Hh) as (reply & bad & -> & H1 & H2 & H3).
    by exists e, reply, bad, w3.
  - destruct (handled _ e _) as [r|e'] eqn:Hh; [done|].
    destruct (Hraise e o e' w3 _ Hcall Hh) as (reply & bad & -> & H1 & H2 & H3).
    by exists e, reply, bad, w3.
Qed.

(** X7: when a stage call of a run raised [e], the session ends with
    the stages before that one completed, in order, and nothing after
    them; with the single error ["{stage.value}: {str(e)}"]; with that
    stage as current stage; with no later stage called.  The language
    model is then asked once for fallback content, and the run ends as
    the [.get] chain on the fallback dict decides: when [research]
    returns, it returns the degraded result for [e], which carries the
    sources the session holds at that point. *)
Theorem research_failure_bookkeeping (query0 : string)
    (verify_claims : bool) (progress_callback : option Callback)
    (now : string) (self : Orchestrator) (w : Ext)
    (stage : ResearchStage) (e : PyExc) :
  let run := research_ query0 verify_claims progress_callback now self w in
  (stage, Raise e) ∈ run_calls run.2 ->
  exists done rest (o : Outcome Json) w1,
    stage_plan verify_claims = done ++ stage :: rest
    /\ completed run.2 = done
    /\ errs run.2 = [stage_value stage +:+ ": " +:+ str e]
    /\ cur run.2 = stage
    /\ run_calls run.2 = returned done ++ [(stage, Raise e)]
    /\ call_json (fallback_prompt FALLBACK_CONTENT_PROMPT str_dict str_list
                    (run_session run.2) e) w1 = (o, run_ext run.2)
    /\ run.1.1 = handled (run_session run.2) e (fallback_of o [str e])
    /\ (forall r, run.1.1 = Return r ->
          exists res,
            r = Some res
            /\ verification_status res = "failed"
            /\ confidence res = 0.2%float
            /\ metadata res !! "error" = Some (MStr (str e))
            /\ metadata res !! "partial" = Some (MBool true)
            /\ rr_sources res = sources (results (run_session run.2))).
Proof.
  cbn zeta. intros Hin.
  destruct (research_cases query0 verify_claims progress_callback now self w)
    as [(_ & _ & _ & Hk & _)
       |(done & stage' & rest & e' & Hplan & Hd & He & Hc & Hk & o & w1
         & Hcall & Ho)].
  - rewrite Hk in Hin. by apply returned_no_raise in Hin.
  - rewrite Hk in Hin. apply elem_of_app in Hin as [Hin|Hin].
    + by apply returned_no_raise in Hin.
    + apply list_elem_of_singleton in Hin. injection Hin as -> ->.
      exists done, rest, o, w1. split_and!; try done.
      intros r Hr. rewrite Ho in Hr.
      apply handled_returns in Hr as (a & _ & ->).
      eexists. split; [reflexivity|]. by split_and!.
Qed.

End PipelineRuns.

(** ** Concrete runs, continued *)

(** X2, on a stage that succeeds at the start of a session. *)
Lemma run_stage_success_recorded_witness :
  exists st',
    _run_stage WEB_SEARCH Scenario.stage_ok None CallbackScenario.fresh_run
    = (Return tt, st')
    /\ stages_completed (progress (run_session st')) = [] ++ [WEB_SEARCH]
    /\ stage_value WEB_SEARCH ∈ stage_times (progress (run_session st'))
    /\ errors (progress (run_session st')) = []
    /\ current_stage (progress (run_session st')) = WEB_SEARCH
    /\ results (run_session st') = empty_results
    /\ run_ext st' = tt.
Proof.
  apply (run_stage_success_recorded WEB_SEARCH Scenario.stage_ok None
           CallbackScenario.fresh_run tt empty_results tt); reflexivity.
Defined.

(** X3, on a callback that fails before the search stage. *)
Lemma run_stage_callback_failure_witness :
  exists st',
    _run_stage WEB_SEARCH Scenario.stage_ok
      (Some CallbackScenario.callback_raises) CallbackScenario.fresh_run
    = (Raise CallbackScenario.observer_error, st')
    /\ run_calls st' = []
    /\ results (run_session st') = empty_results
    /\ stages_completed (progress (run_session st')) = []
    /\ errors (progress (run_session st')) = []
    /\ current_stage (progress (run_session st')) = WEB_SEARCH
    /\ run_ext st' = tt.
Proof.
  apply (run_stage_callback_failure WEB_SEARCH Scenario.stage_ok
           CallbackScenario.callback_raises CallbackScenario.fresh_run
           CallbackScenario.observer_error tt). reflexivity.
Defined.

(** ** The stage methods *)

Module StagesFacts.

Import Stages.

Section Stages.

Context {Ext : Type}.

Variable search : string -> Z -> Eff Ext (list SearchResult).
Variable extract_content : string -> Eff Ext (option string).
Variable chain_of_thought :
  string -> list Info -> Eff Ext (option (list ReasoningStep)).
Variable synthesize_information : string -> list Info -> Eff Ext PyDict.
Variable verify : string -> list Source -> Eff Ext VerificationDict.
Variable assess_credibility : Source -> Eff Ext (option float).
Variable generate_citations : list Source -> string -> Eff Ext PyDict.
Variable generate_report :
  string -> Findings -> list Source -> float -> Eff Ext PyDict.
Variable generate_summary : Findings -> Eff Ext (option (option string)).
Variable str_dict : PyDict -> string.
Variable str_keys : list string -> string.

Implicit Types (st : @St Ext) (session : ResearchSession) (w : Ext).

Ltac run_eff :=
  unfold mbind, Eff_bind, mret, Eff_ret, gets, call, assign, modify, raise
    in *; simpl in *.

Lemma search_each_session n qs : forall acc st,
  (search_each search n qs acc st).2.1 = st.1.
Proof.
  induction qs as [|q qs IH]; intros acc st; simpl; [done|].
  run_eff. destruct (search q n st.2) as [[found|e] w']; simpl; [|done].
  by rewrite IH.
Qed.

(** What the conversion loop returns: the sources accumulated so far,
    then one source per result, in order. *)
Lemma convert_each_spec todo : forall acc st,
  (convert_each extract_content todo acc st).2.1 = st.1
  /\ forall srcs,
       (convert_each extract_content todo acc st).1 = Return srcs ->
       exists new,
         srcs = acc ++ new
         /\ Forall2 (fun result source =>
                       exists main_content,
                         source = source_of result main_content)
                    todo new.
Proof.
  induction todo as [|result todo IH]; intros acc st; simpl.
  - split; [done|]. intros srcs [= <-]. exists []. rewrite app_nil_r.
    split; [done|constructor].
  - run_eff.
    destruct (extract_content (sr_url result) st.2) as [[mc|e] w'];
      simpl; [|done].
    destruct (IH (acc ++ [source_of result mc]) (st.1, w')) as [Hs Hr].
    split; [done|]. intros srcs Hret.
    destruct (Hr srcs Hret) as (new & -> & Hall).
    exists (source_of result mc :: new). rewrite <- app_assoc.
    split; [done|]. constructor; eauto.
Qed.

Lemma sublist_map {A B} (f : A -> B) (l1 l2 : list A) :
  l1 `sublist_of` l2 -> map f l1 `sublist_of` map f l2.
Proof. induction 1; simpl; by constructor. Qed.

Lemma py_slice_to_sublist {A} (xs : list A) (n : Z) :
  py_slice_to xs n `sublist_of` xs.
Proof. unfold py_slice_to. destruct (0 <=? n)%Z; apply sublist_take. Qed.

Lemma py_slice_to_length {A} (xs : list A) (n : Z) :
  (0 <= n)%Z -> length (py_slice_to xs n) <= Z.to_nat n.
Proof.
  intros Hn. unfold py_slice_to.
  rewrite (proj2 (Z.leb_le 0 n) Hn), length_take. lia.
Qed.

(** What [_search_web] leaves when it returns. *)
Lemma search_web_spec (max_sources : Z) session w
    (srcs : list Source) st' :
  _search_web search extract_content max_sources (session, w)
  = (Return srcs, st') ->
  sources (results st'.1) = srcs
  /\ Forall2 (fun result source =>
                exists main_content, source = source_of result main_content)
             (search_results (results st'.1)) srcs
  /\ map url srcs = map sr_url (search_results (results st'.1))
  /\ NoDup (map url srcs)
  /\ Forall (fun source =>
               credibility_score source = 0.7%float
               /\ source_id source = str_slice_to (url source) 32)
            srcs
  /\ ((0 <= max_sources)%Z -> length srcs <= Z.to_nat max_sources).
Proof.
  unfold _search_web. run_eff.
  destruct (query_analysis (results session)) as [analysis|]; [|done].
  set (n := (max_sources `div` _ + 1)%Z).
  pose proof (search_each_session n (sub_queries analysis) [] (session, w))
    as Hsess.
  destruct (search_each search n (sub_queries analysis) [] (session, w))
    as [[found|e] [s1 w1]]; simpl in *; [|done]. subst s1.
  destruct (search (query session) max_sources w1) as [[main|e] w2];
    simpl; [|done].
  set (kept := py_slice_to (deduplicate_by_url (found ++ main)) max_sources).
  set (s2 := with_results session _).
  destruct (convert_each_spec kept [] (s2, w2)) as [Hs Hr].
  destruct (convert_each extract_content kept [] (s2, w2))
    as [[converted|e] [s3 w3]]; simpl in *; [|done]. subst s3.
  intros [= <- <-]. simpl.
  destruct (Hr converted eq_refl) as (new & -> & Hall). simpl in *.
  assert (Hurls : map url new = map sr_url kept).
  { clear -Hall. induction Hall as [|r s' rs ss [mc ->] _ IH]; [done|].
    simpl. by rewrite IH. }
  split_and!; try done.
  - rewrite Hurls. unfold kept.
    assert (Hsub : map sr_url
                     (py_slice_to (deduplicate_by_url (found ++ main))
                                  max_sources)
                   `sublist_of`
                   map sr_url (deduplicate_by_url (found ++ main)))
      by apply sublist_map, py_slice_to_sublist.
    refine (sublist_NoDup _ _ _ Hsub).
    rewrite deduplicate_keep_unseen. apply keep_unseen_NoDup.
  - clear -Hall. induction Hall as [|r s' rs ss [mc ->] _ IH];
      constructor; done.
  - intros Hn. rewrite <- (length_map url), Hurls, length_map.
    by apply py_slice_to_length.
Qed.

(** The conversion loop calls [extract_content] for the URL of each
    result in turn, and pairs each result with what its call returned. *)
Lemma convert_each_run todo : forall acc st (srcs : list Source) st',
  convert_each extract_content todo acc st = (Return srcs, st') ->
  exists contents,
    extract_all extract_content (map sr_url todo) st.2
    = (Return contents, st'.2)
    /\ length contents = length todo
    /\ srcs = acc ++ zip_with source_of todo contents.
Proof.
  induction todo as [|result todo IH]; intros acc st srcs st'; simpl.
  - intros [= <- <-]. exists []. by rewrite app_nil_r.
  - run_eff.
    destruct (extract_content (sr_url result) st.2) as [[mc|e] w1];
      simpl; [|done].
    intros Hrun. apply IH in Hrun as (contents & Hall & Hlen & ->).
    simpl in Hall. exists (mc :: contents). rewrite Hall. simpl.
    rewrite <- app_assoc. by rewrite Hlen.
Qed.

(** The calls [_search_web] makes when it returns, in order, and what it
    does with what they return. *)
Lemma search_web_run (max_sources : Z) session w
    (srcs : list Source) st' :
  _search_web search extract_content max_sources (session, w)
  = (Return srcs, st') ->
  exists analysis found w1 main w2 contents,
    query_analysis (results session) = Some analysis
    /\ search_each search
         (max_sources `div` Z.of_nat (length (sub_queries analysis)) + 1)%Z
         (sub_queries analysis) [] (session, w)
       = (Return found, (session, w1))
    /\ search (query session) max_sources w1 = (Return main, w2)
    /\ search_results (results st'.1)
       = py_slice_to (deduplicate_by_url (found ++ main)) max_sources
    /\ extract_all extract_content
         (map sr_url (search_results (results st'.1))) w2
       = (Return contents, st'.2)
    /\ length contents = length (search_results (results st'.1))
    /\ srcs = zip_with source_of (search_results (results st'.1)) contents.
Proof.
  unfold _search_web. run_eff.
  destruct (query_analysis (results session)) as [analysis|] eqn:Hqa;
    [|done].
  set (n := (max_sources `div` _ + 1)%Z).
  pose proof (search_each_session n (sub_queries analysis) [] (session, w))
    as Hsess.
  destruct (search_each search n (sub_queries analysis) [] (session, w))
    as [[found|e] [s1 w1]] eqn:Heach; simpl in *; [|done]. subst s1.
  destruct (search (query session) max_sources w1) as [[main|e] w2] eqn:Hmain;
    simpl; [|done].
  set (kept := py_slice_to (deduplicate_by_url (found ++ main)) max_sources).
  set (s2 := with_results session _).
  destruct (convert_each extract_content kept [] (s2, w2))
    as [[converted|e] [s3 w3]] eqn:Hconv; simpl in *; [|done].
  pose proof (convert_each_spec kept [] (s2, w2)) as [Hs _].
  rewrite Hconv in Hs. simpl in Hs. subst s3.
  intros [= <- <-]. simpl.
  apply convert_each_run in Hconv as (contents & Hall & Hlen & ->).
  exists analysis, found, w1, main, w2, contents. by split_and!.
Qed.

(** X9: when [_search_web] returns, the session has a query analysis;
    each sub-query was searched in turn and then the query itself, each
    search on the outside world the one before left; the session's
    search results are the results found, in that order, without the
    later ones of a URL already seen and cut to [max_sources]; the main
    content of each of them was then extracted, in order; and the
    sources returned, which are the session's sources, are these results
    one for one: each with the URL, title and domain of its result, with
    the first 32 characters of the URL as id, with credibility 0.7, and
    with the main content extracted for it as content, or the snippet of
    the result when the extraction gave none.  Their URLs are pairwise
    distinct, and there are at most [max_sources] of them when
    [max_sources] is not negative. *)
Theorem search_web_result (max_sources : Z) session w
    (srcs : list Source) st' :
  _search_web search extract_content max_sources (session, w)
  = (Return srcs, st') ->
  exists analysis found w1 main w2 contents,
    query_analysis (results session) = Some analysis
    /\ search_each search
         (max_sources `div` Z.of_nat (length (sub_queries analysis)) + 1)%Z
         (sub_queries analysis) [] (session, w)
       = (Return found, (session, w1))
    /\ search (query session) max_sources w1 = (Return main, w2)
    /\ search_results (results st'.1)
       = py_slice_to (deduplicate_by_url (found ++ main)) max_sources
    /\ extract_all extract_content
         (map sr_url (search_results (results st'.1))) w2
       = (Return contents, st'.2)
    /\ length contents = length (search_results (results st'.1))
    /\ srcs
       = zip_with
           (fun result main_content =>
              {| source_id := str_slice_to (sr_url result) 32;
                 url := sr_url result;
                 title := sr_title result;
                 content := default (sr_snippet result) main_content;
                 domain := sr_domain result;
                 credibility_score := 0.7%float |})
           (search_results (results st'.1)) contents
    /\ sources (results st'.1) = srcs
    /\ NoDup (map url srcs)
    /\ ((0 <= max_sources)%Z -> length srcs <= Z.to_nat max_sources).
Proof.
  intros Hrun.
  destruct (search_web_spec _ _ _ _ _ Hrun)
    as (Hsources & _ & _ & Hnodup & _ & Hlen).
  destruct (search_web_run _ _ _ _ _ Hrun)
    as (analysis & found & w1 & main & w2 & contents & H).
  exists analysis, found, w1, main, w2, contents.
  destruct H as (? & ? & ? & ? & ? & ? & ?). by split_and!.
Qed.

(** X10: when [_search_web] raises, whether a search or a content
    extraction failed or the query analysis is missing, the session's
    sources are what they were; and without a query analysis it raises
    [ResearchError("Query analysis not available")] before any search,
    leaving the session and the outside world untouched. *)
Theorem search_web_failure (max_sources : Z) session w (e : PyExc) st' :
  _search_web search extract_content max_sources (session, w)
  = (Raise e, st') ->
  sources (results st'.1) = sources (results session)
  /\ synthesis (results st'.1) = synthesis (results session)
  /\ query_analysis (results st'.1) = query_analysis (results session)
  /\ (query_analysis (results session) = None ->
      e = ResearchError "Query analysis not available"
      /\ st' = (session, w)).
Proof.
  unfold _search_web. run_eff.
  destruct (query_analysis (results session)) as [analysis|] eqn:Hqa.
  - set (n := (max_sources `div` _ + 1)%Z).
    pose proof (search_each_session n (sub_queries analysis) [] (session, w))
      as Hsess.
    destruct (search_each search n (sub_queries analysis) [] (session, w))
      as [[found|e1] [s1 w1]]; simpl in *; subst s1.
    + destruct (search (query session) max_sources w1) as [[main|e2] w2];
        simpl.
      * set (kept := py_slice_to _ max_sources).
        set (s2 := with_results session _).
        destruct (convert_each_spec kept [] (s2, w2)) as [Hs _].
        destruct (convert_each extract_content kept [] (s2, w2))
          as [[converted|e3] [s3 w3]]; simpl in *; [done|]. subst s3.
        by intros [= <- <-].
      * by intros [= <- <-].
    + by intros [= <- <-].
  - intros [= <- <-]. by split_and!.
Qed.

(** X11: a search stage that ends with no source makes the next stages
    fail: on the session [_search_web] leaves when it returns an empty
    list, [_reason] raises
    [ResearchError("No sources available for reasoning")] and
    [_generate_citations] raises
    [ResearchError("No sources available for citation")], each without
    calling its collaborator and without touching the session. *)
Theorem empty_search_fails_later_stages (max_sources : Z) session w st1 :
  _search_web search extract_content max_sources (session, w)
  = (Return [], st1) ->
  _reason chain_of_thought synthesize_information st1
  = (Raise (ResearchError "No sources available for reasoning"), st1)
  /\ _generate_citations generate_citations st1
     = (Raise (ResearchError "No sources available for citation"), st1).
Proof.
  intros Hsearch. apply search_web_spec in Hsearch as (Hsrc & _).
  unfold _reason, _generate_citations. run_eff. rewrite Hsrc.
  by destruct st1.
Qed.

(** X12: [_reason] never changes the session's sources or search
    results; when it returns, its value is the session's synthesis; when
    it raises, the synthesis is what it was (the reasoning steps may have
    been replaced already). *)
Theorem reason_outcome session w (o : Outcome PyDict) st' :
  _reason chain_of_thought synthesize_information (session, w) = (o, st') ->
  sources (results st'.1) = sources (results session)
  /\ search_results (results st'.1) = search_results (results session)
  /\ match o with
     | Return synthesis_result =>
         synthesis (results st'.1) = Some synthesis_result
     | Raise _ => synthesis (results st'.1) = synthesis (results session)
     end.
Proof.
  unfold _reason. run_eff.
  destruct (sources (results session)) as [|src srcs] eqn:Hsrc.
  - intros [= <- <-]. by rewrite ?Hsrc.
  - simpl.
    destruct (chain_of_thought _ _ w) as [[chain|e] w1]; simpl.
    + destruct (synthesize_information _ _ w1) as [[syn|e] w2]; simpl;
        intros [= <- <-]; simpl; by rewrite ?Hsrc.
    + intros [= <- <-]. simpl. by rewrite ?Hsrc.
Qed.

(** The sources after the assessment loop: those before index [i] as
    they were, then the remaining ones with some of their scores
    replaced. *)
Lemma assess_each_spec todo : forall (pre : list Source) st,
  sources (results st.1) = pre ++ todo ->
  let out := assess_each assess_credibility (length pre) todo st in
  verification (results out.2.1) = verification (results st.1)
  /\ exists todo',
       sources (results out.2.1) = pre ++ todo'
       /\ Forall2 (fun old new =>
                     url new = url old /\ title new = title old
                     /\ content new = content old
                     /\ source_id new = source_id old
                     /\ domain new = domain old)
                  todo todo'.
Proof.
  induction todo as [|source todo IH]; intros pre st Hsrc; cbn zeta; simpl.
  - split; [done|]. exists []. split; [done|constructor].
  - run_eff.
    destruct (assess_credibility source st.2) as [[score|e] w1]; simpl.
    + set (new := set_credibility source (default 0.7%float score)).
      set (st1 := (with_results st.1 _, w1)).
      assert (Hsrc1 : sources (results st1.1) = (pre ++ [new]) ++ todo).
      { simpl. rewrite Hsrc.
        rewrite <- (Nat.add_0_r (length pre)), insert_app_r. simpl.
        by rewrite <- app_assoc. }
      specialize (IH (pre ++ [new]) st1 Hsrc1). cbn zeta in IH.
      rewrite length_app in IH. simpl in IH.
      replace (length pre + 1) with (S (length pre)) in IH by lia.
      destruct (assess_each assess_credibility (S (length pre)) todo st1)
        as [[[]|e] [s2 w2]]; simpl in *;
        destruct IH as (Hv & todo' & Hs2 & Hall);
        (split; [done|]); exists (new :: todo');
        rewrite Hs2, <- app_assoc; (split; [done|]);
        constructor; done.
    + split; [done|]. exists (source :: todo). split; [done|].
      apply Forall2_same_length_lookup_2; [done|].
      intros i x y Hx Hy. by simplify_eq.
Qed.

(** X13: [_verify] keeps the session's sources in place and in order,
    changing nothing of a source but its credibility score, whether it
    returns or raises; when it returns, its value is the session's
    verification result; when it raises (and in particular when the
    synthesis is missing or empty) the verification result is what it
    was. *)
Theorem verify_outcome session w (o : Outcome VerificationDict) st' :
  _verify verify assess_credibility (session, w) = (o, st') ->
  Forall2 (fun old new =>
             url new = url old /\ title new = title old
             /\ content new = content old
             /\ source_id new = source_id old
             /\ domain new = domain old)
          (sources (results session)) (sources (results st'.1))
  /\ match o with
     | Return verification_result =>
         verification (results st'.1) = Some verification_result
     | Raise e =>
         verification (results st'.1) = verification (results session)
         /\ (truthy (synthesis (results session)) = false ->
             e = ResearchError "Synthesis not available for verification"
             /\ st' = (session, w))
     end.
Proof.
  assert (Hrefl : forall l : list Source,
             Forall2 (fun old new =>
                        url new = url old /\ title new = title old
                        /\ content new = content old
                        /\ source_id new = source_id old
                        /\ domain new = domain old) l l).
  { intros l. apply Forall2_same_length_lookup_2; [done|].
    intros i x y Hx Hy. by simplify_eq. }
  unfold _verify. run_eff.
  destruct (truthy (synthesis (results session))) eqn:Hsyn.
  - simpl.
    destruct (verify _ (sources (results session)) w) as [[v|e] w1]; simpl.
    + pose proof (assess_each_spec (sources (results session)) []
                    (session, w1) eq_refl) as Hspec.
      cbn zeta in Hspec. simpl in Hspec.
      destruct (assess_each assess_credibility 0 (sources (results session))
                  (session, w1)) as [[[]|e] [s2 w2]]; simpl in *;
        destruct Hspec as (Hv & todo' & Hs2 & Hall);
        intros [= <- <-]; simpl; rewrite ?Hs2; by split.
    + intros [= <- <-]. simpl. split; [apply Hrefl|]. by split.
  - intros [= <- <-]. simpl. split; [apply Hrefl|]. by split.
Qed.

(** X14: when [_generate_output] returns, the result is the session's
    final result; its confidence is the session's computed confidence,
    which lies between 0.0 and 1.0; its status is ["verified"] exactly
    when the session holds a non-empty verification result and
    ["unverified"] otherwise; its sources are the session's; and its
    metadata names the session.  When it raises, the final result is
    what it was. *)
Theorem generate_output_outcome (audience : string) session w
    (o : Outcome ResearchResult) st' :
  _generate_output generate_report generate_summary str_dict str_keys
    audience (session, w) = (o, st') ->
  match o with
  | Return result =>
      final_result (results st'.1) = Some result
      /\ confidence result = _calculate_confidence session
      /\ PrimFloat.leb 0%float (confidence result) = true
      /\ PrimFloat.leb (confidence result) 1%float = true
      /\ verification_status result =
         (if verification_truthy (verification (results session))
          then "verified" else "unverified")
      /\ rr_sources result = sources (results session)
      /\ metadata result !! "session_id" = Some (MStr (session_id session))
  | Raise _ => final_result (results st'.1) = final_result (results session)
  end.
Proof.
  unfold _generate_output. run_eff.
  destruct (generate_report _ _ _ _ w) as [[report|e] w1]; simpl;
    [|by intros [= <- <-]].
  destruct (generate_summary _ w1) as [[summary|e] w2]; simpl;
    intros [= <- <-]; [|done].
  simpl. pose proof (clamp_unit_interval) as Hclamp.
  destruct (calculate_confidence_clamped session) as (factors & _ & Hc).
  split_and!; try done; rewrite Hc; apply Hclamp.
Qed.

End Stages.

End StagesFacts.

(** ** Concrete stages *)

(** X9, on a search that finds the same two pages for the sub-query and
    for the main query. *)
Lemma search_web_result_witness :
  Stages._search_web StageScenario.search_two
    StageScenario.no_main_content 5
    (StageScenario.analysed, tt)
  = (Return [StageScenario.source_a; StageScenario.source_b],
     (StageScenario.searched, tt))
  /\ NoDup (map url [StageScenario.source_a; StageScenario.source_b])
  /\ (length [StageScenario.source_a; StageScenario.source_b]
      <= Z.to_nat 5).
Proof.
  assert (Hrun : Stages._search_web StageScenario.search_two
                   StageScenario.no_main_content 5
                   (StageScenario.analysed, tt)
                 = (Return [StageScenario.source_a; StageScenario.source_b],
                    (StageScenario.searched, tt)))
    by (vm_compute; reflexivity).
  destruct (StagesFacts.search_web_result StageScenario.search_two
              StageScenario.no_main_content 5 StageScenario.analysed tt
              _ _ Hrun)
    as (_ & _ & _ & _ & _ & _ & _ & _ & _ & _ & _ & _ & _ & _ & Hnodup
        & Hlen).
  split_and!; [exact Hrun|exact Hnodup|apply Hlen; lia].
Defined.

(** The id of a source counts characters of the URL, not bytes: 32
    characters of a URL with a character of two bytes are 33 bytes. *)
Lemma source_id_counts_characters :
  Stages.str_slice_to "https://de.example/wiki/Gödel_numbering" 32
  = "https://de.example/wiki/Gödel_nu"
  /\ String.length
       (Stages.str_slice_to "https://de.example/wiki/Gödel_numbering" 32)
     = 33.
Proof. split; reflexivity. Qed.

(** X10, on a search provider that is down. *)
Lemma search_web_failure_witness :
  exists e st',
    Stages._search_web StageScenario.search_down
      StageScenario.no_main_content 5 (StageScenario.analysed, tt)
    = (Raise e, st')
    /\ sources (results st'.1) = []
    /\ synthesis (results st'.1) = None.
Proof.
  assert (Hrun : Stages._search_web StageScenario.search_down
                   StageScenario.no_main_content 5
                   (StageScenario.analysed, tt)
                 = (Raise (Exc "SearchError" "provider unreachable"),
                    (StageScenario.analysed, tt)))
    by (vm_compute; reflexivity).
  destruct (StagesFacts.search_web_failure StageScenario.search_down
              StageScenario.no_main_content 5 StageScenario.analysed tt
              _ _ Hrun) as (Hsrc & Hsyn & _).
  eexists _, _. split; [exact Hrun|]. split; [exact Hsrc|exact Hsyn].
Defined.

(** X11, on a search that finds nothing. *)
Lemma empty_search_fails_later_stages_witness :
  Stages._reason StageScenario.think StageScenario.synthesize
    (StageScenario.analysed, tt)
  = (Raise (Stages.ResearchError "No sources available for reasoning"),
     (StageScenario.analysed, tt))
  /\ Stages._generate_citations StageScenario.cite
       (StageScenario.analysed, tt)
     = (Raise (Stages.ResearchError "No sources available for citation"),
        (StageScenario.analysed, tt)).
Proof.
  apply (StagesFacts.empty_search_fails_later_stages
           StageScenario.search_none StageScenario.no_main_content
           StageScenario.think StageScenario.synthesize StageScenario.cite
           5 StageScenario.analysed tt).
  vm_compute. reflexivity.
Defined.

(** X12, on the session a successful search left. *)
Lemma reason_outcome_witness :
  sources (results StageScenario.reasoned)
  = sources (results StageScenario.searched)
  /\ search_results (results StageScenario.reasoned)
     = search_results (results StageScenario.searched)
  /\ synthesis (results StageScenario.reasoned)
     = Some StageScenario.synthesis_dict.
Proof.
  apply (StagesFacts.reason_outcome StageScenario.think
           StageScenario.synthesize StageScenario.searched tt
           (Return StageScenario.synthesis_dict)
           (StageScenario.reasoned, tt)).
  reflexivity.
Defined.

(** X13, on the session the reasoning stage left. *)
Lemma verify_outcome_witness :
  Forall2 (fun old new =>
             url new = url old /\ title new = title old
             /\ content new = content old
             /\ source_id new = source_id old
             /\ domain new = domain old)
          (sources (results StageScenario.reasoned))
          (sources (results StageScenario.verified))
  /\ verification (results StageScenario.verified)
     = Some StageScenario.verdict.
Proof.
  apply (StagesFacts.verify_outcome StageScenario.check StageScenario.assess
           StageScenario.reasoned tt (Return StageScenario.verdict)
           (StageScenario.verified, tt)).
  vm_compute. reflexivity.
Defined.

(** X14, on the session the verification stage left. *)
Lemma generate_output_outcome_witness :
  exists result st',
    Stages._generate_output StageScenario.report StageScenario.summarise
      (fun _ => "{}") (fun _ => "[]") "general" (StageScenario.verified, tt)
    = (Return result, st')
    /\ final_result (results st'.1) = Some result
    /\ PrimFloat.leb 0%float (confidence result) = true
    /\ PrimFloat.leb (confidence result) 1%float = true
    /\ verification_status result = "verified".
Proof.
  destruct (Stages._generate_output StageScenario.report
              StageScenario.summarise (fun _ => "{}") (fun _ => "[]")
              "general" (StageScenario.verified, tt))
    as [[result|e] st'] eqn:Hrun; [|vm_compute in Hrun; discriminate].
  exists result, st'.
  destruct (StagesFacts.generate_output_outcome StageScenario.report
              StageScenario.summarise (fun _ => "{}") (fun _ => "[]")
              "general" StageScenario.verified tt _ _ Hrun)
    as (Hfinal & _ & H0 & H1 & Hstatus & _).
  split_and!; [reflexivity|exact Hfinal|exact H0|exact H1|exact Hstatus].
Defined.

(** * Further properties of the collaborators *)

(** * The error log *)

Module ErrorLogFacts.

Import ErrorLog.

Section Handler.

Context {datetime Ext : Type}.
Variable isoformat : datetime -> string.

Implicit Types (self : @ErrorHandler datetime)
  (history : list (@ErrorRecord datetime)) (r : @Report datetime).

(** The last [n] elements of a list. *)
Lemma py_slice_from_neg {A} (xs : list A) (n : Z) :
  (0 < n)%Z ->
  py_slice_from xs (- n) = drop (length xs - Z.to_nat n) xs.
Proof.
  intros Hn. unfold py_slice_from.
  destruct (0 <=? - n)%Z eqn:E; [apply Z.leb_le in E; lia|].
  by rewrite Z.opp_involutive.
Qed.

Lemma record_error_history r self :
  (0 < max_history self)%Z ->
  let all := error_history self ++ [record_of r] in
  error_history (record_error r self).2
  = drop (length all - Z.to_nat (max_history self)) all.
Proof.
  intros Hmax. simpl.
  destruct (max_history self <? _)%Z eqn:E.
  - by rewrite py_slice_from_neg.
  - apply Z.ltb_ge in E.
    replace (_ - _) with 0 by lia. done.
Qed.

Lemma record_all_snoc reports r self :
  record_all (reports ++ [r]) self
  = (record_error r (record_all reports self)).2.
Proof. unfold record_all. by rewrite fold_left_app. Qed.

Lemma record_all_max_history reports self :
  max_history (record_all reports self) = max_history self.
Proof.
  induction reports as [|r reports IH] using rev_ind; [done|].
  by rewrite record_all_snoc.
Qed.

(** The history after a sequence of reports: the newest records, as
    many as the bound allows, oldest first. *)
Lemma record_all_history reports self :
  (0 < max_history self)%Z ->
  (Z.of_nat (length (error_history self)) <= max_history self)%Z ->
  let all := error_history self ++ map record_of reports in
  error_history (record_all reports self)
  = drop (length all - Z.to_nat (max_history self)) all.
Proof.
  intros Hmax Hlen. induction reports as [|r reports IH] using rev_ind.
  - simpl. rewrite app_nil_r. replace (_ - _) with 0 by lia. done.
  - simpl in *. rewrite record_all_snoc, record_error_history
      by (by rewrite record_all_max_history).
    rewrite record_all_max_history, IH. clear IH.
    set (n := Z.to_nat (max_history self)).
    assert (0 < n) by lia.
    rewrite map_app, app_assoc. simpl.
    set (L := error_history self ++ map record_of reports).
    rewrite !length_app, length_drop. simpl.
    destruct (decide (length L <= n)) as [Hle|Hgt].
    + replace (length L - n) with 0 by lia. simpl.
      by replace (length L - 0 + 1 - n) with (length L + 1 - n) by lia.
    + rewrite drop_app_le by (rewrite length_drop; lia).
      rewrite drop_drop.
      rewrite drop_app_le by lia.
      do 2 f_equal. lia.
Qed.

(** X15: the history of a handler is a bounded queue.  With a positive
    bound that the history respects, after any sequence of reports the
    history holds the newest records, as many as the bound allows and in
    the order they were reported, so it never exceeds the bound; the
    bound itself is not changed. *)
Theorem record_error_keeps_newest reports self :
  (0 < max_history self)%Z ->
  (Z.of_nat (length (error_history self)) <= max_history self)%Z ->
  let all := error_history self ++ map record_of reports in
  error_history (record_all reports self)
  = drop (length all - Z.to_nat (max_history self)) all
  /\ (Z.of_nat (length (error_history (record_all reports self)))
      <= max_history self)%Z
  /\ max_history (record_all reports self) = max_history self.
Proof.
  intros Hmax Hlen all. split_and!.
  - by apply record_all_history.
  - rewrite record_all_history by done. rewrite length_drop. lia.
  - apply record_all_max_history.
Qed.

(** X16: with the bound at zero the history is never trimmed: the
    slice [history[-0:]] is the whole list, so every report stays. *)
Theorem record_error_zero_bound_keeps_all reports self :
  max_history self = 0%Z ->
  error_history (record_all reports self)
  = error_history self ++ map record_of reports.
Proof.
  intros Hmax. induction reports as [|r reports IH] using rev_ind.
  - simpl. by rewrite app_nil_r.
  - rewrite record_all_snoc. simpl.
    rewrite record_all_max_history, Hmax, IH.
    destruct (0 <? _)%Z; rewrite map_app, app_assoc; done.
Qed.

End Handler.

End ErrorLogFacts.

Module ErrorSummaryFacts.

Import ErrorLog.

Section Handler.

Context {datetime : Type}.
Variable isoformat : datetime -> string.

Implicit Types (self : @ErrorHandler datetime)
  (history : list (@ErrorRecord datetime)) (e : @ErrorRecord datetime).

Lemma get0_count_up (k k' : string) (d : gmap string Z) :
  get0 (count_up k' d) k
  = (get0 d k + if decide (k' = k) then 1 else 0)%Z.
Proof.
  unfold get0, count_up. destruct (decide (k' = k)) as [->|Hne].
  - by rewrite lookup_insert_eq.
  - rewrite lookup_insert_ne by done. lia.
Qed.

Lemma lookup_count_up (k k' : string) (d : gmap string Z) :
  is_Some (count_up k' d !! k) <-> k' = k \/ is_Some (d !! k).
Proof.
  unfold count_up. destruct (decide (k' = k)) as [->|Hne].
  - rewrite lookup_insert_eq. split; [by left|by eexists].
  - rewrite lookup_insert_ne by done. naive_solver.
Qed.

(** The two dicts after the loop, from any two dicts. *)
Lemma summary_fold history : forall (acc : gmap string Z * gmap string Z) k,
  let acc' := fold_left summary_step history acc in
  get0 acc'.1 k
  = (get0 acc.1 k
     + Z.of_nat (length (filter (fun e => severity_value (severity e) = k)
                                history)))%Z
  /\ get0 acc'.2 k
     = (get0 acc.2 k
        + Z.of_nat (length (filter
                              (fun e => component_value
                                          (component (context e)) = k)
                              history)))%Z
  /\ (is_Some (acc'.1 !! k)
      <-> is_Some (acc.1 !! k)
          \/ exists e, e ∈ history /\ severity_value (severity e) = k)
  /\ (is_Some (acc'.2 !! k)
      <-> is_Some (acc.2 !! k)
          \/ exists e, e ∈ history
                       /\ component_value (component (context e)) = k).
Proof.
  induction history as [|e history IH]; intros acc k; simpl.
  - split_and!; [lia|lia| |]; split; try tauto;
      intros [?|(e & He & _)]; try done; by apply elem_of_nil in He.
  - destruct (IH (summary_step acc e) k) as (H1 & H2 & H3 & H4).
    rewrite H1, H2, H3, H4. clear IH H1 H2 H3 H4.
    unfold summary_step. cbn [fst snd].
    rewrite !get0_count_up, !lookup_count_up, !filter_cons.
    split_and!.
    + destruct (decide (severity_value (severity e) = k)); simpl; lia.
    + destruct (decide (component_value (component (context e)) = k));
        simpl; lia.
    + setoid_rewrite elem_of_cons. naive_solver.
    + setoid_rewrite elem_of_cons. naive_solver.
Qed.

Lemma with_severity_cons s e history :
  with_severity s (e :: history)
  = (if decide (severity_value (severity e) = severity_value s)
     then 1 else 0) + with_severity s history.
Proof.
  unfold with_severity. rewrite filter_cons. by case_decide.
Qed.

Lemma with_component_cons c e history :
  with_component c (e :: history)
  = (if decide (component_value (component (context e))
                = component_value c)
     then 1 else 0) + with_component c history.
Proof.
  unfold with_component. rewrite filter_cons. by case_decide.
Qed.

(** Every record has one of the four severities, and one of the eight
    components. *)
Lemma sum_with_severity history :
  sum_Z (map (fun s => Z.of_nat (with_severity s history)) all_severities)
  = Z.of_nat (length history).
Proof.
  induction history as [|e history IH]; [done|].
  simpl in *. rewrite !with_severity_cons.
  destruct (severity e); simpl;
    repeat (case_decide; [try discriminate|try done]); lia.
Qed.

Lemma sum_with_component history :
  sum_Z (map (fun c => Z.of_nat (with_component c history)) all_components)
  = Z.of_nat (length history).
Proof.
  induction history as [|e history IH]; [done|].
  simpl in *. rewrite !with_component_cons.
  destruct (component (context e)); simpl;
    repeat (case_decide; [try discriminate|try done]); lia.
Qed.

(** X17: the summary counts every record once under its severity and
    once under its component: the count of a severity (a component) is
    the number of records that have it, a key is present only when some
    record has it, the counts over the severities, and over the
    components, add up to the total, which is the length of the history;
    the recent errors are the last five records, oldest first. *)
Theorem error_summary_counts self :
  let summary := get_error_summary isoformat self in
  let history := error_history self in
  total_errors summary = Z.of_nat (length history)
  /\ (forall s, get0 (by_severity summary) (severity_value s)
                = Z.of_nat (with_severity s history))
  /\ (forall c, get0 (by_component summary) (component_value c)
                = Z.of_nat (with_component c history))
  /\ (forall k, is_Some (by_severity summary !! k)
                <-> exists e, e ∈ history
                              /\ severity_value (severity e) = k)
  /\ (forall k, is_Some (by_component summary !! k)
                <-> exists e, e ∈ history
                              /\ component_value (component (context e)) = k)
  /\ sum_Z (map (fun s => get0 (by_severity summary) (severity_value s))
                all_severities)
     = total_errors summary
  /\ sum_Z (map (fun c => get0 (by_component summary) (component_value c))
                all_components)
     = total_errors summary
  /\ recent_errors summary
     = map (recent_of isoformat) (drop (length history - 5) history).
Proof.
  intros summary history.
  assert (Hsev : forall k,
             get0 (by_severity summary) k
             = Z.of_nat (length (filter
                 (fun e => severity_value (severity e) = k) history))).
  { intros k. unfold summary, get_error_summary. fold history.
    destruct history as [|e0 history0] eqn:Hh; [done|].
    destruct (summary_fold (e0 :: history0) (∅, ∅) k) as (H1 & _).
    destruct (fold_left _ _ _) as [d1 d2]. simpl in *. rewrite H1.
    unfold get0. rewrite lookup_empty. simpl. lia. }
  assert (Hcomp : forall k,
             get0 (by_component summary) k
             = Z.of_nat (length (filter
                 (fun e => component_value (component (context e)) = k)
                 history))).
  { intros k. unfold summary, get_error_summary. fold history.
    destruct history as [|e0 history0] eqn:Hh; [done|].
    destruct (summary_fold (e0 :: history0) (∅, ∅) k) as (_ & H2 & _).
    destruct (fold_left _ _ _) as [d1 d2]. simpl in *. rewrite H2.
    unfold get0. rewrite lookup_empty. simpl. lia. }
  assert (Htotal : total_errors summary = Z.of_nat (length history)).
  { unfold summary, get_error_summary. fold history.
    destruct history; [done|]. by destruct (fold_left _ _ _). }
  split_and!.
  - done.
  - intros s. apply Hsev.
  - intros c. apply Hcomp.
  - intros k. unfold summary, get_error_summary. fold history.
    destruct history as [|e0 history0] eqn:Hh.
    + simpl. rewrite lookup_empty. split; [by intros [? ?]|].
      intros (e & He & _). by apply elem_of_nil in He.
    + destruct (summary_fold (e0 :: history0) (∅, ∅) k) as (_ & _ & H3 & _).
      destruct (fold_left _ _ _) as [d1 d2]. simpl in *. rewrite H3.
      rewrite lookup_empty. split; [|by right].
      intros [[? ?]|?]; done.
  - intros k. unfold summary, get_error_summary. fold history.
    destruct history as [|e0 history0] eqn:Hh.
    + simpl. rewrite lookup_empty. split; [by intros [? ?]|].
      intros (e & He & _). by apply elem_of_nil in He.
    + destruct (summary_fold (e0 :: history0) (∅, ∅) k) as (_ & _ & _ & H4).
      destruct (fold_left _ _ _) as [d1 d2]. simpl in *. rewrite H4.
      rewrite lookup_empty. split; [|by right].
      intros [[? ?]|?]; done.
  - rewrite Htotal, <- sum_with_severity. f_equal.
    apply map_ext. intros s. apply Hsev.
  - rewrite Htotal, <- sum_with_component. f_equal.
    apply map_ext. intros c. apply Hcomp.
  - unfold summary, get_error_summary. fold history.
    destruct history as [|e0 history0] eqn:Hh; [done|].
    by destruct (fold_left _ _ _).
Qed.

End Handler.

End ErrorSummaryFacts.

Module HealthFacts.

Import ErrorLog.

(** The comparison [health_score > 0.7] for every error count up to the
    bound of the history, on binary64 floats. *)
Lemma health_table :
  forallb (fun n => Bool.eqb (PrimFloat.ltb 0.7%float (health_score_of n))
                             (Nat.ltb n 30))
          (seq 0 101) = true.
Proof. vm_compute. reflexivity. Qed.

Lemma health_threshold (n : nat) :
  n <= 100 ->
  PrimFloat.ltb 0.7%float (health_score_of n) = Nat.ltb n 30.
Proof.
  intros Hn. pose proof health_table as Htable.
  rewrite forallb_forall in Htable.
  apply Bool.eqb_prop, Htable, in_seq. lia.
Qed.

Section Handler.

Context {datetime Ext : Type}.
Variable call_json : string -> Eff Ext HealthDict.
Variable SYSTEM_HEALTH_PROMPT : string -> string -> string -> string.
Variable str_dict : PyDict -> string.
Variable str_recent : list (string * string) -> string.

Implicit Types (self : @ErrorHandler datetime) (r : @Report datetime).

Lemma record_all_init_length (reports : list (@Report datetime)) :
  length (error_history (record_all reports ErrorHandler_init))
  = Nat.min (length reports) 100.
Proof.
  rewrite ErrorLogFacts.record_all_history by (simpl; lia).
  rewrite length_drop. simpl. rewrite length_map. lia.
Qed.

(** X18: when the language model cannot be asked, the health check of
    a handler that started empty answers by itself: "healthy" exactly
    when fewer than 30 errors have been reported to the handler,
    "degraded" otherwise, with the score computed from the length of the
    bounded history and with no issues and no recommendations. *)
Theorem check_system_health_fallback
    (reports : list (@Report datetime))
    (health_metrics performance_data : PyDict) (w : Ext)
    (e : PyExc) (w' : Ext) :
  call_json (health_prompt SYSTEM_HEALTH_PROMPT str_dict str_recent
               health_metrics performance_data
               (record_all reports ErrorHandler_init)) w
  = (Raise e, w') ->
  exists status,
    check_system_health call_json SYSTEM_HEALTH_PROMPT str_dict
      str_recent health_metrics performance_data
      (record_all reports ErrorHandler_init) w
    = (Return {| health_status := Some status; active_issues := [];
                 recommendations := [] |}, w')
    /\ overall status
       = (if Nat.ltb (length reports) 30 then "healthy" else "degraded")
    /\ score status = health_score_of (Nat.min (length reports) 100).
Proof.
  intros Hcall.
  unfold check_system_health, try_except, mbind, Eff_bind, mret, Eff_ret.
  rewrite Hcall. eexists. split; [reflexivity|]. simpl.
  rewrite record_all_init_length.
  rewrite health_threshold by lia. split; [|done].
  destruct (Nat.ltb_spec (length reports) 30) as [Hlt|Hge];
    destruct (Nat.ltb_spec (Nat.min (length reports) 100) 30);
    try done; lia.
Qed.

End Handler.

End HealthFacts.

(** * Credibility of a source *)

Module CredibilityFacts.

Import Credibility.

(** The cases of [_estimate_credibility]: the base score is one of four
    figures, and the domain adds at most one bonus. *)
Ltac credibility_cases :=
  unfold _estimate_credibility, quality_scores_get;
  repeat case_decide;
  repeat match goal with
         | |- context [if existsb ?f ?l then _ else _] =>
             destruct (existsb f l)
         end.

(** X19: the credibility score of a source lies between 0.3 and 1.0,
    whatever the domain and the evaluation are. *)
Theorem estimate_credibility_range (domain : string) (eval_data : PyDict) :
  PrimFloat.leb 0.3%float (_estimate_credibility domain eval_data) = true
  /\ PrimFloat.leb (_estimate_credibility domain eval_data) 1.0%float = true.
Proof. credibility_cases; by vm_compute. Qed.

(** X20: no domain bonus lifts a source to the level "high": the level
    of the estimated score is "high" exactly when the evaluation rates
    the quality of the source "high". *)
Theorem credibility_level_high (domain : string) (eval_data : PyDict) :
  _score_to_level (_estimate_credibility domain eval_data) = "high"
  <-> eval_data !! "source_quality" = Some "high".
Proof.
  unfold _estimate_credibility, quality_scores_get.
  set (gov := existsb _ [".gov"; ".edu"]).
  set (org := existsb _ [".org"]).
  set (news := existsb _ ["wikipedia"; "reuters"; "bbc"; "nytimes"]).
  clearbody gov org news.
  destruct (eval_data !! "source_quality") as [quality|]; simpl.
  - repeat case_decide; subst; destruct gov, org, news;
      vm_compute; split; intros Heq; try done; congruence.
  - destruct gov, org, news; vm_compute; split; intros Heq; done.
Qed.

End CredibilityFacts.

(** * The search provider wrapper, all its paths *)

Module SearchRuns.

Import Search.

Section WebSearch.

Context {Ext Result : Type}.

Implicit Types (st : @SearchState Ext Result) (q : string)
  (max_results : Z).

(** With the flag clear and results from the primary provider, one
    level is enough and the primary provider is the only one asked. *)
Lemma execute_search_hit n q max_results st (results : list Result) w :
  _use_fallback (self st) = false ->
  primary_provider (self st) q max_results (ext st) = (Return results, w) ->
  results <> [] ->
  _execute_search (S n) q max_results st
  = Some (Return results, called st Primary q max_results w).
Proof.
  intros Hflag Hcall Hne. simpl. rewrite Hflag.
  unfold execute_search_try, mbind, Eff_bind, mret, Eff_ret, gets.
  rewrite (SearchFacts.call_provider_eq Primary q max_results st
             (Return results) w) by done.
  simpl. by rewrite bool_decide_eq_false_2.
Qed.

(** With the flag clear and a primary provider that returns no results
    or raises, two levels are enough: the flag is set and the fallback
    provider is asked. *)
Lemma execute_search_miss n q max_results st
    (o1 : Outcome (list Result)) w1 (o2 : Outcome (list Result)) w2 :
  _use_fallback (self st) = false ->
  primary_provider (self st) q max_results (ext st) = (o1, w1) ->
  o1 = Return [] \/ (exists e, o1 = Raise e) ->
  fallback_provider (self st) q max_results w1 = (o2, w2) ->
  _execute_search (S (S n)) q max_results st
  = Some (fallback_answer o2,
          called (set_use_fallback (called st Primary q max_results w1))
                 Fallback q max_results w2).
Proof.
  intros Hflag Hp Ho1 Hf.
  pose (rec := @_execute_search Ext Result (S n)).
  assert (Hrec : forall st0 o w,
             _use_fallback (self st0) = true ->
             fallback_provider (self st0) q max_results (ext st0) = (o, w) ->
             rec q max_results st0
             = Some (fallback_answer o,
                     called st0 Fallback q max_results w))
    by (intros; by apply SearchFacts.execute_search_flag_set).
  change (_execute_search (S (S n)) q max_results st) with
    (match execute_search_try
             (if _use_fallback (self st) then Fallback else Primary)
             q max_results st with
     | (Return results, st') => Some (Return results, st')
     | (Raise e, st') =>
         if negb (_use_fallback (self st'))
         then rec q max_results (set_use_fallback st')
         else Some (Return [], st')
     end).
  clearbody rec. rewrite Hflag.
  unfold execute_search_try, mbind, Eff_bind, mret, Eff_ret, gets, modify.
  rewrite (SearchFacts.call_provider_eq Primary q max_results st o1 w1)
    by done.
  destruct Ho1 as [->|[e ->]].
  - simpl. rewrite Hflag. simpl.
    rewrite (SearchFacts.call_provider_eq Fallback q max_results
               (set_use_fallback (called st Primary q max_results w1))
               o2 w2) by done.
    by destruct o2.
  - simpl. rewrite Hflag. simpl.
    by rewrite (Hrec (set_use_fallback (called st Primary q max_results w1))
                  o2 w2).
Qed.

(** Every search, from every state. *)
Lemma execute_search_cases n q max_results st :
  exists (results : list Result) st' providers,
    _execute_search (S (S n)) q max_results st = Some (Return results, st')
    /\ provider_calls st'
       = provider_calls st ++ asked_for q max_results providers
    /\ primary_provider (self st') = primary_provider (self st)
    /\ fallback_provider (self st') = fallback_provider (self st)
    /\ (if _use_fallback (self st)
        then providers = [Fallback] /\ _use_fallback (self st') = true
        else (providers = [Primary] /\ results <> []
              /\ _use_fallback (self st') = false)
             \/ (providers = [Primary; Fallback]
                 /\ _use_fallback (self st') = true)).
Proof.
  destruct (_use_fallback (self st)) eqn:Hflag.
  - destruct (fallback_provider (self st) q max_results (ext st))
      as [o w] eqn:Hf.
    rewrite (SearchFacts.execute_search_flag_set _ q max_results st o w)
      by done.
    exists (match o with Return results => results | Raise _ => [] end),
      (called st Fallback q max_results w), [Fallback].
    split_and!; [by destruct o|done..].
  - destruct (primary_provider (self st) q max_results (ext st))
      as [o1 w1] eqn:Hp.
    assert (Hcases : (exists results, o1 = Return results /\ results <> [])
                     \/ o1 = Return [] \/ (exists e, o1 = Raise e)).
    { destruct o1 as [[|r results]|e]; [by right; left| |by right; right; eexists].
      left. by eexists. }
    destruct Hcases as [(results & -> & Hne)|Hmiss].
    + rewrite (execute_search_hit _ q max_results st results w1) by done.
      exists results, (called st Primary q max_results w1), [Primary].
      split_and!; [done..|]. left. by split_and!.
    + destruct (fallback_provider (self st) q max_results w1)
        as [o2 w2] eqn:Hf.
      rewrite (execute_search_miss n q max_results st o1 w1 o2 w2) by done.
      exists (match o2 with Return results => results | Raise _ => [] end),
        (called (set_use_fallback (called st Primary q max_results w1))
                Fallback q max_results w2), [Primary; Fallback].
      split_and!; [by destruct o2|simpl; by rewrite <- app_assoc|done..|].
      right. by split.
Qed.

(** X21: a search never raises and never asks a provider twice: from
    every state, whatever the two providers do, [_execute_search]
    returns a list after asking the primary provider only (then the
    list is not empty and the flag stays clear), the fallback provider
    only (when the flag was set), or the primary and then the fallback
    provider (then the flag is set), each with the query and the limit
    it was given; the providers themselves are never replaced.  Two
    levels of recursion are always enough. *)
Theorem execute_search_never_raises fuel q max_results st :
  2 <= fuel ->
  exists (results : list Result) st' providers,
    _execute_search fuel q max_results st = Some (Return results, st')
    /\ provider_calls st'
       = provider_calls st ++ asked_for q max_results providers
    /\ primary_provider (self st') = primary_provider (self st)
    /\ fallback_provider (self st') = fallback_provider (self st)
    /\ (if _use_fallback (self st)
        then providers = [Fallback] /\ _use_fallback (self st') = true
        else (providers = [Primary] /\ results <> []
              /\ _use_fallback (self st') = false)
             \/ (providers = [Primary; Fallback]
                 /\ _use_fallback (self st') = true)).
Proof.
  intros Hfuel. destruct fuel as [|[|n]]; [lia..|].
  apply execute_search_cases.
Qed.

(** X22: with the flag clear, results of the primary provider are the
    answer as they are: the fallback provider is not asked, the flag
    stays clear and the outside world is what the primary provider left. *)
Theorem execute_search_primary_hit fuel q max_results st
    (results : list Result) (w : Ext) :
  1 <= fuel ->
  _use_fallback (self st) = false ->
  primary_provider (self st) q max_results (ext st) = (Return results, w) ->
  results <> [] ->
  exists st',
    _execute_search fuel q max_results st = Some (Return results, st')
    /\ _use_fallback (self st') = false
    /\ ext st' = w
    /\ provider_calls st' = provider_calls st ++ [(Primary, q, max_results)].
Proof.
  intros Hfuel Hflag Hcall Hne. destruct fuel as [|n]; [lia|].
  eexists. split; [by apply execute_search_hit|]. by split_and!.
Qed.

(** Once the flag is set, every search of a sequence asks the fallback
    provider and no other. *)
Lemma execute_all_flag_set n (queries : list (string * Z)) : forall st,
  _use_fallback (self st) = true ->
  exists outs st',
    execute_all (S n) queries st = Some (outs, st')
    /\ length outs = length queries
    /\ Forall (fun o => returns o = true) outs
    /\ _use_fallback (self st') = true
    /\ provider_calls st'
       = provider_calls st
         ++ map (fun '(q, max_results) => (Fallback, q, max_results)) queries.
Proof.
  induction queries as [|[q max_results] queries IH]; intros st Hflag.
  - exists [], st. rewrite app_nil_r. by split_and!.
  - destruct (fallback_provider (self st) q max_results (ext st))
      as [o w] eqn:Hf.
    destruct (IH (called st Fallback q max_results w) Hflag)
      as (outs & st' & Hall & Hlen & Hret & Hflag' & Hcalls).
    exists (fallback_answer o :: outs), st'.
    cbn [execute_all].
    rewrite (SearchFacts.execute_search_flag_set n q max_results st o w)
      by done.
    simpl. rewrite Hall. simpl.
    split_and!; [done|by rewrite Hlen| |done|].
    + constructor; [by destruct o|done].
    + rewrite Hcalls. simpl. by rewrite <- app_assoc.
Qed.

(** X23: one miss of the primary provider retires it.  When the first
    search of a sequence finds the primary provider empty-handed or
    failing, that search and every later one of the sequence are
    answered by the fallback provider: the primary provider is asked
    once, for the first query, and never again, whatever it would have
    found for the later queries; and every search returns. *)
Theorem primary_provider_retired fuel q max_results
    (queries : list (string * Z)) st
    (o1 : Outcome (list Result)) (w1 : Ext) :
  2 <= fuel ->
  _use_fallback (self st) = false ->
  primary_provider (self st) q max_results (ext st) = (o1, w1) ->
  o1 = Return [] \/ (exists e, o1 = Raise e) ->
  exists outs st',
    execute_all fuel ((q, max_results) :: queries) st = Some (outs, st')
    /\ length outs = S (length queries)
    /\ Forall (fun o => returns o = true) outs
    /\ _use_fallback (self st') = true
    /\ provider_calls st'
       = provider_calls st
         ++ (Primary, q, max_results) :: (Fallback, q, max_results)
            :: map (fun '(q', max_results') => (Fallback, q', max_results'))
                   queries.
Proof.
  intros Hfuel Hflag Hp Ho1. destruct fuel as [|[|n]]; [lia..|].
  destruct (fallback_provider (self st) q max_results w1) as [o2 w2] eqn:Hf.
  set (st1 := called (set_use_fallback (called st Primary q max_results w1))
                     Fallback q max_results w2).
  destruct (execute_all_flag_set (S n) queries st1 eq_refl)
    as (outs & st' & Hall & Hlen & Hret & Hflag' & Hcalls).
  exists (fallback_answer o2 :: outs), st'.
  cbn [execute_all].
  rewrite (execute_search_miss n q max_results st o1 w1 o2 w2) by done.
  simpl. fold st1. rewrite Hall. simpl.
  split_and!; [done|by rewrite Hlen| |done|].
  - constructor; [by destruct o2|done].
  - rewrite Hcalls. simpl. by rewrite <- !app_assoc.
Qed.

End WebSearch.

End SearchRuns.

(** * The language-model client, all its paths *)

Module LLMRuns.

Import LLM.

Section Client.

Context {Ext : Type}.

Implicit Types (st : @ClientState Ext) (call : Call).

(** With the flag clear and a primary backend that answers, one level
    is enough and the primary backend is the only one called. *)
Lemma with_fallback_primary {Res} n call
    (method : BaseLLMClient -> Eff Ext Res) st (r : Res) w :
  _use_fallback (self st) = false ->
  method (primary (self st)) (ext st) = (Return r, w) ->
  with_fallback (S n) call method st
  = Some (Return r, called st Primary call w).
Proof.
  intros Hflag Hcall. simpl. unfold current_backend. rewrite Hflag.
  by rewrite (LLMFacts.call_backend_eq Primary call method st (Return r) w).
Qed.

(** The backends a call reaches. *)
Lemma with_fallback_cases {Res} n call
    (method : BaseLLMClient -> Eff Ext Res) st :
  exists (o : Outcome Res) st' backends,
    with_fallback (S (S n)) call method st = Some (o, st')
    /\ backend_calls st'
       = backend_calls st ++ map (fun b => (b, call)) backends
    /\ primary (self st') = primary (self st)
    /\ fallback (self st') = fallback (self st)
    /\ (if _use_fallback (self st)
        then backends = [Fallback] /\ _use_fallback (self st') = true
        else (backends = [Primary] /\ returns o = true
              /\ _use_fallback (self st') = false)
             \/ (backends = [Primary; Fallback]
                 /\ _use_fallback (self st') = true)).
Proof.
  destruct (_use_fallback (self st)) eqn:Hflag.
  - destruct (method (fallback (self st)) (ext st)) as [o w] eqn:Hf.
    rewrite (LLMFacts.with_fallback_flag_set _ call method st o w) by done.
    exists o, (called st Fallback call w), [Fallback]. by split_and!.
  - destruct (method (primary (self st)) (ext st)) as [[r|e] w1] eqn:Hp.
    + rewrite (with_fallback_primary _ call method st r w1) by done.
      exists (Return r), (called st Primary call w1), [Primary].
      split_and!; [done..|]. left. by split_and!.
    + destruct (method (fallback (self st)) w1) as [o w2] eqn:Hf.
      rewrite (LLMFacts.with_fallback_failover n call method st e w1 o w2)
        by done.
      exists o, (called (set_use_fallback (called st Primary call w1))
                        Fallback call w2), [Primary; Fallback].
      split_and!; [done|simpl; by rewrite <- app_assoc|done..|].
      right. by split.
Qed.

(** X24: with the flag clear, an answer of the primary backend is the
    answer of the call: the fallback backend is not called and the flag
    stays clear, so the next call starts with the primary backend
    again. *)
Theorem llm_primary_answer_keeps_primary fuel call st (r : Reply) (w : Ext) :
  1 <= fuel ->
  _use_fallback (self st) = false ->
  backend_reply (primary (self st)) call (ext st) = (Return r, w) ->
  exists st',
    perform fuel call st = Some (Return r, st')
    /\ _use_fallback (self st') = false
    /\ ext st' = w
    /\ backend_calls st' = backend_calls st ++ [(Primary, call)].
Proof.
  intros Hfuel Hflag Hcall. destruct fuel as [|n]; [lia|].
  exists (called st Primary call w).
  split; [|by split_and!].
  destruct call as [args|args];
    unfold perform, generate, generate_json, backend_reply in *.
  - destruct (generate_of _ args (ext st)) as [[r'|e] w'] eqn:E; [|done].
    injection Hcall as <- <-.
    by rewrite (with_fallback_primary n _ _ st r' w').
  - destruct (generate_json_of _ args (ext st)) as [[r'|e] w'] eqn:E;
      [|done].
    injection Hcall as <- <-.
    by rewrite (with_fallback_primary n _ _ st r' w').
Qed.

(** X25: a call of the client always ends, after one backend call or
    two: from every state and whatever the backends do, [generate] and
    [generate_json] call the primary backend only (then they return and
    the flag stays clear), the fallback backend only (when the flag was
    set), or the primary and then the fallback backend (then the flag is
    set), always with the arguments they were given.  So an exception
    reaches the caller only from the fallback backend, and the backends
    are never replaced.  Two levels of recursion are always enough. *)
Theorem llm_call_ends fuel call st :
  2 <= fuel ->
  exists (o : Outcome Reply) st' backends,
    perform fuel call st = Some (o, st')
    /\ backend_calls st'
       = backend_calls st ++ map (fun b => (b, call)) backends
    /\ primary (self st') = primary (self st)
    /\ fallback (self st') = fallback (self st)
    /\ (if _use_fallback (self st)
        then backends = [Fallback] /\ _use_fallback (self st') = true
        else (backends = [Primary] /\ returns o = true
              /\ _use_fallback (self st') = false)
             \/ (backends = [Primary; Fallback]
                 /\ _use_fallback (self st') = true)).
Proof.
  intros Hfuel. destruct fuel as [|[|n]]; [lia..|].
  destruct call as [args|args]; unfold perform, generate, generate_json.
  - destruct (with_fallback_cases n (CallGenerate args)
                (fun c => generate_of c args) st)
      as (o & st' & backends & -> & Hcalls & Hp & Hf & Hflag).
    exists (reply_of inl o), st', backends. simpl.
    split_and!; [done..|].
    destruct (_use_fallback (self st)); [done|].
    destruct Hflag as [(? & ? & ?)|?]; [left|by right].
    split_and!; [done| |done]. by destruct o.
  - destruct (with_fallback_cases n (CallGenerateJson args)
                (fun c => generate_json_of c args) st)
      as (o & st' & backends & -> & Hcalls & Hp & Hf & Hflag).
    exists (reply_of inr o), st', backends. simpl.
    split_and!; [done..|].
    destruct (_use_fallback (self st)); [done|].
    destruct Hflag as [(? & ? & ?)|?]; [left|by right].
    split_and!; [done| |done]. by destruct o.
Qed.

End Client.

End LLMRuns.

(** * Retry with backoff, without attempts *)

Module RetryEdge.

Import Retry.

Section Retry.

Context {Ext T : Type}.

(** X26: with [max_attempts] zero or negative the function is never
    invoked and nothing is slept; the call still raises, a [TypeError],
    because [raise last_exception] finds [None]. *)
Theorem retry_with_backoff_no_attempts (func : Eff Ext T)
    (max_attempts : Z) (initial_delay backoff_factor : float) (w : Ext) :
  (max_attempts <= 0)%Z ->
  exists st,
    retry_with_backoff func max_attempts initial_delay backoff_factor w
    = (Raise (Exc "TypeError" "exceptions must derive from BaseException"),
       st)
    /\ invocations st = []
    /\ slept st = []
    /\ ext st = w.
Proof.
  intros Hmax. unfold retry_with_backoff.
  rewrite RetryFacts.py_range_nil by lia. simpl.
  eexists. by split_and!.
Qed.

End Retry.

End RetryEdge.

(** * Session ids *)

Lemma string_length_app (s t : string) :
  String.length (s +:+ t) = String.length s + String.length t.
Proof.
  induction s as [|c s IH]; [done|].
  change (S (String.length (s +:+ t)) = S (String.length s + String.length t)).
  by rewrite IH.
Qed.

(** Two strings with tails of the same length are equal only if their
    heads are. *)
Lemma string_app_inj_same_length (s1 s2 t1 t2 : string) :
  String.length t1 = String.length t2 ->
  s1 +:+ t1 = s2 +:+ t2 -> s1 = s2.
Proof.
  revert s2. induction s1 as [|c s1 IH]; intros [|c' s2] Hlen Heq.
  - done.
  - change (t1 = String c' (s2 +:+ t2)) in Heq. subst t1.
    simpl in Hlen. rewrite string_length_app in Hlen. lia.
  - change (String c (s1 +:+ t1) = t2) in Heq. subst t2.
    simpl in Hlen. rewrite string_length_app in Hlen. lia.
  - change (String c (s1 +:+ t1) = String c' (s2 +:+ t2)) in Heq.
    injection Heq as -> Heq. f_equal. by apply IH.
Qed.

Lemma session_id_inj (n m : nat) (now1 now2 : string) :
  String.length now1 = String.length now2 ->
  "session_" +:+ pretty n +:+ "_" +:+ now1
  = "session_" +:+ pretty m +:+ "_" +:+ now2 ->
  n = m.
Proof.
  intros Hlen Heq. apply (inj (String.app "session_")) in Heq.
  apply string_app_inj_same_length in Heq;
    [|by rewrite !string_length_app, Hlen].
  by apply (inj pretty) in Heq.
Qed.

Section SessionIds.

Context {Ext : Type}.

Variable call_json : string -> Eff Ext Json.
Variable FALLBACK_CONTENT_PROMPT : string -> string -> string -> string -> string.
Variable str_dict : PyDict -> string.
Variable str_list : list string -> string.
Variables _analyze_query _search_web _reason _verify _generate_citations
  _generate_output : StageFunc (Ext := Ext).

Local Abbreviation research_ :=
  (research call_json FALLBACK_CONTENT_PROMPT str_dict str_list
     _analyze_query _search_web _reason _verify _generate_citations
     _generate_output).

Lemma cleanup_session_counter (self : Orchestrator) (sid : string) :
  _session_counter (_cleanup_session self sid) = _session_counter self.
Proof. unfold _cleanup_session. by case_decide. Qed.

(** What a run does to the counter, and the id of its session. *)
Lemma research_counter_and_id (query0 : string) (verify_claims : bool)
    (progress_callback : option Callback) (now : string)
    (self : Orchestrator) (w : Ext) :
  let '(o, self', st) :=
    research_ query0 verify_claims progress_callback now self w in
  _session_counter self' = S (_session_counter self)
  /\ session_id (run_session st)
     = "session_" +:+ pretty (S (_session_counter self)) +:+ "_" +:+ now.
Proof.
  unfold research, _create_session. cbn zeta.
  set (sid := "session_" +:+ pretty (S (_session_counter self)) +:+ "_" +:+ now).
  set (session := {| session_id := sid; query := query0;
                     progress := initial_progress;
                     results := empty_results |}).
  pose proof (research_keeps_session_id call_json FALLBACK_CONTENT_PROMPT
                str_dict str_list _analyze_query _search_web _reason _verify
                _generate_citations _generate_output
                verify_claims progress_callback
                (init_run session w)) as Hid.
  destruct (try_except _ _ (init_run session w)) as [o st]; simpl in *.
  by rewrite cleanup_session_counter.
Qed.

(** X27: an orchestrator does not reuse a session id.  Every run
    increments the session counter by one, whatever the run does, and
    the session of a run that starts from a later state of the
    orchestrator has another id than the session of an earlier run,
    also when both start within the same second; the two timestamps
    have the same length, as the fixed format of the code gives them. *)
Theorem research_session_ids_differ
    (query1 query2 : string) (verify1 verify2 : bool)
    (callback1 callback2 : option Callback) (now1 now2 : string)
    (self later : Orchestrator) (w1 w2 : Ext) :
  String.length now1 = String.length now2 ->
  _session_counter
    (research_ query1 verify1 callback1 now1 self w1).1.2
  <= _session_counter later ->
  _session_counter (research_ query1 verify1 callback1 now1 self w1).1.2
  = S (_session_counter self)
  /\ session_id
       (run_session (research_ query1 verify1 callback1 now1 self w1).2)
     <> session_id
          (run_session (research_ query2 verify2 callback2 now2 later w2).2).
Proof.
  intros Hlen Hlater.
  pose proof (research_counter_and_id query1 verify1 callback1 now1 self w1)
    as H1.
  pose proof (research_counter_and_id query2 verify2 callback2 now2 later w2)
    as H2.
  destruct (research_ query1 _ _ now1 self w1) as [[o1 self1] st1].
  destruct (research_ query2 _ _ now2 later w2) as [[o2 self2] st2].
  simpl in *. destruct H1 as [Hc1 Hid1], H2 as [Hc2 Hid2].
  split; [done|]. rewrite Hid1, Hid2. intros Heq.
  apply session_id_inj in Heq; [lia|done].
Qed.

End SessionIds.

(** * Deduplication, again *)

Lemma keep_unseen_distinct (l : list SearchResult) :
  forall seen : gset string,
    NoDup (map sr_url l) ->
    (forall x, x ∈ l -> sr_url x ∉ seen) ->
    keep_unseen seen l = l.
Proof.
  induction l as [|x l IH]; intros seen Hnd Hseen; [done|].
  simpl in *. apply NoDup_cons in Hnd as [Hx Hnd].
  rewrite decide_False by (apply Hseen; left).
  f_equal. apply IH; [done|].
  intros y Hy. specialize (Hseen y ltac:(by right)).
  assert (sr_url y <> sr_url x).
  { intros Heq. apply Hx. rewrite <- Heq. by apply list_elem_of_fmap_2. }
  set_solver.
Qed.

Lemma keep_unseen_covers (l : list SearchResult) :
  forall (seen : gset string) x,
    x ∈ l ->
    sr_url x ∈ seen \/ sr_url x ∈ map sr_url (keep_unseen seen l).
Proof.
  induction l as [|y l IH]; intros seen x Hx; [by apply elem_of_nil in Hx|].
  simpl. apply elem_of_cons in Hx as [->|Hx].
  - destruct (decide (sr_url y ∈ seen)); [by left|]. right. simpl. left.
  - destruct (decide (sr_url y ∈ seen)); [by apply IH|].
    destruct (IH ({[sr_url y]} ∪ seen) x Hx) as [Hin|Hin].
    + apply elem_of_union in Hin as [Hin|Hin]; [|by left].
      apply elem_of_singleton in Hin. right. simpl. rewrite Hin. left.
    + right. simpl. by right.
Qed.

(** X28: deduplicating twice is deduplicating once, a list whose URLs
    are pairwise distinct is left as it is, and no URL is lost: the
    URLs of the output are those of the input. *)
Theorem deduplicate_by_url_idempotent (all_results : list SearchResult) :
  deduplicate_by_url (deduplicate_by_url all_results)
  = deduplicate_by_url all_results
  /\ (NoDup (map sr_url all_results) ->
      deduplicate_by_url all_results = all_results)
  /\ (forall u, u ∈ map sr_url (deduplicate_by_url all_results)
                <-> u ∈ map sr_url all_results).
Proof.
  assert (Hfix : forall l, NoDup (map sr_url l) -> deduplicate_by_url l = l).
  { intros l Hnd. rewrite deduplicate_keep_unseen.
    apply keep_unseen_distinct; [done|]. set_solver. }
  split_and!.
  - apply Hfix. rewrite deduplicate_keep_unseen. apply keep_unseen_NoDup.
  - apply Hfix.
  - intros u. rewrite deduplicate_keep_unseen. split.
    + intros (x & -> & Hx)%list_elem_of_fmap.
      apply list_elem_of_fmap_2.
      eapply elem_of_sublist; [done|apply keep_unseen_sublist].
    + intros (x & -> & Hx)%list_elem_of_fmap.
      destruct (keep_unseen_covers all_results ∅ x Hx) as [Hin|Hin];
        [set_solver|done].
Qed.

(** * The degraded answer *)

Section DegradedAnswer.

Context {Ext : Type}.

Variable call_json : string -> Eff Ext Json.
Variable FALLBACK_CONTENT_PROMPT : string -> string -> string -> string -> string.
Variable str_dict : PyDict -> string.
Variable str_list : list string -> string.

Implicit Types (st : @RunState Ext).

(** X29: the text of a degraded result.  [_handle_research_failure]
    asks the language model once, with the query, the synthesis reached
    so far and the message of the error, and leaves the session as it
    was.  If that call raises, the fallback dict is the fixed one of
    [generate_fallback_content], which lists the message of the error as
    what is missing, and the answer is its apology.  If the call returns
    a dict, that dict is the fallback dict: without a
    ["fallback_content"] entry the answer is the fixed text of
    [_handle_research_failure]; with a dict under that key the answer is
    its ["response"] entry, of whatever type, or the fixed text when it
    has none.  In these cases the result carries the sources and the
    reasoning steps the session had reached.  If the call returns a
    value that is no dict, or a dict with a value that is no dict under
    ["fallback_content"], no result is built: the handler raises the
    [AttributeError] of the [.get] on that value. *)
Theorem handle_failure_answer (e : PyExc) st (o : Outcome Json) (w' : Ext) :
  call_json (fallback_prompt FALLBACK_CONTENT_PROMPT str_dict str_list
               (run_session st) e) (run_ext st) = (o, w') ->
  let handler :=
    _handle_research_failure call_json FALLBACK_CONTENT_PROMPT str_dict
      str_list e st in
  let result (answer0 fallback : Json) :=
    Return
      (Some {| rr_query := query (run_session st);
               answer := answer0;
               confidence := 0.2%float;
               rr_sources := sources (results (run_session st));
               rr_reasoning_steps :=
                 reasoning_steps (results (run_session st));
               verification_status := "failed";
               metadata :=
                 <["error" := MStr (str e)]>
                   (<["partial" := MBool true]>
                      (<["fallback" := MFallback fallback]> ∅)) |}) in
  run_session handler.2 = run_session st
  /\ run_ext handler.2 = w'
  /\ run_trace handler.2 = run_trace st
  /\ match o with
     | Raise _ =>
         handler.1
         = result (JStr "Unable to complete the research at this time.")
                  (fixed_fallback [str e])
     | Return (JDict d) =>
         match d !! "fallback_content" with
         | None =>
             handler.1
             = result (JStr "Research could not be completed.") (JDict d)
         | Some (JDict inner) =>
             handler.1
             = result (default (JStr "Research could not be completed.")
                               (inner !! "response"))
                      (JDict d)
         | Some bad => handler.1 = Raise (no_attribute_get bad)
         end
     | Return bad => handler.1 = Raise (no_attribute_get bad)
     end.
Proof.
  intros Hcall. cbn zeta.
  rewrite (handle_failure_unfold call_json FALLBACK_CONTENT_PROMPT str_dict
             str_list e st o w' Hcall).
  simpl. split_and!; try done.
  destruct o as [reply|e1]; [|done].
  destruct reply as [| | | | | |d]; try done.
  unfold handled, fallback_response. simpl.
  destruct (d !! "fallback_content") as [inner|] eqn:Hd; simpl.
  - destruct inner as [| | | | | |d']; try done. simpl.
    by destruct (d' !! "response").
  - by rewrite lookup_empty.
Qed.

End DegradedAnswer.

(** * What a failed run returns or raises *)

Section FailedRun.

Context {Ext : Type}.

Variable call_json : string -> Eff Ext Json.
Variable FALLBACK_CONTENT_PROMPT : string -> string -> string -> string -> string.
Variable str_dict : PyDict -> string.
Variable str_list : list string -> string.
Variables _analyze_query _search_web _reason _verify _generate_citations
  _generate_output : StageFunc (Ext := Ext).

(** C1: when a stage call of a run raised [e], the language model is
    asked once for fallback content, and what [research] does next is
    decided by the chain
    [fallback.get("fallback_content", {}).get("response", ...)] on the
    fallback dict.  When the chain returns, [research] returns a result
    with ["failed"] as verification status, confidence 0.2, [str(e)]
    under ["error"] and [True] under ["partial"], and [e] does not reach
    the caller.  When the chain raises, which it does on a reply of the
    language model that is no dict or holds a value that is no dict
    under ["fallback_content"], [research] returns nothing: the
    [AttributeError] of the chain leaves the [except] clause and reaches
    the caller. *)
Theorem research_failure_outcome (query0 : string)
    (verify_claims : bool) (progress_callback : option Callback)
    (now : string) (self : Orchestrator) (w : Ext)
    (stage : ResearchStage) (e : PyExc) :
  let run :=
    research call_json FALLBACK_CONTENT_PROMPT str_dict str_list
      _analyze_query _search_web _reason _verify _generate_citations
      _generate_output query0 verify_claims progress_callback now self w in
  (stage, Raise e) ∈ run_calls run.2 ->
  exists (o : Outcome Json) w1,
    call_json (fallback_prompt FALLBACK_CONTENT_PROMPT str_dict str_list
                 (run_session run.2) e) w1 = (o, run_ext run.2)
    /\ match fallback_response (fallback_of o [str e]) with
       | Return answer0 =>
           exists res,
             run.1.1 = Return (Some res)
             /\ answer res = answer0
             /\ verification_status res = "failed"
             /\ confidence res = 0.2%float
             /\ metadata res !! "error" = Some (MStr (str e))
             /\ metadata res !! "partial" = Some (MBool true)
       | Raise e' =>
           run.1.1 = Raise e'
           /\ exc_type e' = "AttributeError"
           /\ exists reply bad,
                o = Return reply
                /\ (bad = reply
                    \/ exists d, reply = JDict d
                                 /\ d !! "fallback_content" = Some bad)
                /\ not_a_dict bad
                /\ e' = no_attribute_get bad
       end.
Proof.
  cbn zeta. intros Hin.
  destruct (research_cases call_json FALLBACK_CONTENT_PROMPT str_dict
              str_list _analyze_query _search_web _reason _verify
              _generate_citations _generate_output query0 verify_claims
              progress_callback now self w)
    as [(_ & _ & _ & Hk & _)
       |(done & stage' & rest & e' & _ & _ & _ & _ & Hk & o & w1
         & Hcall & Ho)].
  - rewrite Hk in Hin. by apply returned_no_raise in Hin.
  - rewrite Hk in Hin. apply elem_of_app in Hin as [Hin|Hin];
      [by apply returned_no_raise in Hin|].
    apply list_elem_of_singleton in Hin. injection Hin as -> ->.
    exists o, w1. split; [done|]. rewrite Ho. unfold handled.
    destruct (fallback_response (fallback_of o _)) as [a|e1] eqn:Hf.
    + eexists. split; [reflexivity|]. by split_and!.
    + split; [done|].
      destruct o as [reply|e2]; simpl in Hf;
        [|by rewrite fixed_fallback_response in Hf].
      apply fallback_response_raises in Hf as (bad & Hbad & Hnot & ->).
      split; [done|]. by exists reply, bad.
Qed.

End FailedRun.

(** * The stage methods as [research] calls them *)

Section StageCalls.

Context {Ext : Type}.

Variable call_json : string -> Eff Ext Json.
Variable FALLBACK_CONTENT_PROMPT : string -> string -> string -> string -> string.
Variable str_dict : PyDict -> string.
Variable str_list : list string -> string.

(** The bodies of the six stage methods, whatever they are. *)
Variables analyze_query_body search_web_body reason_body verify_body
  generate_citations_body generate_output_body : StageFunc (Ext := Ext).

Local Abbreviation research_as_called :=
  (research call_json FALLBACK_CONTENT_PROMPT str_dict str_list
     (Calls.as_called QUERY_ANALYSIS analyze_query_body)
     (Calls.as_called WEB_SEARCH search_web_body)
     (Calls.as_called REASONING reason_body)
     (Calls.as_called VERIFICATION verify_body)
     (Calls.as_called CITATION generate_citations_body)
     (Calls.as_called OUTPUT_GENERATION generate_output_body)).
Local Abbreviation prompt_for session e :=
  (fallback_prompt FALLBACK_CONTENT_PROMPT str_dict str_list session e).

(** Every run of [research], in one step. *)
Lemma research_as_written (query0 : string) (verify_claims : bool)
    (progress_callback : option Callback) (now : string)
    (self : Orchestrator) (w : Ext) :
  let sid := "session_" +:+ pretty (S (_session_counter self)) +:+ "_" +:+ now in
  let session := Calls.rejected_session sid query0 in
  let e := Calls.analyze_query_rejected in
  let reply := call_json (prompt_for session e) w in
  research_as_called query0 verify_claims progress_callback now self w
  = (handled session e (fallback_of reply.1 [str e]),
     {| active_sessions := delete sid (active_sessions self);
        _session_counter := S (_session_counter self) |},
     {| run_session := session; run_ext := reply.2;
        run_trace := [initial_progress; initial_progress;
                      Calls.rejected_progress];
        run_calls := [(QUERY_ANALYSIS, Raise e)] |}).
Proof.
  intros sid session e reply.
  unfold research, _create_session. cbn zeta.
  fold sid.
  set (session0 := {| session_id := sid; query := query0;
                      progress := initial_progress;
                      results := empty_results |}).
  unfold try_except. rewrite research_body_plan.
  assert (Hstage :
            Calls.as_called QUERY_ANALYSIS analyze_query_body
              (entered (run_session (init_run session0 w)) QUERY_ANALYSIS)
              (run_ext (init_run session0 w))
            = (Raise e, empty_results, w)) by reflexivity.
  assert (Hplan : exists rest,
             stage_plan verify_claims = QUERY_ANALYSIS :: rest)
    by (eexists; reflexivity).
  destruct Hplan as [rest ->]. cbn [run_stages stage_method].
  unfold mbind at 1. unfold Eff_bind at 1.
  rewrite (run_stage_unfold QUERY_ANALYSIS _ (init_run session0 w)
             (Raise e) empty_results w Hstage).
  cbn zeta iota beta.
  match goal with
  | |- context [_handle_research_failure _ _ _ _ e ?st] => set (st1 := st)
  end.
  assert (Hsession : run_session st1 = session) by reflexivity.
  rewrite (handle_failure_unfold call_json FALLBACK_CONTENT_PROMPT str_dict
             str_list e st1 reply.1 reply.2)
    by (rewrite Hsession; subst reply; simpl; by destruct (call_json _ w)).
  simpl.
  assert (Hclean :
            _cleanup_session
              {| active_sessions := <[sid := session0]> (active_sessions self);
                 _session_counter := S (_session_counter self) |} sid
            = {| active_sessions := delete sid (active_sessions self);
                 _session_counter := S (_session_counter self) |}).
  { unfold _cleanup_session. simpl.
    rewrite decide_True by (rewrite lookup_insert_eq; eauto).
    f_equal. apply delete_insert_eq. }
  rewrite Hclean. reflexivity.
Qed.

(** X30: [research] passes [progress_callback] to [_run_stage] by
    position, so [_run_stage] hands it on to the stage method as one
    argument more than the method declares.  Whatever the bodies of the
    six stage methods do and whatever the arguments of [research] are,
    the first stage call raises a [TypeError] before the body of
    [_analyze_query] runs; no stage completes and no later stage is
    called; the session ends with that one error recorded and the query
    analysis as current stage; the only call made on the outside world is
    the request to the language model for fallback content, and the run
    ends as the [.get] chain on the fallback dict decides. *)
Theorem research_stage_call_rejected (query0 : string)
    (verify_claims : bool) (progress_callback : option Callback)
    (now : string) (self : Orchestrator) (w : Ext) :
  let run :=
    research_as_called query0 verify_claims progress_callback now self w in
  let sid := "session_" +:+ pretty (S (_session_counter self)) +:+ "_" +:+ now in
  let message :=
    "ResearchOrchestrator._analyze_query() takes 2 positional arguments but 3 were given" in
  let e := Exc "TypeError" message in
  let session :=
    {| session_id := sid; query := query0;
       progress :=
         {| current_stage := QUERY_ANALYSIS; stages_completed := [];
            stage_times := []; errors := ["query_analysis: " +:+ message] |};
       results := empty_results |} in
  let reply := call_json (prompt_for session e) w in
  run_calls run.2 = [(QUERY_ANALYSIS, Raise e)]
  /\ run_session run.2 = session
  /\ run_ext run.2 = reply.2
  /\ run.1.1 = handled session e (fallback_of reply.1 [message]).
Proof.
  cbn zeta.
  rewrite (research_as_written query0 verify_claims progress_callback now
             self w).
  by split_and!.
Qed.

(** C4: at every point of a run of [research], the completed stages are
    a strict prefix of the canonical stage order.  They are so because
    they are empty: the first stage call raises, so no stage is ever
    added to [stages_completed]. *)
Theorem research_stages_completed_prefix (query0 : string)
    (verify_claims : bool) (progress_callback : option Callback)
    (now : string) (self : Orchestrator) (w : Ext) :
  let run :=
    research_as_called query0 verify_claims progress_callback now self w in
  Forall (fun p => stages_completed p `prefix_of` canonical_order
                   /\ stages_completed p <> canonical_order)
         (run_trace run.2)
  /\ Forall (fun p => stages_completed p = []) (run_trace run.2).
Proof.
  cbn zeta.
  rewrite (research_as_written query0 verify_claims progress_callback now
             self w).
  simpl. split.
  - repeat (apply List.Forall_cons; [split; [apply prefix_nil|done]|]).
    apply List.Forall_nil.
  - repeat (apply List.Forall_cons; [done|]). apply List.Forall_nil.
Qed.

(** C6: along the progress states of a run of [research] the percentage
    never decreases, each state's percentage being at most that of every
    later state, and a state whose percentage is 100 has [COMPLETE] as
    current stage.  The percentage is 0.0 in every state, no stage being
    ever completed. *)
Theorem research_progress_percentage (query0 : string)
    (verify_claims : bool) (progress_callback : option Callback)
    (now : string) (self : Orchestrator) (w : Ext) :
  let trace :=
    run_trace
      (research_as_called query0 verify_claims progress_callback now self
         w).2 in
  StronglySorted
    (fun p q =>
       PrimFloat.leb (progress_percentage p) (progress_percentage q) = true)
    trace
  /\ Forall
       (fun p =>
          PrimFloat.eqb (progress_percentage p) 100%float = true ->
          current_stage p = COMPLETE)
       trace
  /\ Forall (fun p => progress_percentage p = 0%float) trace.
Proof.
  cbn zeta.
  rewrite (research_as_written query0 verify_claims progress_callback now
             self w).
  simpl. split_and!.
  - repeat (apply SSorted_cons;
            [|repeat (apply List.Forall_cons; [reflexivity|]);
              apply List.Forall_nil]).
    apply SSorted_nil.
  - repeat (apply List.Forall_cons; [discriminate|]). apply List.Forall_nil.
  - repeat (apply List.Forall_cons; [reflexivity|]). apply List.Forall_nil.
Qed.

(** X6: the progress callback given to [research] is never called.  It
    travels to the stage methods as a positional argument, [_run_stage]
    finds no keyword of that name, and the notification of completion is
    never reached: a run with a callback is the run without one, in what
    it returns or raises, in the orchestrator it leaves, in the session
    and in the outside world. *)
Theorem research_ignores_progress_callback (query0 : string)
    (verify_claims : bool) (callback : Callback) (now : string)
    (self : Orchestrator) (w : Ext) :
  research_as_called query0 verify_claims (Some callback) now self w
  = research_as_called query0 verify_claims None now self w.
Proof.
  by rewrite !research_as_written.
Qed.

End StageCalls.

(** * The further properties on concrete inputs *)

(** X15, on a handler that keeps two records and is sent three reports:
    the first one is gone. *)
Lemma record_error_keeps_newest_witness :
  ErrorLog.error_history
    (ErrorLog.record_all LogScenario.three_reports LogScenario.small_handler)
  = map ErrorLog.record_of (drop 1 LogScenario.three_reports)
  /\ (Z.of_nat
        (length (ErrorLog.error_history
                   (ErrorLog.record_all LogScenario.three_reports
                                        LogScenario.small_handler)))
      <= 2)%Z.
Proof.
  destruct (ErrorLogFacts.record_error_keeps_newest
              LogScenario.three_reports LogScenario.small_handler)
    as (Hhistory & Hlen & _); [simpl; lia..|].
  split; [exact Hhistory|exact Hlen].
Defined.

(** X16, on a handler whose bound is zero. *)
Lemma record_error_zero_bound_keeps_all_witness :
  ErrorLog.error_history
    (ErrorLog.record_all LogScenario.three_reports LogScenario.zero_handler)
  = map ErrorLog.record_of LogScenario.three_reports.
Proof.
  apply (ErrorLogFacts.record_error_zero_bound_keeps_all
           LogScenario.three_reports LogScenario.zero_handler).
  reflexivity.
Defined.

(** X18, on a handler that was sent thirty reports. *)
Lemma check_system_health_fallback_witness :
  exists status,
    ErrorLog.check_system_health LogScenario.health_llm_down
      LogScenario.health_prompt_text (fun _ => "{}") (fun _ => "[]") ∅ ∅
      (ErrorLog.record_all LogScenario.thirty_reports
                           ErrorLog.ErrorHandler_init) tt
    = (Return {| ErrorLog.health_status := Some status;
                 ErrorLog.active_issues := [];
                 ErrorLog.recommendations := [] |}, tt)
    /\ ErrorLog.overall status = "degraded".
Proof.
  destruct (HealthFacts.check_system_health_fallback
              LogScenario.health_llm_down LogScenario.health_prompt_text
              (fun _ => "{}") (fun _ => "[]")
              LogScenario.thirty_reports ∅ ∅ tt
              (Exc "ConnectionError" "no route to host") tt eq_refl)
    as (status & Hrun & Hoverall & _).
  exists status. split; [exact Hrun|exact Hoverall].
Defined.

(** X21, on a search whose primary provider finds nothing. *)
Lemma execute_search_never_raises_witness :
  exists (results : list string) st' providers,
    Search._execute_search 2 "monads" 5 ClientScenario.fresh_search
    = Some (Return results, st')
    /\ Search.provider_calls st'
       = [] ++ Search.asked_for "monads" 5 providers
    /\ (providers = [Search.Primary] /\ results <> []
        /\ Search._use_fallback (Search.self st') = false
        \/ providers = [Search.Primary; Search.Fallback]
           /\ Search._use_fallback (Search.self st') = true).
Proof.
  destruct (SearchRuns.execute_search_never_raises 2 "monads" 5
              ClientScenario.fresh_search)
    as (results & st' & providers & Hrun & Hcalls & _ & _ & Hflag); [lia|].
  exists results, st', providers.
  split; [exact Hrun|]. split; [exact Hcalls|exact Hflag].
Defined.

(** X22, on a search whose primary provider finds a page. *)
Lemma execute_search_primary_hit_witness :
  exists st',
    Search._execute_search 1 "monads" 5 PathScenario.ready_search
    = Some (Return ["https://example.org"], st')
    /\ Search._use_fallback (Search.self st') = false
    /\ Search.ext st' = tt
    /\ Search.provider_calls st' = [] ++ [(Search.Primary, "monads", 5%Z)].
Proof.
  apply (SearchRuns.execute_search_primary_hit 1 "monads" 5
           PathScenario.ready_search ["https://example.org"] tt);
    [lia|reflexivity|reflexivity|discriminate].
Defined.

(** X23, on two searches after which the primary provider has been
    asked once. *)
Lemma primary_provider_retired_witness :
  exists outs st',
    Search.execute_all 2 [("monads", 5%Z); ("functors", 3%Z)]
      ClientScenario.fresh_search = Some (outs, st')
    /\ length outs = 2
    /\ Forall (fun o : Outcome (list string) => returns o = true) outs
    /\ Search._use_fallback (Search.self st') = true
    /\ Search.provider_calls st'
       = [] ++ [(Search.Primary, "monads", 5%Z);
                (Search.Fallback, "monads", 5%Z);
                (Search.Fallback, "functors", 3%Z)].
Proof.
  apply (SearchRuns.primary_provider_retired 2 "monads" 5
           [("functors", 3%Z)] ClientScenario.fresh_search (Return []) tt);
    [lia|reflexivity|reflexivity|by left].
Defined.

(** X24, on a client whose primary backend answers. *)
Lemma llm_primary_answer_keeps_primary_witness :
  exists st',
    LLM.perform 1 ClientScenario.ask PathScenario.healthy_client
    = Some (Return (inl "answer"), st')
    /\ LLM._use_fallback (LLM.self st') = false
    /\ LLM.ext st' = tt
    /\ LLM.backend_calls st' = [] ++ [(LLM.Primary, ClientScenario.ask)].
Proof.
  apply (LLMRuns.llm_primary_answer_keeps_primary 1 ClientScenario.ask
           PathScenario.healthy_client (inl "answer") tt);
    [lia|reflexivity|reflexivity].
Defined.

(** X25, on a client whose primary backend is down. *)
Lemma llm_call_ends_witness :
  exists (o : Outcome LLM.Reply) st' backends,
    LLM.perform 2 ClientScenario.ask ClientScenario.fresh_client
    = Some (o, st')
    /\ LLM.backend_calls st'
       = [] ++ map (fun b => (b, ClientScenario.ask)) backends
    /\ (backends = [LLM.Primary] /\ returns o = true
        /\ LLM._use_fallback (LLM.self st') = false
        \/ backends = [LLM.Primary; LLM.Fallback]
           /\ LLM._use_fallback (LLM.self st') = true).
Proof.
  destruct (LLMRuns.llm_call_ends 2 ClientScenario.ask
              ClientScenario.fresh_client)
    as (o & st' & backends & Hrun & Hcalls & _ & _ & Hflag); [lia|].
  exists o, st', backends.
  split; [exact Hrun|]. split; [exact Hcalls|exact Hflag].
Defined.

(** X26, with no attempt allowed. *)
Lemma retry_with_backoff_no_attempts_witness :
  exists st,
    Retry.retry_with_backoff ClientScenario.flaky 0 1%float 2%float 0
    = (Raise (Exc "TypeError" "exceptions must derive from BaseException"),
       st)
    /\ Retry.invocations st = []
    /\ Retry.slept st = []
    /\ Retry.ext st = 0.
Proof.
  apply (RetryEdge.retry_with_backoff_no_attempts ClientScenario.flaky 0
           1%float 2%float 0). lia.
Defined.

(** X27, on two runs of one orchestrator within the same second. *)
Lemma research_session_ids_differ_witness :
  _session_counter (Scenario.run true Scenario.stage_ok).1.2 = 1
  /\ session_id (run_session (Scenario.run true Scenario.stage_ok).2)
     <> session_id
          (run_session
             (research Scenario.llm_down Scenario.prompt_text
                (fun _ => "{}") (fun _ => "[]")
                Scenario.stage_ok Scenario.stage_ok Scenario.stage_ok
                Scenario.stage_ok Scenario.stage_ok Scenario.stage_ok
                "what is a functor" false None "20240101120000"
                (Scenario.run true Scenario.stage_ok).1.2 tt).2).
Proof.
  assert (Hlater :
            _session_counter
              (research Scenario.llm_down Scenario.prompt_text
                 (fun _ => "{}") (fun _ => "[]")
                 Scenario.stage_ok Scenario.stage_ok Scenario.stage_ok
                 Scenario.stage_ok Scenario.stage_ok Scenario.stage_ok
                 "what is a monad" true None "20240101120000"
                 Orchestrator_init tt).1.2
            <= _session_counter (Scenario.run true Scenario.stage_ok).1.2)
    by exact (le_n _).
  destruct (research_session_ids_differ Scenario.llm_down
              Scenario.prompt_text (fun _ => "{}") (fun _ => "[]")
              Scenario.stage_ok Scenario.stage_ok Scenario.stage_ok
              Scenario.stage_ok Scenario.stage_ok Scenario.stage_ok
              "what is a monad" "what is a functor" true false None None
              "20240101120000" "20240101120000"
              Orchestrator_init (Scenario.run true Scenario.stage_ok).1.2
              tt tt eq_refl Hlater) as [Hcounter Hids].
  split; [exact Hcounter|exact Hids].
Defined.

(** X29, on a run that has just started: with the language model
    unreachable the answer is the apology, and with a language model
    that replies with a string under ["fallback_content"] the handler
    raises. *)
Lemma handle_failure_answer_witness :
  (exists res,
     (_handle_research_failure Scenario.llm_down Scenario.prompt_text
        (fun _ => "{}") (fun _ => "[]") PathScenario.timeout_error
        PathScenario.started).1 = Return (Some res)
     /\ answer res = JStr "Unable to complete the research at this time."
     /\ rr_sources res = [])
  /\ (_handle_research_failure FailureScenario.llm_malformed
        Scenario.prompt_text (fun _ => "{}") (fun _ => "[]")
        PathScenario.timeout_error PathScenario.started).1
     = Raise (Exc "AttributeError" "'str' object has no attribute 'get'").
Proof.
  split.
  - destruct (handle_failure_answer Scenario.llm_down Scenario.prompt_text
                (fun _ => "{}") (fun _ => "[]") PathScenario.timeout_error
                PathScenario.started
                (Raise (Exc "ConnectionError" "no route to host")) tt eq_refl)
      as (_ & _ & _ & Hout).
    eexists. split; [exact Hout|]. split; reflexivity.
  - destruct (handle_failure_answer FailureScenario.llm_malformed
                Scenario.prompt_text (fun _ => "{}") (fun _ => "[]")
                PathScenario.timeout_error PathScenario.started
                (Return FailureScenario.malformed_reply) tt eq_refl)
      as (_ & _ & _ & Hout).
    exact Hout.
Defined.

(** C1, on a run whose language model replies with a string under
    ["fallback_content"]: the first stage call raises, and what reaches
    the caller is the [AttributeError] of the handler. *)
Lemma research_failure_outcome_witness :
  let run :=
    FailureScenario.research_with FailureScenario.llm_malformed None in
  (QUERY_ANALYSIS, Raise Calls.analyze_query_rejected) ∈ run_calls run.2
  /\ run.1.1
     = Raise (Exc "AttributeError" "'str' object has no attribute 'get'").
Proof.
  cbn zeta.
  assert (Hin : (QUERY_ANALYSIS, Raise Calls.analyze_query_rejected)
                ∈ run_calls
                    (FailureScenario.research_with
                       FailureScenario.llm_malformed None).2)
    by (vm_compute; constructor).
  split; [exact Hin|].
  destruct (research_failure_outcome FailureScenario.llm_malformed
              Scenario.prompt_text (fun _ => "{}") (fun _ => "[]")
              (Calls.as_called QUERY_ANALYSIS Scenario.stage_ok)
              (Calls.as_called WEB_SEARCH Scenario.stage_ok)
              (Calls.as_called REASONING Scenario.stage_ok)
              (Calls.as_called VERIFICATION Scenario.stage_ok)
              (Calls.as_called CITATION Scenario.stage_ok)
              (Calls.as_called OUTPUT_GENERATION Scenario.stage_ok)
              "what is a monad" true None "20240101120000"
              Orchestrator_init tt QUERY_ANALYSIS
              Calls.analyze_query_rejected Hin)
    as (o & w1 & Hcall & Hout).
  unfold FailureScenario.llm_malformed in Hcall. injection Hcall as <- _.
  exact (proj1 Hout).
Defined.

(** C5, on that run: [research] raises, and the session is gone from the
    registry. *)
Lemma research_session_cleaned_up_witness :
  let '(o, self', st) :=
    FailureScenario.research_with FailureScenario.llm_malformed None in
  o = Raise (Exc "AttributeError" "'str' object has no attribute 'get'")
  /\ session_id (run_session st) = "session_1_20240101120000"
  /\ active_sessions self' !! "session_1_20240101120000" = None.
Proof.
  pose proof (research_session_cleaned_up FailureScenario.llm_malformed
                Scenario.prompt_text (fun _ => "{}") (fun _ => "[]")
                (Calls.as_called QUERY_ANALYSIS Scenario.stage_ok)
                (Calls.as_called WEB_SEARCH Scenario.stage_ok)
                (Calls.as_called REASONING Scenario.stage_ok)
                (Calls.as_called VERIFICATION Scenario.stage_ok)
                (Calls.as_called CITATION Scenario.stage_ok)
                (Calls.as_called OUTPUT_GENERATION Scenario.stage_ok)
                "what is a monad" true None "20240101120000"
                Orchestrator_init tt) as H.
  cbn zeta in H. unfold FailureScenario.research_with.
  destruct (research _ _ _ _ _ _ _ _ _ _ _ _ _ _ _ _) as [[o self'] st]
    eqn:Hrun.
  destruct H as (Hid & Hnone & _).
  split; [|split; [exact Hid|exact Hnone]].
  vm_compute in Hrun. by injection Hrun as <- _ _.
Defined.

(** X7, on a run with the language model unreachable: the error of the
    first stage call is recorded and the degraded result returned. *)
Lemma research_failure_bookkeeping_witness :
  let run := FailureScenario.research_with Scenario.llm_down None in
  stages_completed (progress (run_session run.2)) = []
  /\ errors (progress (run_session run.2))
     = ["query_analysis: ResearchOrchestrator._analyze_query() takes 2 positional arguments but 3 were given"]
  /\ exists res,
       run.1.1 = Return (Some res)
       /\ verification_status res = "failed"
       /\ confidence res = 0.2%float.
Proof.
  cbn zeta.
  assert (Hin : (QUERY_ANALYSIS, Raise Calls.analyze_query_rejected)
                ∈ run_calls
                    (FailureScenario.research_with Scenario.llm_down None).2)
    by (vm_compute; constructor).
  destruct (research_failure_bookkeeping Scenario.llm_down
              Scenario.prompt_text (fun _ => "{}") (fun _ => "[]")
              (Calls.as_called QUERY_ANALYSIS Scenario.stage_ok)
              (Calls.as_called WEB_SEARCH Scenario.stage_ok)
              (Calls.as_called REASONING Scenario.stage_ok)
              (Calls.as_called VERIFICATION Scenario.stage_ok)
              (Calls.as_called CITATION Scenario.stage_ok)
              (Calls.as_called OUTPUT_GENERATION Scenario.stage_ok)
              "what is a monad" true None "20240101120000"
              Orchestrator_init tt QUERY_ANALYSIS
              Calls.analyze_query_rejected Hin)
    as (done & rest & o & w1 & Hplan & Hdone & Herrs & _ & _ & _ & _ & Hres).
  destruct (Hres _ eq_refl) as (res & Hsome & Hv & Hc & _).
  assert (Hnil : done = []).
  { destruct done as [|stage done']; [done|].
    simpl in Hplan. injection Hplan as <- Hplan.
    destruct done'; discriminate. }
  split; [by rewrite <- Hnil|]. split; [exact Herrs|].
  exists res. split; [|by split].
  rewrite <- Hsome. reflexivity.
Defined.
